(** * Task-Mange-Demo: calendar layout and the application reducer

    A shallow embedding of the calendar engine of the repository
    (lib/dates.ts, lib/taskSegments.ts, App.tsx and the components)
    and the proofs of its specified properties.

    Modelling conventions.
    - A JavaScript [Date] that is not the Invalid Date is its time value,
      an integer number of milliseconds ([Z]) of absolute value at most
      8.64e15; an expression that may be the Invalid Date has type
      [option Z] with [None] for the Invalid Date, and an operation whose
      result leaves the range yields the Invalid Date ([time_clip]).
      The local time zone has offset zero: the specification treats every
      date as a timezone-naive civil date.
    - A date string is the record of its three numeric fields
      ([IsoDate]).  [parseISO] reads it as a civil date when the year has
      four digits (0000..9999), the month is in 1..12 and the day exists
      in that month, and yields the Invalid Date otherwise.  [format]
      prints the year of the era, as the pattern yyyy does: the year
      itself from year 1 on, and 1 - y for a year y <= 0; a year above
      9999 is printed with more than four digits, which [parseISO] does
      not read back.
    - The functions of the date-fns library are modelled from their
      source, over the proleptic Gregorian calendar.
    - A thrown exception is the [Throw] result. *)

From Stdlib Require Import ZArith List Bool String Lia.
From stdpp Require Import base list strings gmap.
Import ListNotations.
Local Open Scope Z_scope.

(** ** The Gregorian calendar *)

Module Calendar.

Definition MS_PER_DAY : Z := 86400000.

(** The era is the 400-year cycle of the calendar, 146097 days long; the
    day of the era counts from the first of March of a year divisible
    by 400. *)
Definition DAYS_PER_ERA : Z := 146097.
Definition EPOCH_SHIFT : Z := 719468.

Definition is_leap (y : Z) : bool :=
  (y mod 4 =? 0) && (negb (y mod 100 =? 0) || (y mod 400 =? 0)).

Definition days_in_month (y m : Z) : Z :=
  if m =? 2 then (if is_leap y then 29 else 28)
  else if (m =? 4) || (m =? 6) || (m =? 9) || (m =? 11) then 30
  else 31.

(** Position of a month in the year that starts in March. *)
Definition month_index (m : Z) : Z := if 2 <? m then m - 3 else m + 9.
Definition index_month (mp : Z) : Z := if mp <? 10 then mp + 3 else mp - 9.

(** Day of the era of year-of-era [yoe] (March based), month [m], day [d]. *)
Definition doe_of_ymd (yoe m d : Z) : Z :=
  let doy := (153 * month_index m + 2) / 5 + d - 1 in
  yoe * 365 + yoe / 4 - yoe / 100 + doy.

Definition ymd_of_doe (doe : Z) : Z * Z * Z :=
  let yoe := (doe - doe / 1460 + doe / 36524 - doe / 146096) / 365 in
  let doy := doe - (365 * yoe + yoe / 4 - yoe / 100) in
  let mp := (5 * doy + 2) / 153 in
  (yoe, index_month mp, doy - (153 * mp + 2) / 5 + 1).

(** Days since 1970-01-01 of the civil date y-m-d. *)
Definition days_from_civil (y m d : Z) : Z :=
  let y' := if m <=? 2 then y - 1 else y in
  (y' / 400) * DAYS_PER_ERA + doe_of_ymd (y' mod 400) m d - EPOCH_SHIFT.

(** The civil date (year, month, day) of a day number. *)
Definition civil_from_days (z : Z) : Z * Z * Z :=
  let z' := z + EPOCH_SHIFT in
  let '(yoe, m, d) := ymd_of_doe (z' mod DAYS_PER_ERA) in
  let y := yoe + (z' / DAYS_PER_ERA) * 400 in
  (if m <=? 2 then y + 1 else y, m, d).

End Calendar.

Import Calendar.

(** ** ISO date strings and the date-fns functions *)

Record IsoDate : Type := mkIso { iso_year : Z; iso_month : Z; iso_day : Z }.

Definition valid_iso (s : IsoDate) : bool :=
  (0 <=? iso_year s) && (iso_year s <=? 9999) &&
  (1 <=? iso_month s) && (iso_month s <=? 12) &&
  (1 <=? iso_day s) && (iso_day s <=? days_in_month (iso_year s) (iso_month s)).

(** The order of ISO date strings: "YYYY-MM-DD" strings compare like their
    fields, year first. *)
Definition iso_ltb (a b : IsoDate) : bool :=
  (iso_year a <? iso_year b) ||
  ((iso_year a =? iso_year b) &&
   ((iso_month a <? iso_month b) ||
    ((iso_month a =? iso_month b) && (iso_day a <? iso_day b)))).

Definition iso_min (a b : IsoDate) : IsoDate := if iso_ltb b a then b else a.
Definition iso_max (a b : IsoDate) : IsoDate := if iso_ltb b a then a else b.

(** [Date] is the time value, in milliseconds, of a valid Date. *)
Definition Date : Type := Z.

(** The largest time value of a Date: 100 000 000 days. *)
Definition MAX_TIME : Z := 8640000000000000.

(** TimeClip: the Date with time value [t], the Invalid Date when [t] is
    out of range. *)
Definition time_clip (t : Z) : option Date :=
  if (- MAX_TIME <=? t) && (t <=? MAX_TIME) then Some t else None.

Definition dayOf (t : Date) : Z := t / MS_PER_DAY.
Definition dateOfDay (n : Z) : Date := n * MS_PER_DAY.

(** The time value [n] days after [t]. *)
Definition plusDays (t : Date) (n : Z) : Z := t + n * MS_PER_DAY.

(** parseISO: local midnight of the civil date, Invalid Date when the
    string names no date. *)
Definition parseISO (s : IsoDate) : option Date :=
  if valid_iso s
  then Some (dateOfDay (days_from_civil (iso_year s) (iso_month s) (iso_day s)))
  else None.

(** The year that the pattern yyyy prints for the year [y]. *)
Definition era_year (y : Z) : Z := if 0 <? y then y else 1 - y.

(** format(date, 'yyyy-MM-dd') of a valid date. *)
Definition format (t : Date) : IsoDate :=
  let '(y, m, d) := civil_from_days (dayOf t) in mkIso (era_year y) m d.

Definition getDate (t : Date) : Z :=
  let '(_, _, d) := civil_from_days (dayOf t) in d.
Definition getDay (t : Date) : Z := (dayOf t + 4) mod 7.

(** startOfDay (setHours(0, 0, 0, 0)) never leaves the range of time
    values, whose lower end is a midnight. *)
Definition startOfDay (t : Date) : Date := dateOfDay (dayOf t).

(** setHours(23, 59, 59, 999). *)
Definition endOfDay (t : Date) : option Date :=
  time_clip (dateOfDay (dayOf t) + (MS_PER_DAY - 1)).

(** addDays: setDate(getDate() + n). *)
Definition addDays (t : Date) (n : Z) : option Date := time_clip (plusDays t n).

(** Number of full days from [r] to [l], truncated towards zero. *)
Definition differenceInDays (l r : Date) : Z := Z.quot (l - r) MS_PER_DAY.

(** startOfMonth: setDate(1), which keeps the time of the day, then
    setHours(0, 0, 0, 0). *)
Definition startOfMonth (t : Date) : option Date :=
  let '(y, m, _) := civil_from_days (dayOf t) in
  d ← time_clip (dateOfDay (days_from_civil y m 1) + t mod MS_PER_DAY);
  Some (startOfDay d).

(** endOfMonth: setFullYear(year, month + 1, 0), which keeps the time of
    the day, then setHours(23, 59, 59, 999). *)
Definition endOfMonth (t : Date) : option Date :=
  let '(y, m, _) := civil_from_days (dayOf t) in
  d ← time_clip (dateOfDay (days_from_civil y m (days_in_month y m))
                 + t mod MS_PER_DAY);
  endOfDay d.

Definition startOfWeek (t : Date) (weekStartsOn : Z) : option Date :=
  let day := getDay t in
  let diff := (if day <? weekStartsOn then 7 else 0) + day - weekStartsOn in
  d ← addDays t (- diff);
  Some (startOfDay d).

Definition endOfWeek (t : Date) (weekStartsOn : Z) : option Date :=
  let day := getDay t in
  let diff := (if day <? weekStartsOn then -7 else 0) + 6 - (day - weekStartsOn) in
  d ← addDays t diff;
  endOfDay d.

Definition isToday (now t : Date) : bool := dayOf t =? dayOf now.

(** Comparison of possibly invalid dates: a comparison with the Invalid
    Date (time value NaN) is false. *)
Definition js_le (a b : option Date) : bool :=
  match a, b with Some x, Some y => x <=? y | _, _ => false end.
Definition js_lt (a b : option Date) : bool :=
  match a, b with Some x, Some y => x <? y | _, _ => false end.
Definition js_eq (a b : option Date) : bool :=
  match a, b with Some x, Some y => x =? y | _, _ => false end.
Definition isBefore (a b : option Date) : bool := js_lt a b.
Definition isAfter (a b : option Date) : bool := js_lt b a.

(** The starts of [n] consecutive days from [first] on. *)
Definition days_from (first : Date) (n : nat) : list Date :=
  List.map (fun k => plusDays first (Z.of_nat k)) (seq 0 n).

(** eachDayOfInterval: the start of every day from the day of [s] to the
    day of [e]; for a reversed interval the days of the reversed interval,
    latest first.  With an Invalid Date at either end the loop
    [while (+currentDate <= endTime)] is not entered and the result is
    empty.  Every date of the result is at most [endTime], hence in
    range; the loop ends when the next day exceeds [endTime]. *)
Definition eachDayOfInterval (s e : option Date) : list Date :=
  match s, e with
  | Some s, Some e =>
      let reversed := e <? s in
      let endTime := if reversed then s else e in
      let currentDate := startOfDay (if reversed then e else s) in
      let dates :=
        if currentDate <=? endTime
        then days_from currentDate
               (Z.to_nat ((endTime - currentDate) / MS_PER_DAY + 1))
        else [] in
      if reversed then rev dates else dates
  | _, _ => []
  end.

(** ** Exceptions *)

Inductive JsError : Type := RangeError | TypeError.

Inductive Result (A : Type) : Type :=
| Ok (a : A)
| Throw (e : JsError).
Arguments Ok {A} a.
Arguments Throw {A} e.

#[global] Instance Result_ret : MRet Result := fun A a => Ok a.
#[global] Instance Result_bind : MBind Result := fun A B f m =>
  match m with Ok a => f a | Throw e => Throw e end.

(** format of a date that may be invalid: RangeError on the Invalid Date. *)
Definition format_date (d : option Date) : Result IsoDate :=
  match d with Some t => Ok (format t) | None => Throw RangeError end.

(** Array.prototype.map with a callback that may throw. *)
Fixpoint map_result {A B : Type} (f : A -> Result B) (l : list A) : Result (list B) :=
  match l with
  | [] => Ok []
  | x :: l' => y ← f x; ys ← map_result f l'; Ok (y :: ys)
  end.

(** ** types.ts *)

Inductive Category : Type := ToDo | InProgress | Review | Completed.

Record Task : Type := mkTask {
  task_id : string;
  task_name : string;
  task_category : Category;
  task_start : IsoDate;
  task_end : IsoDate
}.

Record DateRange : Type := mkRange { range_start : IsoDate; range_end : IsoDate }.

Record SelectionState : Type := mkSelection {
  sel_start : option IsoDate;
  sel_end : option IsoDate;
  isSelecting : bool
}.

Record ModalState : Type := mkModal {
  modal_open : bool;
  draftRange : option DateRange;
  editingTaskId : option string
}.

Record FilterState : Type := mkFilters {
  search : string;
  categories : list Category;
  timeRangeWeeks : Z
}.

Record AppState : Type := mkState {
  tasks : list Task;
  selection : SelectionState;
  modal : ModalState;
  filters : FilterState;
  currentMonth : Date
}.

(** ** lib/dates.ts *)

Definition WEEK_START_DAY : Z := 0.

Definition normalizeDateRange (s e : IsoDate) : DateRange :=
  let startDate := parseISO s in
  let endDate := parseISO e in
  if js_le startDate endDate then mkRange s e else mkRange e s.

(** differenceInDays and addDays on dates that may be invalid; a NaN
    number is [None]. *)
Definition differenceInDays_opt (l r : option Date) : option Z :=
  match l, r with Some x, Some y => Some (differenceInDays x y) | _, _ => None end.
Definition addDays_opt (d : option Date) (n : option Z) : option Date :=
  match d, n with Some t, Some k => addDays t k | _, _ => None end.

Definition dayCountInclusive (s e : IsoDate) : option Z :=
  let startDate := parseISO s in
  let endDate := parseISO e in
  (fun n => n + 1) <$> differenceInDays_opt endDate startDate.

Definition dateRangesOverlap (range1 range2 : DateRange) : bool :=
  let start1 := parseISO (range_start range1) in
  let end1 := parseISO (range_end range1) in
  let start2 := parseISO (range_start range2) in
  let end2 := parseISO (range_end range2) in
  js_le start1 end2 && js_le start2 end1.

(** ** App.tsx: the reducer *)

Inductive AppAction : Type :=
| SELECTION_START (isoDate : IsoDate)
| SELECTION_UPDATE (isoDate : IsoDate)
| SELECTION_END
| MODAL_OPEN (draft : option DateRange)
| MODAL_CLOSE
| TASK_CREATE (name : string) (category : Category) (start end_ : IsoDate)
| TASK_MOVE (taskId : string) (newStartDate : IsoDate)
| TASK_RESIZE (taskId : string) (newStart newEnd : IsoDate)
| FILTERS_CHANGE (filters : FilterState)
| MONTH_CHANGE (month : Date).

Definition set_tasks (state : AppState) (ts : list Task) : AppState :=
  mkState ts (selection state) (modal state) (filters state) (currentMonth state).
Definition set_selection (state : AppState) (sel : SelectionState) : AppState :=
  mkState (tasks state) sel (modal state) (filters state) (currentMonth state).
Definition set_modal (state : AppState) (m : ModalState) : AppState :=
  mkState (tasks state) (selection state) m (filters state) (currentMonth state).

(** The object spread of a task with new [start] and [end]. *)
Definition set_range (t : Task) (s e : IsoDate) : Task :=
  mkTask (task_id t) (task_name t) (task_category t) s e.

Definition not_selecting : SelectionState := mkSelection None None false.

(** [newId] is the value of the template string
    task-${Date.now()}-${Math.random()} at the time of the call. *)
Definition appReducer (newId : string) (state : AppState) (action : AppAction)
  : Result AppState :=
  match action with
  | SELECTION_START isoDate =>
      Ok (set_selection state (mkSelection (Some isoDate) (Some isoDate) true))
  | SELECTION_UPDATE isoDate =>
      if negb (isSelecting (selection state)) then Ok state
      else Ok (set_selection state
                 (mkSelection (sel_start (selection state)) (Some isoDate)
                              (isSelecting (selection state))))
  | SELECTION_END =>
      match isSelecting (selection state), sel_start (selection state),
            sel_end (selection state) with
      | true, Some s, Some e =>
          let normalized := normalizeDateRange s e in
          Ok (set_modal (set_selection state not_selecting)
                (mkModal true (Some normalized) None))
      | _, _, _ => Ok (set_selection state not_selecting)
      end
  | MODAL_OPEN _ => Ok state
  | MODAL_CLOSE =>
      Ok (set_selection (set_modal state (mkModal false None None)) not_selecting)
  | TASK_CREATE name category start end_ =>
      let newTask := mkTask newId name category start end_ in
      Ok (set_selection
            (set_modal (set_tasks state (tasks state ++ [newTask]))
               (mkModal false None None))
            not_selecting)
  | TASK_MOVE taskId newStartDate =>
      match List.find (fun t => String.eqb (task_id t) taskId) (tasks state) with
      | None => Ok state
      | Some task =>
          let taskStart := parseISO (task_start task) in
          let taskEnd := parseISO (task_end task) in
          let duration := differenceInDays_opt taskEnd taskStart in
          let newStart := parseISO newStartDate in
          let newEnd := addDays_opt newStart duration in
          ts ← map_result (fun t =>
                  if String.eqb (task_id t) taskId
                  then s ← format_date newStart;
                       e ← format_date newEnd;
                       Ok (set_range t s e)
                  else Ok t) (tasks state);
          Ok (set_tasks state ts)
      end
  | TASK_RESIZE taskId newStart newEnd =>
      let normalized := normalizeDateRange newStart newEnd in
      Ok (set_tasks state
            (List.map (fun t =>
               if String.eqb (task_id t) taskId
               then set_range t (range_start normalized) (range_end normalized)
               else t) (tasks state)))
  | FILTERS_CHANGE f =>
      Ok (mkState (tasks state) (selection state) (modal state) f (currentMonth state))
  | MONTH_CHANGE m =>
      Ok (mkState (tasks state) (selection state) (modal state) (filters state) m)
  end.

(** forEach over an array, with a callback that threads the variables it
    assigns and may throw. *)
Fixpoint forEach_index {A St : Type} (f : St -> A -> nat -> Result St)
    (l : list A) (index : nat) (st : St) : Result St :=
  match l with
  | [] => Ok st
  | x :: l' => st' ← f st x index; forEach_index f l' (S index) st'
  end.

Definition forEach {A St : Type} (f : St -> A -> Result St) (l : list A)
    (st : St) : Result St :=
  forEach_index (fun st x _ => f st x) l 0%nat st.

Record CalendarDay : Type := mkDay {
  date : Date;
  isCurrentMonth : bool;
  isoDate : IsoDate;
  dayNumber : Z;
  day_isToday : bool
}.

Record WeekRow : Type := mkWeek {
  days : list CalendarDay;
  startDate : Date;
  endDate : Date
}.

(** [l[i].date]: a TypeError when the array has no element [i]. *)
Definition date_at (l : list CalendarDay) (i : nat) : Result Date :=
  match l !! i with
  | Some d => Ok (date d)
  | None => Throw TypeError
  end.

(** The callback of the forEach of generateMonthGrid; the state is the
    pair of the arrays [weeks] and [currentWeek]. [now] is the clock that
    isToday reads. *)
Definition grid_callback (now : Date) (monthStart monthEnd : option Date)
    (st : list WeekRow * list CalendarDay) (d : Date) (index : nat)
  : Result (list WeekRow * list CalendarDay) :=
  let '(weeks, currentWeek) := st in
  let day := mkDay d (js_le monthStart (Some d) && js_le (Some d) monthEnd)
                   (format d) (getDate d) (isToday now d) in
  let currentWeek := currentWeek ++ [day] in
  if (Z.of_nat index + 1) mod 7 =? 0 then
    s ← date_at currentWeek 0;
    e ← date_at currentWeek 6;
    Ok (weeks ++ [mkWeek currentWeek s e], [])
  else Ok (weeks, currentWeek).

Definition generateMonthGrid (now month : Date) : Result (list WeekRow) :=
  let monthStart := startOfMonth month in
  let monthEnd := endOfMonth month in
  let calendarStart := d ← monthStart; startOfWeek d WEEK_START_DAY in
  let calendarEnd := d ← monthEnd; endOfWeek d WEEK_START_DAY in
  let allDays := eachDayOfInterval calendarStart calendarEnd in
  st ← forEach_index (grid_callback now monthStart monthEnd) allDays 0%nat ([], []);
  Ok (fst st).

(** ** lib/taskSegments.ts *)

Record TaskSegment : Type := mkSegment {
  seg_task : Task;
  seg_startDate : IsoDate;
  seg_endDate : IsoDate;
  startColumn : Z;
  widthInColumns : Z;
  rowIndex : Z
}.

Fixpoint findIndex {A : Type} (p : A -> bool) (l : list A) : Z :=
  match l with
  | [] => -1
  | x :: l' =>
      if p x then 0
      else let i := findIndex p l' in if i =? -1 then -1 else i + 1
  end.

(** The callback of the forEach of calculateTaskSegments; the state is the
    array [segments]. *)
Definition segment_callback (task : Task) (taskStart taskEnd : option Date)
    (segments : list TaskSegment) (weekRow : WeekRow)
  : Result (list TaskSegment) :=
  let weekStart := startOfDay (startDate weekRow) in
  let weekEnd := startOfDay (endDate weekRow) in
  if isAfter taskStart (Some weekEnd) || isBefore taskEnd (Some weekStart)
  then Ok segments
  else
    let segmentStartDate :=
      if isBefore taskStart (Some weekStart) then Some weekStart else taskStart in
    let segmentEndDate :=
      if isAfter taskEnd (Some weekEnd) then Some weekEnd else taskEnd in
    let startColumn :=
      findIndex (fun day => js_eq (Some (date day)) segmentStartDate) (days weekRow) in
    let endColumn :=
      findIndex (fun day => js_eq (Some (date day)) segmentEndDate) (days weekRow) in
    if (startColumn =? -1) || (endColumn =? -1) then Ok segments
    else
      segmentStartISO ← format_date segmentStartDate;
      segmentEndISO ← format_date segmentEndDate;
      let widthInColumns := endColumn - startColumn + 1 in
      Ok (segments ++ [mkSegment task segmentStartISO segmentEndISO
                         startColumn widthInColumns 0]).

Definition calculateTaskSegments (task : Task) (weekRows : list WeekRow)
  : Result (list TaskSegment) :=
  let taskStart := parseISO (task_start task) in
  let taskEnd := parseISO (task_end task) in
  forEach (segment_callback task taskStart taskEnd) weekRows [].

Definition segmentsOverlap (seg1 seg2 : TaskSegment) : bool :=
  let seg1EndCol := startColumn seg1 + widthInColumns seg1 - 1 in
  let seg2EndCol := startColumn seg2 + widthInColumns seg2 - 1 in
  negb ((seg1EndCol <? startColumn seg2) || (seg2EndCol <? startColumn seg1)).

(** *** The row stacker

    calculateRowIndices assigns [segment.rowIndex] in place, so segments
    are objects of a store, named by their address; an array of segments
    is a list of addresses, and the same object may occur in it twice. *)

Abbreviation Addr := nat (only parsing).
Abbreviation Store := (list TaskSegment) (only parsing).

#[global] Instance TaskSegment_inhabited : Inhabited TaskSegment :=
  populate (mkSegment (mkTask "" "" ToDo (mkIso 0 0 0) (mkIso 0 0 0))
              (mkIso 0 0 0) (mkIso 0 0 0) 0 0 0).

Definition set_rowIndex (r : Z) (s : TaskSegment) : TaskSegment :=
  mkSegment (seg_task s) (seg_startDate s) (seg_endDate s)
            (startColumn s) (widthInColumns s) r.

(** Array.prototype.sort with a comparator: a stable sort. *)
Fixpoint sort_insert {A : Type} (cmp : A -> A -> Z) (x : A) (l : list A) : list A :=
  match l with
  | [] => [x]
  | y :: l' => if cmp x y <=? 0 then x :: y :: l' else y :: sort_insert cmp x l'
  end.

Definition sort_by {A : Type} (cmp : A -> A -> Z) (l : list A) : list A :=
  foldr (sort_insert cmp) [] l.

(** The while loop: the first row at or after [rowIndex] in which the
    segment overlaps nothing, or the length of [rows] when there is none;
    [scan] is the part of [rows] from [rowIndex] on. *)
Fixpoint find_row (store : Store) (segment : Addr) (scan : list (list Addr))
    (rowIndex : nat) : nat :=
  match scan with
  | [] => rowIndex
  | row :: rest =>
      let overlaps :=
        existsb (fun existing =>
                   segmentsOverlap (store !!! segment) (store !!! existing)) row in
      if negb overlaps then rowIndex else find_row store segment rest (S rowIndex)
  end.

(** The callback of the forEach of calculateRowIndices; the state is the
    store and the array [rows]. *)
Definition place_segment (st : Store * list (list Addr)) (segment : Addr)
  : Store * list (list Addr) :=
  let '(store, rows) := st in
  let rowIndex := find_row store segment rows 0 in
  let rows := if decide (length rows ≤ rowIndex)%nat then rows ++ [[]] else rows in
  let rows := alter (fun row => row ++ [segment]) rowIndex rows in
  (alter (set_rowIndex (Z.of_nat rowIndex)) segment store, rows).

(** Returns the store after the call; the array [segments] itself is
    returned unchanged. *)
Definition calculateRowIndices (store : Store) (segments : list Addr) : Store :=
  let sorted :=
    sort_by (fun a b => startColumn (store !!! a) - startColumn (store !!! b))
            segments in
  fst (fold_left place_segment sorted (store, [])).

(** ** components/TaskBar.tsx *)

Inductive ResizeSide : Type := left | right.

(** A call onResize(taskId, newStart, newEnd). *)
Record ResizeCall : Type := mkResize {
  resize_taskId : string;
  resize_newStart : IsoDate;
  resize_newEnd : IsoDate
}.

(** handleResizeMove of the bar of [task]. [dragStart] tells whether
    dragStartRef.current is set, [targetDate] is the date that findDateAtX
    resolves under the pointer ([None] when there is no grid or no cell);
    the result is the call of onResize, if any. *)
Definition handleResizeMove (task : Task) (isResizing : option ResizeSide)
    (dragStart : bool) (targetDate : option IsoDate)
  : Result (option ResizeCall) :=
  if negb dragStart then Ok None
  else match targetDate with
  | None => Ok None
  | Some targetDate =>
      let taskStart := parseISO (task_start task) in
      let taskEnd := parseISO (task_end task) in
      let targetDateObj := parseISO targetDate in
      match isResizing with
      | Some left =>
          if js_lt taskEnd targetDateObj then
            s ← format_date taskEnd; e ← format_date taskEnd;
            Ok (Some (mkResize (task_id task) s e))
          else
            e ← format_date taskEnd;
            Ok (Some (mkResize (task_id task) targetDate e))
      | Some right =>
          if js_lt targetDateObj taskStart then
            s ← format_date taskStart; e ← format_date taskStart;
            Ok (Some (mkResize (task_id task) s e))
          else
            s ← format_date taskStart;
            Ok (Some (mkResize (task_id task) s targetDate))
      | None => Ok None
      end
  end.

(** ** Further functions of lib/dates.ts, lib/taskSegments.ts and the components *)

Definition getTimeRangeFilter (today : Date) (weeks : Z) : Result DateRange :=
  let endDate := addDays today (weeks * 7) in
  s ← format_date (Some today);
  e ← format_date endDate;
  Ok (mkRange s e).

Definition calculateAllTaskSegments (tasks : list Task) (weekRows : list WeekRow)
  : Result (list TaskSegment) :=
  forEach (fun allSegments task =>
             segments ← calculateTaskSegments task weekRows;
             Ok (allSegments ++ segments))
          tasks [].

(** The callback of the forEach of groupSegmentsByWeek; the state is the
    store of the segment objects and the Map [grouped]. *)
Definition group_callback (segments : list Addr)
    (st : list TaskSegment * gmap nat (list Addr)) (weekRow : WeekRow)
    (weekIndex : nat) : list TaskSegment * gmap nat (list Addr) :=
  let '(store, grouped) := st in
  let weekSegments :=
    List.filter (fun segment =>
      let segmentStart := parseISO (seg_startDate (store !!! segment)) in
      let weekStart := startOfDay (startDate weekRow) in
      let weekEnd := startOfDay (endDate weekRow) in
      js_le (Some weekStart) segmentStart && js_le segmentStart (Some weekEnd))
      segments in
  if (0 <? length weekSegments)%nat then
    (calculateRowIndices store weekSegments, <[weekIndex := weekSegments]> grouped)
  else (store, grouped).

Fixpoint forEach_pure {A St : Type} (f : St -> A -> nat -> St) (l : list A)
    (index : nat) (st : St) : St :=
  match l with
  | [] => st
  | x :: l' => forEach_pure f l' (S index) (f st x index)
  end.

Definition groupSegmentsByWeek (store : list TaskSegment) (segments : list Addr)
    (weekRows : list WeekRow) : list TaskSegment * gmap nat (list Addr) :=
  forEach_pure (group_callback segments) weekRows 0%nat (store, ∅).

(** *** App.tsx *)

(** handleTaskCreate: the action dispatched, if any. *)
Definition handleTaskCreate (state : AppState) (name : string) (category : Category)
  : option AppAction :=
  match draftRange (modal state) with
  | None => None
  | Some r => Some (TASK_CREATE name category (range_start r) (range_end r))
  end.

(** *** components/TaskBar.tsx, continued *)

Definition iso_eqb (a b : IsoDate) : bool :=
  (iso_year a =? iso_year b) && (iso_month a =? iso_month b)
  && (iso_day a =? iso_day b).

(** handleDragMove: the call onMove(taskId, newStartDate), if any. *)
Definition handleDragMove (task : Task) (targetDate : option IsoDate)
  : option (string * IsoDate) :=
  match targetDate with
  | None => None
  | Some newStart =>
      if negb (iso_eqb newStart (task_start task))
      then Some (task_id task, newStart)
      else None
  end.

(** *** components/CalendarMonth.tsx *)


Definition currentMonthTasks (month : Date) (tasks : list Task)
  : Result (list Task) :=
  monthStart ← format_date (startOfMonth month);
  monthEnd ← format_date (endOfMonth month);
  Ok (List.filter (fun task =>
        let taskStart := parseISO (task_start task) in
        let taskEnd := parseISO (task_end task) in
        let monthStartDate := parseISO monthStart in
        let monthEndDate := parseISO monthEnd in
        js_le taskStart monthEndDate && js_le monthStartDate taskEnd) tasks).

Record TaskStats : Type := mkStats {
  stats_total : Z;
  stats_completed : Z;
  stats_inProgress : Z;
  stats_todo : Z;
  stats_review : Z
}.

Definition taskStats (currentMonthTasks : list Task) : TaskStats :=
  fold_left (fun stats task =>
    match task_category task with
    | Completed => mkStats (stats_total stats) (stats_completed stats + 1)
                     (stats_inProgress stats) (stats_todo stats) (stats_review stats)
    | InProgress => mkStats (stats_total stats) (stats_completed stats)
                      (stats_inProgress stats + 1) (stats_todo stats) (stats_review stats)
    | ToDo => mkStats (stats_total stats) (stats_completed stats)
                (stats_inProgress stats) (stats_todo stats + 1) (stats_review stats)
    | Review => mkStats (stats_total stats) (stats_completed stats)
                  (stats_inProgress stats) (stats_todo stats) (stats_review stats + 1)
    end)
    currentMonthTasks
    (mkStats (Z.of_nat (length currentMonthTasks)) 0 0 0 0).

(** * Vocabulary of the specifications *)

(** January and February belong to the year that started in the March
    before. *)
Definition jan_feb (m : Z) : Z := if m <=? 2 then 1 else 0.

(** The order of civil dates (year, month, day). *)
Definition civil_lt (a b : Z * Z * Z) : Prop :=
  let '(y1, m1, d1) := a in
  let '(y2, m2, d2) := b in
  y1 < y2 \/ (y1 = y2 /\ (m1 < m2 \/ (m1 = m2 /\ d1 < d2))).

(** The day numbers of 0001-01-01, the first day from which format
    prints the year as parseISO reads it, of 9999-12-31, the last day that
    a date string can name, and of 0000-01-01, the first one. *)
Definition FIRST_DAY : Z := -719162.
Definition LAST_DAY : Z := 2932896.
Definition YEAR0_DAY : Z := -719528.

(** What TASK_MOVE does to one task of the list. *)
Definition move_task (taskId : string) (s e : IsoDate) (t : Task) : Task :=
  if String.eqb (task_id t) taskId then set_range t s e else t.

(** The part of the state that a move or resize of [taskId] leaves alone. *)
Definition same_but_range_of (taskId : string) (state state' : AppState) : Prop :=
  selection state' = selection state /\
  modal state' = modal state /\
  filters state' = filters state /\
  currentMonth state' = currentMonth state /\
  Forall2 (fun t t' =>
             task_id t' = task_id t /\ task_name t' = task_name t /\
             task_category t' = task_category t /\
             (task_id t <> taskId -> t' = t))
          (tasks state) (tasks state').

(** The task of the specification's resize example, and a state that
    holds it. *)
Definition demo_task : Task :=
  mkTask "task-1" "Write report" InProgress (mkIso 2024 3 10) (mkIso 2024 3 15).

Definition demo_state : AppState :=
  mkState [demo_task] (mkSelection None None false) (mkModal false None None)
          (mkFilters "" [] 0) (dateOfDay 19797).

(** A state with one task.  *)
Definition state_of (task : Task) : AppState :=
  mkState [task] (mkSelection None None false) (mkModal false None None)
          (mkFilters "" [] 0) (dateOfDay 19797).

(** Tasks of the year 0000, which parseISO reads and format prints as
    the year 0001, and a task at the end of the year 9999. *)
Definition year0_task : Task :=
  mkTask "task-0" "Leap day" ToDo (mkIso 0 2 28) (mkIso 0 3 1).

Definition year0_march_task : Task :=
  mkTask "task-0" "Ides" ToDo (mkIso 0 3 10) (mkIso 0 3 15).

Definition year9999_task : Task :=
  mkTask "task-9" "Two days" ToDo (mkIso 9999 12 30) (mkIso 9999 12 31).

(** The cell that generateMonthGrid builds for the date [d]. *)
Definition calendar_day (now : Date) (monthStart monthEnd : option Date) (d : Date)
  : CalendarDay :=
  mkDay d (js_le monthStart (Some d) && js_le (Some d) monthEnd) (format d)
        (getDate d) (isToday now d).

(** The week row of the seven days from [first] on. *)
Definition week_of (now : Date) (monthStart monthEnd : option Date) (first : Date)
  : WeekRow :=
  mkWeek (List.map (calendar_day now monthStart monthEnd) (days_from first 7))
         first (plusDays first 6).

(** The day numbers of the first and the last day of the month of [t],
    and the number of days of that month. *)
Definition month_first_day (t : Date) : Z :=
  let '(y, m, _) := civil_from_days (dayOf t) in days_from_civil y m 1.
Definition month_last_day (t : Date) : Z :=
  let '(y, m, _) := civil_from_days (dayOf t) in
  days_from_civil y m (days_in_month y m).
Definition month_length (t : Date) : Z :=
  let '(y, m, _) := civil_from_days (dayOf t) in days_in_month y m.

(** The Sunday on or before the first day of the month, the Saturday on or
    after its last day, and the number of weeks from the one to the
    other. *)
Definition grid_first_day (month : Date) : Z :=
  month_first_day month - (month_first_day month + 4) mod 7.
Definition grid_last_day (month : Date) : Z :=
  month_last_day month + 6 - (month_last_day month + 4) mod 7.
Definition grid_rows (month : Date) : nat :=
  Z.to_nat ((grid_last_day month - grid_first_day month + 1) / 7).

(** The weeks of the month lie within the range of dates: the days
    -100 000 000 to 99 999 999 from the epoch are the whole days of that
    range. *)
Definition grid_in_range (month : Date) : Prop :=
  -100000000 <= grid_first_day month /\ grid_last_day month < 100000000.

(** The rows of those weeks. *)
Definition full_grid (now month : Date) : list WeekRow :=
  List.map (fun j => week_of now (Some (dateOfDay (month_first_day month)))
                       (Some (dateOfDay (month_last_day month) + (MS_PER_DAY - 1)))
                       (dateOfDay (grid_first_day month + 7 * Z.of_nat j)))
           (seq 0 (grid_rows month)).

(** The cells of a grid, row after row. *)
Definition cells (weeks : list WeekRow) : list CalendarDay :=
  concat (List.map days weeks).

(** The day numbers [lo], [lo + 1], ..., [hi]. *)
Definition days_between (lo hi : Z) : list Z :=
  List.map (fun k => lo + Z.of_nat k) (seq 0 (Z.to_nat (hi - lo + 1))).

(** March 2024, the month of the specification's examples. *)
Definition march_2024 : Date := dateOfDay 19797.

(** A row that shows the week of the seven days from day number [first]. *)
Definition week_row_at (first : Z) (row : WeekRow) : Prop :=
  List.map date (days row)
    = List.map (fun i => dateOfDay (first + Z.of_nat i)) (seq 0 7) /\
  startDate row = dateOfDay first /\
  endDate row = dateOfDay (first + 6).

(** A grid of consecutive weeks, the first one starting at day [first]. *)
Fixpoint week_grid (first : Z) (rows : list WeekRow) : Prop :=
  match rows with
  | [] => True
  | row :: rest => week_row_at first row /\ week_grid (first + 7) rest
  end.

(** The segment of the task with days [a..b] in the week that starts at
    day [first]. *)
Definition segment_for (task : Task) (a b first : Z) : TaskSegment :=
  mkSegment task (format (dateOfDay (Z.max a first)))
            (format (dateOfDay (Z.min b (first + 6))))
            (Z.max a first - first)
            (Z.min b (first + 6) - Z.max a first + 1) 0.

Fixpoint segments_of (task : Task) (a b first : Z) (rows : list WeekRow)
  : list TaskSegment :=
  match rows with
  | [] => []
  | _ :: rest =>
      (if (first + 6 <? a) || (b <? first) then [] else [segment_for task a b first])
      ++ segments_of task a b (first + 7) rest
  end.

(** The week [row] and the range [ts, te] share a day. *)
Definition task_overlaps_week (ts te : Date) (row : WeekRow) : bool :=
  (ts <=? endDate row) && (startDate row <=? te).

(** The dates that a segment covers. *)
Definition segment_dates (seg : TaskSegment) : list Date :=
  eachDayOfInterval (parseISO (seg_startDate seg)) (parseISO (seg_endDate seg)).

(** The grid of March 2024 and the task of the specification's example. *)
Definition march_grid : list WeekRow :=
  match generateMonthGrid 0 march_2024 with
  | Ok weeks => weeks
  | Throw _ => []
  end.

Definition march_task : Task :=
  mkTask "task-7" "Release" ToDo (mkIso 2024 3 5) (mkIso 2024 3 20).

(** The grid of March of the year 0000 and a task of that month. *)
Definition year0_grid : list WeekRow :=
  match generateMonthGrid 0 (dateOfDay (-719454)) with
  | Ok weeks => weeks
  | Throw _ => []
  end.

Definition year0_long_task : Task :=
  mkTask "task-0" "Ides" ToDo (mkIso 0 3 5) (mkIso 0 3 20).

(** The column intervals [startColumn, startColumn + widthInColumns - 1]
    of two segments have a column in common. *)
Definition columns_intersect (s t : TaskSegment) : Prop :=
  exists c,
    startColumn s <= c <= startColumn s + widthInColumns s - 1 /\
    startColumn t <= c <= startColumn t + widthInColumns t - 1.

Definition same_columns (s t : TaskSegment) : Prop :=
  startColumn t = startColumn s /\ widthInColumns t = widthInColumns s.

(** The rows after a segment is put into row [r]. *)
Definition rows_after (rows : list (list Addr)) (r : nat) (s : Addr)
  : list (list Addr) :=
  alter (fun row => row ++ [s]) r
        (if decide (length rows ≤ r)%nat then rows ++ [[]] else rows).

(** What holds between the segments of the array that are already placed. *)
Record rows_inv (store0 : Store) (st : Store * list (list Addr))
    (placed : list Addr) : Prop := mkRowsInv {
  inv_length : length (fst st) = length store0;
  inv_columns : forall x, same_columns (store0 !!! x) (fst st !!! x);
  inv_rows : forall r row x y,
      snd st !! r = Some row -> In x row -> In y row -> x <> y ->
      segmentsOverlap (store0 !!! x) (store0 !!! y) = false;
  inv_placed : forall x,
      In x placed -> (x < length store0)%nat ->
      exists r row, rowIndex (fst st !!! x) = Z.of_nat r /\
                    snd st !! r = Some row /\ In x row
}.

Definition segment_A : TaskSegment :=
  mkSegment demo_task (mkIso 2024 3 11) (mkIso 2024 3 13) 1 3 0.
Definition segment_B : TaskSegment :=
  mkSegment march_task (mkIso 2024 3 12) (mkIso 2024 3 14) 2 3 0.

Definition april_task : Task :=
  mkTask "task-9" "Retro" Review (mkIso 2024 4 8) (mkIso 2024 4 9).

(** What first-fit placement keeps true when no segment is placed twice. *)
Record rows_fit (store0 : list TaskSegment) (rows : list (list nat))
    (placed : list nat) : Prop := mkRowsFit {
  fit_placed : forall q row x, rows !! q = Some row -> In x row -> In x placed;
  fit_one_row : forall q1 q2 row1 row2 x,
      rows !! q1 = Some row1 -> In x row1 ->
      rows !! q2 = Some row2 -> In x row2 -> q1 = q2;
  fit_blocked : forall r row x q,
      rows !! r = Some row -> In x row -> (q < r)%nat ->
      exists rowq y, rows !! q = Some rowq /\ In y rowq /\
                     segmentsOverlap (store0 !!! x) (store0 !!! y) = true
}.

(** The test of the filter of groupSegmentsByWeek: the start date of the
    segment lies in the week of the row. *)
Definition starts_in_week (store : list TaskSegment) (weekRow : WeekRow)
    (segment : nat) : bool :=
  let segmentStart := parseISO (seg_startDate (store !!! segment)) in
  let weekStart := startOfDay (startDate weekRow) in
  let weekEnd := startOfDay (endDate weekRow) in
  js_le (Some weekStart) segmentStart && js_le segmentStart (Some weekEnd).

(** The entry that the Map gets for a week: none for an empty list. *)
Definition group_entry (l : list nat) : option (list nat) :=
  match l with [] => None | _ => Some l end.

(** The second store holds the segments of the first, up to rowIndex. *)
Definition same_but_rows (store store' : list TaskSegment) : Prop :=
  length store' = length store /\
  forall x s, store !! x = Some s -> exists r, store' !! x = Some (set_rowIndex r s).

(** The number of the tasks of a category. *)
Definition count_category (c : Category) (l : list Task) : Z :=
  Z.of_nat (length (List.filter
    (fun t => match task_category t, c with
              | ToDo, ToDo | InProgress, InProgress
              | Review, Review | Completed, Completed => true
              | _, _ => false
              end) l)).

(** * Proofs *)

(** ** The calendar: [civil_from_days] and [days_from_civil] are inverse *)

Module CalendarFacts.

Lemma is_leap_spec (y : Z) :
  is_leap y = true <->
  y mod 4 = 0 /\ (y mod 100 <> 0 \/ y mod 400 = 0).
Proof.
  unfold is_leap. rewrite andb_true_iff, orb_true_iff, negb_true_iff.
  rewrite !Z.eqb_eq, Z.eqb_neq. tauto.
Qed.

(** Evaluates the month tables at a literal month. *)
Ltac month_consts :=
  repeat match goal with
    | |- context [month_index ?k] =>
        let v := eval vm_compute in (month_index k) in
        change (month_index k) with v
    | |- context [index_month ?k] =>
        let v := eval vm_compute in (index_month k) in
        change (index_month k) with v
    | |- context [(153 * ?k + 2) / 5] =>
        let v := eval vm_compute in ((153 * k + 2) / 5) in
        change ((153 * k + 2) / 5) with v
    end.

Ltac month_lengths :=
  cbv [days_in_month jan_feb Z.eqb Pos.eqb Z.leb Z.compare Pos.compare
         Pos.compare_cont orb] in *;
  try (destruct (is_leap _) eqn:El;
       [rewrite is_leap_spec in El
       |rewrite <- not_true_iff_false, is_leap_spec in El]);
  try rewrite Z.add_0_r in *.

(** The year in which the day of the era [doe] falls has [yoe] full years
    before it. *)
Lemma yoe_of_doe (doe : Z) :
  0 <= doe < 146097 ->
  let yoe := (doe - doe / 1460 + doe / 36524 - doe / 146096) / 365 in
  let doy := doe - (365 * yoe + yoe / 4 - yoe / 100) in
  0 <= yoe < 400 /\ 0 <= doy <= 365 /\
  (doy = 365 ->
   (yoe + 1) mod 4 = 0 /\ ((yoe + 1) mod 100 <> 0 \/ (yoe + 1) mod 400 = 0)).
Proof. intros H yoe doy. subst doy yoe. Z.div_mod_to_equations. lia. Qed.

Lemma yoe_recover (yoe doy : Z) :
  0 <= yoe < 400 -> 0 <= doy <= 365 ->
  (doy = 365 ->
   (yoe + 1) mod 4 = 0 /\ ((yoe + 1) mod 100 <> 0 \/ (yoe + 1) mod 400 = 0)) ->
  let doe := yoe * 365 + yoe / 4 - yoe / 100 + doy in
  0 <= doe < 146097 /\
  (doe - doe / 1460 + doe / 36524 - doe / 146096) / 365 = yoe.
Proof. intros Hy Hd Hl doe. subst doe. Z.div_mod_to_equations. lia. Qed.

Lemma ymd_of_doe_ok (doe : Z) :
  0 <= doe < DAYS_PER_ERA ->
  let '(yoe, m, d) := ymd_of_doe doe in
  0 <= yoe < 400 /\ 1 <= m <= 12 /\
  1 <= d <= days_in_month (yoe + jan_feb m) m /\
  doe_of_ymd yoe m d = doe.
Proof.
  unfold DAYS_PER_ERA, ymd_of_doe, doe_of_ymd. intros H.
  pose proof (yoe_of_doe doe H) as Hy. cbv zeta in Hy.
  set (yoe := (doe - doe / 1460 + doe / 36524 - doe / 146096) / 365) in *.
  set (doy := doe - (365 * yoe + yoe / 4 - yoe / 100)) in *.
  destruct Hy as (Hy & Hdoy & Hleap).
  assert (Hdoe : doe = 365 * yoe + yoe / 4 - yoe / 100 + doy) by (subst doy; lia).
  clearbody doy. clearbody yoe. subst doe. clear H.
  set (mp := (5 * doy + 2) / 153).
  assert (Hmp : 0 <= mp <= 11) by (subst mp; Z.div_mod_to_equations; lia).
  split; [lia|].
  assert (Him : month_index (index_month mp) = mp).
  { unfold month_index, index_month. destruct (Z.ltb_spec mp 10).
    - destruct (Z.ltb_spec 2 (mp + 3)); lia.
    - destruct (Z.ltb_spec 2 (mp - 9)); lia. }
  rewrite Him.
  split; [unfold index_month; destruct (Z.ltb_spec mp 10); lia|].
  split; [|lia].
  assert (Hcases : mp = 0 \/ mp = 1 \/ mp = 2 \/ mp = 3 \/ mp = 4 \/ mp = 5
                   \/ mp = 6 \/ mp = 7 \/ mp = 8 \/ mp = 9 \/ mp = 10 \/ mp = 11)
    by lia.
  assert (Hd : mp = (5 * doy + 2) / 153) by reflexivity. clearbody mp.
  repeat destruct Hcases as [Hcases|Hcases]; rewrite Hcases in *;
    clear Hcases Him Hmp; month_consts; month_lengths;
    (Z.div_mod_to_equations; lia).
Qed.

Lemma doe_of_ymd_ok (yoe m d : Z) :
  0 <= yoe < 400 -> 1 <= m <= 12 ->
  1 <= d <= days_in_month (yoe + jan_feb m) m ->
  0 <= doe_of_ymd yoe m d < DAYS_PER_ERA /\
  ymd_of_doe (doe_of_ymd yoe m d) = (yoe, m, d).
Proof.
  intros Hy Hm Hd. unfold doe_of_ymd.
  set (doy := (153 * month_index m + 2) / 5 + d - 1).
  assert (H : 0 <= doy <= 365 /\
              (doy = 365 ->
               (yoe + 1) mod 4 = 0 /\
               ((yoe + 1) mod 100 <> 0 \/ (yoe + 1) mod 400 = 0)) /\
              (5 * doy + 2) / 153 = month_index m /\
              index_month (month_index m) = m).
  { subst doy.
    assert (Hcases : m = 1 \/ m = 2 \/ m = 3 \/ m = 4 \/ m = 5 \/ m = 6 \/ m = 7
                     \/ m = 8 \/ m = 9 \/ m = 10 \/ m = 11 \/ m = 12) by lia.
    repeat destruct Hcases as [Hcases|Hcases]; rewrite Hcases in *;
      clear Hcases Hm; month_consts; month_lengths;
      (Z.div_mod_to_equations; lia). }
  destruct H as (Hdoy & Hleap & Hmp & Him).
  destruct (yoe_recover yoe doy Hy Hdoy Hleap) as [Hr Hq].
  split; [exact Hr|].
  unfold ymd_of_doe. rewrite Hq.
  replace (yoe * 365 + yoe / 4 - yoe / 100 + doy
           - (365 * yoe + yoe / 4 - yoe / 100)) with doy by lia.
  rewrite Hmp, Him. subst doy. f_equal. lia.
Qed.

Lemma is_leap_period (y k : Z) : is_leap (y + k * 400) = is_leap y.
Proof.
  unfold is_leap.
  replace ((y + k * 400) mod 4) with (y mod 4)
    by (Z.div_mod_to_equations; lia).
  replace ((y + k * 400) mod 100) with (y mod 100)
    by (Z.div_mod_to_equations; lia).
  replace ((y + k * 400) mod 400) with (y mod 400)
    by (Z.div_mod_to_equations; lia).
  reflexivity.
Qed.

Lemma days_in_month_period (y k m : Z) :
  days_in_month (y + k * 400) m = days_in_month y m.
Proof. unfold days_in_month. now rewrite is_leap_period. Qed.

Lemma days_in_month_pos (y m : Z) : 28 <= days_in_month y m <= 31.
Proof.
  unfold days_in_month.
  destruct (m =? 2); [destruct (is_leap y); lia|].
  destruct ((m =? 4) || (m =? 6) || (m =? 9) || (m =? 11)); lia.
Qed.

Lemma div_mod_shift (r q n : Z) :
  0 <= r < n -> (r + q * n) / n = q /\ (r + q * n) mod n = r.
Proof.
  intros Hr. split.
  - rewrite Z.div_add by lia. rewrite Z.div_small by lia. lia.
  - rewrite Z.mod_add by lia. apply Z.mod_small. lia.
Qed.

Lemma march_year (y m : Z) :
  (if m <=? 2 then y - 1 else y) = y - jan_feb m.
Proof. unfold jan_feb. destruct (m <=? 2); lia. Qed.

Lemma civil_year (y m : Z) :
  (if m <=? 2 then y + 1 else y) = y + jan_feb m.
Proof. unfold jan_feb. destruct (m <=? 2); lia. Qed.

Lemma civil_from_days_valid (z : Z) :
  let '(y, m, d) := civil_from_days z in
  1 <= m <= 12 /\ 1 <= d <= days_in_month y m /\ days_from_civil y m d = z.
Proof.
  unfold civil_from_days.
  set (z' := z + EPOCH_SHIFT).
  assert (Hr : 0 <= z' mod DAYS_PER_ERA < DAYS_PER_ERA)
    by (apply Z.mod_pos_bound; reflexivity).
  pose proof (ymd_of_doe_ok _ Hr) as Hc.
  destruct (ymd_of_doe (z' mod DAYS_PER_ERA)) as [[yoe m] d].
  destruct Hc as (Hyoe & Hm12 & Hdim & Hdoe).
  set (era := z' / DAYS_PER_ERA).
  rewrite civil_year.
  replace (yoe + era * 400 + jan_feb m) with (yoe + jan_feb m + era * 400) by ring.
  rewrite days_in_month_period.
  split; [lia|]. split; [lia|].
  unfold days_from_civil. rewrite march_year.
  replace (yoe + jan_feb m + era * 400 - jan_feb m) with (yoe + era * 400) by ring.
  destruct (div_mod_shift yoe era 400 ltac:(lia)) as [Hq Hm].
  rewrite Hq, Hm.
  rewrite Hdoe. subst era.
  pose proof (Z.div_mod z' DAYS_PER_ERA ltac:(discriminate)) as E.
  subst z'. lia.
Qed.

Lemma days_from_civil_inv (y m d : Z) :
  1 <= m <= 12 -> 1 <= d <= days_in_month y m ->
  civil_from_days (days_from_civil y m d) = (y, m, d).
Proof.
  intros Hm Hd.
  unfold days_from_civil. rewrite march_year.
  set (y' := y - jan_feb m).
  assert (Hyoe : 0 <= y' mod 400 < 400) by (apply Z.mod_pos_bound; reflexivity).
  assert (Hy : y = y' mod 400 + jan_feb m + (y' / 400) * 400).
  { pose proof (Z.div_mod y' 400 ltac:(discriminate)). subst y'. lia. }
  set (yoe := y' mod 400) in *. set (era := y' / 400) in *.
  clearbody yoe era. clear y'.
  subst y. rewrite days_in_month_period in Hd.
  destruct (doe_of_ymd_ok yoe m d Hyoe Hm Hd) as [Hr E].
  unfold civil_from_days.
  set (doe := doe_of_ymd yoe m d) in *. clearbody doe.
  replace (era * DAYS_PER_ERA + doe - EPOCH_SHIFT + EPOCH_SHIFT)
    with (doe + era * DAYS_PER_ERA) by ring.
  destruct (div_mod_shift doe era DAYS_PER_ERA Hr) as [Hdiv Hmod].
  rewrite Hmod, Hdiv, E, civil_year.
  f_equal. f_equal. ring.
Qed.

(** *** The day number grows with the civil date *)

Lemma civil_lt_trans (a b c : Z * Z * Z) :
  civil_lt a b -> civil_lt b c -> civil_lt a c.
Proof.
  destruct a as [[y1 m1] d1], b as [[y2 m2] d2], c as [[y3 m3] d3].
  unfold civil_lt. lia.
Qed.

Lemma days_from_civil_day (y m d k : Z) :
  days_from_civil y m (d + k) = days_from_civil y m d + k.
Proof. unfold days_from_civil, doe_of_ymd. lia. Qed.

Lemma days_from_civil_next_month (y m : Z) :
  1 <= m < 12 ->
  days_from_civil y (m + 1) 1 = days_from_civil y m (days_in_month y m) + 1.
Proof.
  intros Hm.
  assert (Hcases : m = 1 \/ m = 2 \/ m = 3 \/ m = 4 \/ m = 5 \/ m = 6 \/ m = 7
                   \/ m = 8 \/ m = 9 \/ m = 10 \/ m = 11) by lia.
  repeat destruct Hcases as [Hcases|Hcases]; rewrite Hcases; clear Hcases Hm;
    match goal with
    | |- context [days_from_civil _ (?k + 1) _] =>
        let v := eval vm_compute in (k + 1) in change (k + 1) with v
    end;
    unfold days_from_civil, doe_of_ymd, DAYS_PER_ERA;
    month_consts; month_lengths; (Z.div_mod_to_equations; lia).
Qed.

Lemma days_from_civil_next_year (y : Z) :
  days_from_civil (y + 1) 1 1 = days_from_civil y 12 31 + 1.
Proof.
  unfold days_from_civil, doe_of_ymd. month_consts. month_lengths.
  replace (y + 1 - 1) with y by lia. lia.
Qed.

Lemma civil_from_days_succ (z : Z) :
  civil_lt (civil_from_days z) (civil_from_days (z + 1)).
Proof.
  pose proof (civil_from_days_valid z) as H.
  destruct (civil_from_days z) as [[y m] d]. destruct H as (Hm & Hd & Hz).
  destruct (Z_lt_le_dec d (days_in_month y m)) as [Hlt|Hge].
  - assert (E : civil_from_days (z + 1) = (y, m, d + 1)).
    { rewrite <- Hz, <- days_from_civil_day. apply days_from_civil_inv; lia. }
    rewrite E. simpl. lia.
  - assert (Ed : d = days_in_month y m) by lia.
    destruct (Z.eq_dec m 12) as [->|Hne].
    + assert (E : civil_from_days (z + 1) = (y + 1, 1, 1)).
      { rewrite <- Hz, Ed.
        change (days_in_month y 12) with 31.
        rewrite <- days_from_civil_next_year.
        apply days_from_civil_inv; [lia|].
        pose proof (days_in_month_pos (y + 1) 1). lia. }
      rewrite E. simpl. lia.
    + assert (E : civil_from_days (z + 1) = (y, m + 1, 1)).
      { rewrite <- Hz, Ed, <- days_from_civil_next_month by lia.
        apply days_from_civil_inv; [lia|].
        pose proof (days_in_month_pos y (m + 1)). lia. }
      rewrite E. simpl. lia.
Qed.

Lemma civil_from_days_mono (z1 z2 : Z) :
  z1 < z2 -> civil_lt (civil_from_days z1) (civil_from_days z2).
Proof.
  intros H.
  replace z2 with (z1 + 1 + Z.of_nat (Z.to_nat (z2 - z1 - 1))) by lia.
  induction (Z.to_nat (z2 - z1 - 1)) as [|k IH].
  - rewrite Z.add_0_r. apply civil_from_days_succ.
  - eapply civil_lt_trans; [exact IH|].
    replace (z1 + 1 + Z.of_nat (S k)) with (z1 + 1 + Z.of_nat k + 1) by lia.
    apply civil_from_days_succ.
Qed.

End CalendarFacts.

Import CalendarFacts.

(** ** Time values, ISO strings and dates *)

Lemma MS_PER_DAY_pos : 0 < MS_PER_DAY.
Proof. reflexivity. Qed.

Lemma MS_PER_DAY_eq : MS_PER_DAY = 86400000.
Proof. reflexivity. Qed.

Lemma MAX_TIME_days : MAX_TIME = dateOfDay 100000000.
Proof. reflexivity. Qed.

Lemma time_clip_Some (t : Z) (d : Date) :
  time_clip t = Some d <-> d = t /\ - MAX_TIME <= t <= MAX_TIME.
Proof.
  unfold time_clip.
  destruct (Z.leb_spec (- MAX_TIME) t); destruct (Z.leb_spec t MAX_TIME); simpl;
    split; try discriminate; try (intros [= <-]; lia); try (intros [-> ?]; trivial; lia).
Qed.

Lemma time_clip_in_range (t : Z) :
  - MAX_TIME <= t <= MAX_TIME -> time_clip t = Some t.
Proof. intros H. now apply time_clip_Some. Qed.

Lemma time_clip_None (t : Z) :
  time_clip t = None <-> t < - MAX_TIME \/ MAX_TIME < t.
Proof.
  unfold time_clip.
  destruct (Z.leb_spec (- MAX_TIME) t); destruct (Z.leb_spec t MAX_TIME); simpl;
    split; try discriminate; try lia; auto.
Qed.

Lemma dayOf_dateOfDay (n : Z) : dayOf (dateOfDay n) = n.
Proof. unfold dayOf, dateOfDay. apply Z.div_mul. discriminate. Qed.

Lemma startOfDay_dateOfDay (n : Z) : startOfDay (dateOfDay n) = dateOfDay n.
Proof. unfold startOfDay. now rewrite dayOf_dateOfDay. Qed.

Lemma dateOfDay_le (a b : Z) : dateOfDay a <= dateOfDay b <-> a <= b.
Proof. unfold dateOfDay. pose proof MS_PER_DAY_pos. nia. Qed.

Lemma dateOfDay_lt (a b : Z) : dateOfDay a < dateOfDay b <-> a < b.
Proof. unfold dateOfDay. pose proof MS_PER_DAY_pos. nia. Qed.

Lemma dateOfDay_inj (a b : Z) : dateOfDay a = dateOfDay b -> a = b.
Proof. unfold dateOfDay. pose proof MS_PER_DAY_pos. nia. Qed.

Lemma dateOfDay_add (a b : Z) : dateOfDay (a + b) = dateOfDay a + dateOfDay b.
Proof. unfold dateOfDay. lia. Qed.

Lemma plusDays_dateOfDay (a n : Z) : plusDays (dateOfDay a) n = dateOfDay (a + n).
Proof. unfold plusDays, dateOfDay. lia. Qed.

Lemma plusDays_0 (t : Date) : plusDays t 0 = t.
Proof. unfold plusDays. lia. Qed.

Lemma plusDays_plusDays (t : Date) (a b : Z) :
  plusDays (plusDays t a) b = plusDays t (a + b).
Proof. unfold plusDays. lia. Qed.

Lemma dayOf_plusDays (t : Date) (k : Z) : dayOf (plusDays t k) = dayOf t + k.
Proof.
  unfold dayOf, plusDays. rewrite Z.div_add by discriminate. reflexivity.
Qed.

Lemma dayOf_within (n r : Z) : 0 <= r < MS_PER_DAY -> dayOf (dateOfDay n + r) = n.
Proof.
  intros Hr. unfold dayOf, dateOfDay.
  rewrite Z.add_comm, Z.div_add by discriminate.
  rewrite Z.div_small by assumption. reflexivity.
Qed.

Lemma date_split (t : Date) : t = dateOfDay (dayOf t) + t mod MS_PER_DAY.
Proof.
  unfold dateOfDay, dayOf. pose proof (Z.div_mod t MS_PER_DAY ltac:(discriminate)). lia.
Qed.

Lemma time_of_day_bounds (t : Date) : 0 <= t mod MS_PER_DAY < MS_PER_DAY.
Proof. apply Z.mod_pos_bound. reflexivity. Qed.

Lemma dayOf_le_mono (a b : Date) : a <= b -> dayOf a <= dayOf b.
Proof. intros H. unfold dayOf. apply Z.div_le_mono; [reflexivity|assumption]. Qed.

(** A date is in range exactly when its day is one of the 100 000 000 days
    on either side of the epoch, the last one reduced to its midnight. *)
Lemma dateOfDay_in_range (n : Z) :
  - MAX_TIME <= dateOfDay n <= MAX_TIME <-> -100000000 <= n <= 100000000.
Proof. rewrite MAX_TIME_days. unfold dateOfDay. pose proof MS_PER_DAY_pos. nia. Qed.

Lemma differenceInDays_dateOfDay (a b : Z) :
  differenceInDays (dateOfDay a) (dateOfDay b) = a - b.
Proof.
  unfold differenceInDays, dateOfDay.
  replace (a * MS_PER_DAY - b * MS_PER_DAY) with ((a - b) * MS_PER_DAY) by ring.
  apply Z.quot_mul. discriminate.
Qed.

Lemma valid_iso_spec (s : IsoDate) :
  valid_iso s = true <->
  0 <= iso_year s <= 9999 /\ 1 <= iso_month s <= 12 /\
  1 <= iso_day s <= days_in_month (iso_year s) (iso_month s).
Proof.
  unfold valid_iso. rewrite !andb_true_iff. rewrite !Z.leb_le. tauto.
Qed.

Lemma parseISO_Some (s : IsoDate) (t : Date) :
  parseISO s = Some t ->
  valid_iso s = true /\
  t = dateOfDay (days_from_civil (iso_year s) (iso_month s) (iso_day s)).
Proof.
  unfold parseISO. destruct (valid_iso s); [|discriminate].
  intros [= <-]. split; reflexivity.
Qed.

(** A parsed date is a local midnight. *)
Lemma parseISO_midnight (s : IsoDate) (t : Date) :
  parseISO s = Some t -> t = dateOfDay (dayOf t).
Proof.
  intros H. apply parseISO_Some in H as [_ ->]. now rewrite dayOf_dateOfDay.
Qed.

(** The civil date of a parsed date is the one that the string names. *)
Lemma parseISO_civil (s : IsoDate) (t : Date) :
  parseISO s = Some t ->
  civil_from_days (dayOf t) = (iso_year s, iso_month s, iso_day s).
Proof.
  intros H. apply parseISO_Some in H as [Hv ->].
  apply valid_iso_spec in Hv as (_ & Hm & Hd).
  rewrite dayOf_dateOfDay. now apply days_from_civil_inv.
Qed.

Lemma parseISO_inj (a b : IsoDate) (t : Date) :
  parseISO a = Some t -> parseISO b = Some t -> a = b.
Proof.
  intros Ha Hb. apply parseISO_civil in Ha, Hb. rewrite Ha in Hb.
  destruct a, b. simpl in Hb. congruence.
Qed.

Lemma civil_year_bounds (n : Z) :
  FIRST_DAY <= n <= LAST_DAY ->
  let '(y, _, _) := civil_from_days n in 1 <= y <= 9999.
Proof.
  intros [Hlo Hhi].
  assert (H1 : 1 <= fst (fst (civil_from_days n))).
  { destruct (Z.eq_dec n FIRST_DAY) as [->|Hne]; [vm_compute; discriminate|].
    pose proof (civil_from_days_mono FIRST_DAY n ltac:(lia)) as H.
    change (civil_from_days FIRST_DAY) with (1, 1, 1) in H.
    destruct (civil_from_days n) as [[y m] d]. simpl in *. lia. }
  assert (H2 : fst (fst (civil_from_days n)) <= 9999).
  { destruct (Z.eq_dec n LAST_DAY) as [->|Hne]; [vm_compute; discriminate|].
    pose proof (civil_from_days_mono n LAST_DAY ltac:(lia)) as H.
    change (civil_from_days LAST_DAY) with (9999, 12, 31) in H.
    destruct (civil_from_days n) as [[y m] d]. simpl in *. lia. }
  destruct (civil_from_days n) as [[y m] d]. simpl in *. lia.
Qed.

(** The day of a parsed date. *)
Lemma parseISO_day_bounds (s : IsoDate) (t : Date) :
  parseISO s = Some t ->
  YEAR0_DAY <= dayOf t <= LAST_DAY /\ (1 <= iso_year s -> FIRST_DAY <= dayOf t).
Proof.
  intros H. pose proof (parseISO_civil _ _ H) as Hc.
  apply parseISO_Some in H as [Hv _].
  apply valid_iso_spec in Hv as (Hy & Hm & Hd).
  pose proof (days_in_month_pos (iso_year s) (iso_month s)) as Hdim.
  split; [split|].
  - destruct (Z_lt_le_dec (dayOf t) YEAR0_DAY) as [Hlt|]; [exfalso|assumption].
    pose proof (civil_from_days_mono _ _ Hlt) as Hm'. rewrite Hc in Hm'.
    change (civil_from_days YEAR0_DAY) with (0, 1, 1) in Hm'. simpl in Hm'. lia.
  - destruct (Z_lt_le_dec LAST_DAY (dayOf t)) as [Hlt|]; [exfalso|assumption].
    pose proof (civil_from_days_mono _ _ Hlt) as Hm'. rewrite Hc in Hm'.
    change (civil_from_days LAST_DAY) with (9999, 12, 31) in Hm'. simpl in Hm'. lia.
  - intros Hy1.
    destruct (Z_lt_le_dec (dayOf t) FIRST_DAY) as [Hlt|]; [exfalso|assumption].
    pose proof (civil_from_days_mono _ _ Hlt) as Hm'. rewrite Hc in Hm'.
    change (civil_from_days FIRST_DAY) with (1, 1, 1) in Hm'. simpl in Hm'. lia.
Qed.

(** Every parsed date, and every date within a few thousand years of
    one, is in range. *)
Lemma parseISO_in_range (s : IsoDate) (t : Date) :
  parseISO s = Some t -> - MAX_TIME <= t <= MAX_TIME.
Proof.
  intros H. destruct (parseISO_day_bounds _ _ H) as [Hb _].
  rewrite (parseISO_midnight _ _ H). apply dateOfDay_in_range.
  unfold YEAR0_DAY, LAST_DAY in Hb. lia.
Qed.

(** format is a left inverse of parseISO from the year 0001 on ... *)
Lemma format_parseISO (s : IsoDate) (t : Date) :
  parseISO s = Some t -> 1 <= iso_year s -> format t = s.
Proof.
  intros H Hy. unfold format. rewrite (parseISO_civil _ _ H).
  unfold era_year. destruct (Z.ltb_spec 0 (iso_year s)); [|lia]. now destruct s.
Qed.

(** ... and parseISO reads back the day that format wrote, for the days
    of the years 0001 to 9999. *)
Lemma parseISO_format (t : Date) :
  FIRST_DAY <= dayOf t <= LAST_DAY -> parseISO (format t) = Some (startOfDay t).
Proof.
  intros Hb. unfold format, parseISO, startOfDay.
  pose proof (civil_from_days_valid (dayOf t)) as H.
  pose proof (civil_year_bounds (dayOf t) Hb) as Hy.
  destruct (civil_from_days (dayOf t)) as [[y m] d].
  destruct H as (Hm & Hd & Hr).
  unfold era_year. destruct (Z.ltb_spec 0 y); [|lia].
  assert (Hv : valid_iso (mkIso y m d) = true)
    by (apply valid_iso_spec; simpl; lia).
  rewrite Hv. simpl. now rewrite Hr.
Qed.

Lemma parseISO_format_day (n : Z) :
  FIRST_DAY <= n <= LAST_DAY -> parseISO (format (dateOfDay n)) = Some (dateOfDay n).
Proof.
  intros H. rewrite parseISO_format, startOfDay_dateOfDay; [reflexivity|].
  now rewrite dayOf_dateOfDay.
Qed.

(** ** The reducer *)

Lemma map_result_ok {A B : Type} (f : A -> Result B) (g : A -> B) (l : list A) :
  (forall x, In x l -> f x = Ok (g x)) -> map_result f l = Ok (List.map g l).
Proof.
  induction l as [|x l IH]; intros H; [reflexivity|].
  simpl. rewrite (H x) by now left. simpl.
  rewrite IH by (intros y Hy; apply H; now right). reflexivity.
Qed.

Lemma map_result_inv {A B : Type} (f : A -> Result B) (l : list A) (l' : list B) :
  map_result f l = Ok l' -> Forall2 (fun x y => f x = Ok y) l l'.
Proof.
  revert l'. induction l as [|x l IH]; intros l' H; simpl in H.
  - injection H as <-. constructor.
  - destruct (f x) as [y|] eqn:Ex; [|discriminate]. simpl in H.
    destruct (map_result f l) as [ys|] eqn:El; [|discriminate]. simpl in H.
    injection H as <-. constructor; [assumption|]. now apply IH.
Qed.

(** Moving a date that a string names by the distance of two such dates
    stays within the range of dates. *)
Lemma addDays_parsed (a b c : IsoDate) (ta tb tc : Date) :
  parseISO a = Some ta -> parseISO b = Some tb -> parseISO c = Some tc ->
  addDays tc (differenceInDays tb ta)
  = Some (dateOfDay (dayOf tc + (dayOf tb - dayOf ta))).
Proof.
  intros Ha Hb Hc.
  destruct (parseISO_day_bounds _ _ Ha) as [Ba _].
  destruct (parseISO_day_bounds _ _ Hb) as [Bb _].
  destruct (parseISO_day_bounds _ _ Hc) as [Bc _].
  unfold YEAR0_DAY, LAST_DAY in *.
  rewrite (parseISO_midnight _ _ Ha) at 1. rewrite (parseISO_midnight _ _ Hb) at 1.
  rewrite (parseISO_midnight _ _ Hc) at 1.
  rewrite differenceInDays_dateOfDay. unfold addDays.
  rewrite plusDays_dateOfDay. apply time_clip_in_range, dateOfDay_in_range. lia.
Qed.

Lemma task_move_found (newId : string) (state : AppState) (taskId : string)
    (d : IsoDate) (task : Task) (ts te td : Date) :
  List.find (fun t => String.eqb (task_id t) taskId) (tasks state) = Some task ->
  parseISO (task_start task) = Some ts ->
  parseISO (task_end task) = Some te ->
  parseISO d = Some td ->
  appReducer newId state (TASK_MOVE taskId d) =
  Ok (set_tasks state
        (List.map (move_task taskId (format td)
                     (format (dateOfDay (dayOf td + (dayOf te - dayOf ts)))))
           (tasks state))).
Proof.
  intros Hf Hs He Hd. cbn [appReducer]. rewrite Hf, Hs, He, Hd.
  cbn [differenceInDays_opt addDays_opt].
  rewrite (addDays_parsed _ _ _ _ _ _ Hs He Hd).
  erewrite map_result_ok; [reflexivity|].
  intros t _. unfold move_task. destruct (String.eqb (task_id t) taskId); reflexivity.
Qed.

Lemma find_task_none (taskId : string) (l : list Task) :
  (forall t, In t l -> task_id t <> taskId) ->
  List.find (fun t => String.eqb (task_id t) taskId) l = None.
Proof.
  induction l as [|x l IH]; intros H; [reflexivity|].
  simpl. destruct (String.eqb_spec (task_id x) taskId) as [E|_].
  - exfalso. apply (H x); [now left|assumption].
  - apply IH. intros t Ht. apply H. now right.
Qed.

(** C10: a TASK_MOVE whose taskId names no task of the list returns the
    state unchanged, and so does a SELECTION_UPDATE received while
    isSelecting is false. *)
Theorem unknown_task_or_idle_selection_is_noop (newId : string) (state : AppState) :
  (forall taskId d,
      (forall t, In t (tasks state) -> task_id t <> taskId) ->
      appReducer newId state (TASK_MOVE taskId d) = Ok state) /\
  (forall d,
      isSelecting (selection state) = false ->
      appReducer newId state (SELECTION_UPDATE d) = Ok state).
Proof.
  split.
  - intros taskId d H. simpl. now rewrite (find_task_none _ _ H).
  - intros d H. simpl. now rewrite H.
Qed.

Lemma unknown_task_or_idle_selection_is_noop_witness :
  appReducer "new" demo_state (TASK_MOVE "task-2" (mkIso 2024 3 1)) = Ok demo_state /\
  appReducer "new" demo_state (SELECTION_UPDATE (mkIso 2024 3 1)) = Ok demo_state.
Proof.
  destruct (unknown_task_or_idle_selection_is_noop "new" demo_state) as [H1 H2].
  split.
  - apply H1. intros t [<-|[]]. discriminate.
  - apply H2. reflexivity.
Defined.

(** C6: SELECTION_END on a selection in progress with both dates set
    commits normalizeDateRange(anchor, cursor) as the draft range of the
    opened modal and clears the selection; a drag from 2024-03-12 back to
    2024-03-08 commits {start: 2024-03-08, end: 2024-03-12}. *)
Theorem selection_end_commits_normalized (newId : string) (state : AppState)
    (anchor cursor : IsoDate) :
  selection state = mkSelection (Some anchor) (Some cursor) true ->
  appReducer newId state SELECTION_END =
    Ok (mkState (tasks state) (mkSelection None None false)
          (mkModal true (Some (normalizeDateRange anchor cursor)) None)
          (filters state) (currentMonth state)) /\
  (anchor = mkIso 2024 3 12 -> cursor = mkIso 2024 3 8 ->
   normalizeDateRange anchor cursor = mkRange (mkIso 2024 3 8) (mkIso 2024 3 12)).
Proof.
  intros H. split.
  - simpl. rewrite H. reflexivity.
  - intros -> ->. reflexivity.
Qed.

Lemma selection_end_commits_normalized_witness :
  appReducer "new"
    (mkState [] (mkSelection (Some (mkIso 2024 3 12)) (Some (mkIso 2024 3 8)) true)
       (mkModal false None None) (mkFilters "" [] 0) 0) SELECTION_END =
  Ok (mkState [] (mkSelection None None false)
        (mkModal true (Some (mkRange (mkIso 2024 3 8) (mkIso 2024 3 12))) None)
        (mkFilters "" [] 0) 0).
Proof.
  destruct (selection_end_commits_normalized "new"
              (mkState [] (mkSelection (Some (mkIso 2024 3 12)) (Some (mkIso 2024 3 8)) true)
                 (mkModal false None None) (mkFilters "" [] 0) 0)
              (mkIso 2024 3 12) (mkIso 2024 3 8) eq_refl) as [H1 H2].
  rewrite H1. simpl. rewrite (H2 eq_refl eq_refl). reflexivity.
Defined.

Lemma same_but_range_of_refl (taskId : string) (state : AppState) :
  same_but_range_of taskId state state.
Proof.
  repeat split. apply Forall2_same_length_lookup_2; [reflexivity|].
  intros i t t' H H'. rewrite H in H'. injection H' as <-. tauto.
Qed.

Lemma same_but_range_of_map (taskId : string) (s e : IsoDate) (l : list Task) :
  Forall2 (fun t t' =>
             task_id t' = task_id t /\ task_name t' = task_name t /\
             task_category t' = task_category t /\
             (task_id t <> taskId -> t' = t))
          l (List.map (move_task taskId s e) l).
Proof.
  induction l as [|t l IH]; simpl; constructor; [|exact IH].
  unfold move_task. destruct (String.eqb_spec (task_id t) taskId); simpl; tauto.
Qed.

(** C9: TASK_MOVE and TASK_RESIZE change only the start and end of the
    tasks whose id is the action's taskId: every task keeps its id, name
    and category, every task with another id is unchanged, and so are the
    selection, modal, filters and currentMonth fields.  TASK_RESIZE always
    returns; TASK_MOVE returns when the dates involved are civil dates. *)
Theorem move_resize_frame (newId : string) (state : AppState) (taskId : string) :
  (forall d state',
      appReducer newId state (TASK_MOVE taskId d) = Ok state' ->
      same_but_range_of taskId state state') /\
  (forall newStart newEnd, exists state',
      appReducer newId state (TASK_RESIZE taskId newStart newEnd) = Ok state' /\
      same_but_range_of taskId state state') /\
  (forall d task ts te td,
      List.find (fun t => String.eqb (task_id t) taskId) (tasks state) = Some task ->
      parseISO (task_start task) = Some ts ->
      parseISO (task_end task) = Some te ->
      parseISO d = Some td ->
      exists state', appReducer newId state (TASK_MOVE taskId d) = Ok state').
Proof.
  split; [|split].
  - intros d state' H. simpl in H.
    destruct (List.find _ (tasks state)) as [task|].
    + destruct (map_result _ (tasks state)) as [ts|] eqn:E; [|discriminate].
      simpl in H. injection H as <-.
      repeat split. apply map_result_inv in E.
      eapply Forall2_impl; [exact E|].
      intros t t' Ht. simpl in Ht.
      destruct (String.eqb_spec (task_id t) taskId) as [Eid|Nid].
      * destruct (format_date (parseISO d)) as [s|]; [|discriminate].
        simpl in Ht. destruct (format_date _) as [e|]; [|discriminate].
        simpl in Ht. injection Ht as <-. simpl. tauto.
      * injection Ht as <-. tauto.
    + injection H as <-. apply same_but_range_of_refl.
  - intros newStart newEnd. eexists. split; [reflexivity|].
    repeat split. apply same_but_range_of_map.
  - intros d task ts te td Hf Hs He Hd. eexists.
    eapply task_move_found; eassumption.
Qed.

Lemma move_resize_frame_witness :
  exists state',
    appReducer "new" demo_state (TASK_MOVE "task-1" (mkIso 2024 3 20)) = Ok state' /\
    same_but_range_of "task-1" demo_state state'.
Proof.
  destruct (move_resize_frame "new" demo_state "task-1") as (H1 & _ & H3).
  destruct (H3 (mkIso 2024 3 20) demo_task _ _ _ eq_refl eq_refl eq_refl eq_refl)
    as [state' Hs].
  exists state'. split; [exact Hs|]. apply (H1 _ _ Hs).
Defined.

(** The day count of a range of civil dates. *)
Lemma dayCountInclusive_parsed (a b : IsoDate) (ta tb : Date) :
  parseISO a = Some ta -> parseISO b = Some tb ->
  dayCountInclusive a b = Some (dayOf tb - dayOf ta + 1).
Proof.
  intros Ha Hb. unfold dayCountInclusive. rewrite Ha, Hb.
  cbn [differenceInDays_opt fmap option_fmap option_map].
  rewrite (parseISO_midnight _ _ Ha) at 1. rewrite (parseISO_midnight _ _ Hb) at 1.
  now rewrite differenceInDays_dateOfDay.
Qed.

(** C4 as stated fails in two ways.  A task moved to a date of the year
    0000 gets the start that format prints, of the year 0001, which is
    not the date d of the action; and as the year 0000 is a leap year and
    the year 0001 is not, the task 0000-02-28..0000-03-01 of three days
    moved to its own start becomes 0001-02-28..0001-03-01, of two days.
    A task of two days moved to 9999-12-31 gets the end that format prints
    for the first day of the year 10000, which parseISO does not read: the
    moved task has no day count. *)
Lemma task_move_year_zero_counterexample :
  List.find (fun t => String.eqb (task_id t) "task-0") (tasks (state_of year0_task))
    = Some year0_task /\
  js_le (parseISO (task_start year0_task)) (parseISO (task_end year0_task)) = true /\
  dayCountInclusive (task_start year0_task) (task_end year0_task) = Some 3 /\
  appReducer "new" (state_of year0_task) (TASK_MOVE "task-0" (mkIso 0 2 28))
    = Ok (state_of (mkTask "task-0" "Leap day" ToDo (mkIso 1 2 28) (mkIso 1 3 1))) /\
  mkIso 1 2 28 <> mkIso 0 2 28 /\
  dayCountInclusive (mkIso 1 2 28) (mkIso 1 3 1) = Some 2 /\
  List.find (fun t => String.eqb (task_id t) "task-9") (tasks (state_of year9999_task))
    = Some year9999_task /\
  js_le (parseISO (task_start year9999_task)) (parseISO (task_end year9999_task)) = true /\
  dayCountInclusive (task_start year9999_task) (task_end year9999_task) = Some 2 /\
  appReducer "new" (state_of year9999_task) (TASK_MOVE "task-9" (mkIso 9999 12 31))
    = Ok (state_of (mkTask "task-9" "Two days" ToDo (mkIso 9999 12 31) (mkIso 10000 1 1))) /\
  parseISO (mkIso 10000 1 1) = None /\
  dayCountInclusive (mkIso 9999 12 31) (mkIso 10000 1 1) = None.
Proof.
  vm_compute. repeat split; discriminate.
Qed.

(** C4, amended: when the task that TASK_MOVE finds has civil dates with
    start <= end, the new start date d is a civil date of the year 0001 or
    later, and d plus the length of the task is not after 9999-12-31, the
    reducer returns a state in which every task with the given id has
    start = d and end = the date (day count - 1) days after d, so that
    its inclusive day count is the day count of the task before the move;
    the other tasks are unchanged. *)
Theorem task_move_preserves_day_count (newId : string) (state : AppState)
    (taskId : string) (d : IsoDate) (task : Task) (ts te td : Date) :
  List.find (fun t => String.eqb (task_id t) taskId) (tasks state) = Some task ->
  parseISO (task_start task) = Some ts ->
  parseISO (task_end task) = Some te ->
  parseISO d = Some td ->
  ts <= te ->
  1 <= iso_year d ->
  dayOf td + (dayOf te - dayOf ts) <= LAST_DAY ->
  exists n newEnd state',
    dayCountInclusive (task_start task) (task_end task) = Some n /\
    addDays td (n - 1) = Some newEnd /\
    appReducer newId state (TASK_MOVE taskId d) = Ok state' /\
    Forall2 (fun t t' =>
               if String.eqb (task_id t) taskId
               then task_id t' = taskId /\
                    task_start t' = d /\
                    parseISO (task_end t') = Some newEnd /\
                    dayCountInclusive (task_start t') (task_end t') = Some n
               else t' = t)
            (tasks state) (tasks state') /\
    exists task', In task' (tasks state') /\ task_id task' = taskId.
Proof.
  intros Hf Hs He Hd Hle Hy Hhi.
  destruct (parseISO_day_bounds _ _ Hd) as [[_ Bd] Bd1]. specialize (Bd1 Hy).
  assert (Hdur : 0 <= dayOf te - dayOf ts)
    by (pose proof (dayOf_le_mono _ _ Hle); lia).
  set (e := dayOf td + (dayOf te - dayOf ts)) in *.
  assert (Hpe : parseISO (format (dateOfDay e)) = Some (dateOfDay e))
    by (apply parseISO_format_day; lia).
  exists (dayOf te - dayOf ts + 1), (dateOfDay e),
    (set_tasks state (List.map (move_task taskId (format td) (format (dateOfDay e)))
                        (tasks state))).
  split; [now apply dayCountInclusive_parsed|].
  split.
  { replace (dayOf te - dayOf ts + 1 - 1) with (dayOf te - dayOf ts) by lia.
    rewrite (parseISO_midnight _ _ Hd) at 1. unfold addDays.
    rewrite plusDays_dateOfDay. fold e.
    apply time_clip_in_range, dateOfDay_in_range.
    unfold FIRST_DAY, LAST_DAY in *. lia. }
  split; [eapply task_move_found; eassumption|].
  rewrite (format_parseISO _ _ Hd Hy). cbn [set_tasks tasks]. split.
  - clear Hf.
    induction (tasks state) as [|t l IH]; cbn [List.map];
      [constructor|constructor; [|exact IH]].
    unfold move_task. destruct (String.eqb_spec (task_id t) taskId) as [E|_];
      [|reflexivity].
    cbn [set_range task_id task_start task_end].
    split; [exact E|]. split; [reflexivity|]. split; [exact Hpe|].
    rewrite (dayCountInclusive_parsed _ _ _ _ Hd Hpe), dayOf_dateOfDay.
    f_equal. unfold e. lia.
  - apply find_some in Hf as [Hin Hid]. apply String.eqb_eq in Hid.
    exists (move_task taskId d (format (dateOfDay e)) task). split.
    + apply in_map_iff. exists task. split; [reflexivity|exact Hin].
    + unfold move_task. rewrite <- Hid, String.eqb_refl. reflexivity.
Qed.

Lemma task_move_preserves_day_count_witness :
  exists n newEnd state',
    dayCountInclusive (mkIso 2024 3 10) (mkIso 2024 3 15) = Some n /\
    addDays (dateOfDay 19782) (n - 1) = Some newEnd /\
    appReducer "new" demo_state (TASK_MOVE "task-1" (mkIso 2024 2 29)) = Ok state' /\
    Forall2 (fun t t' =>
               if String.eqb (task_id t) "task-1"
               then task_id t' = "task-1"%string /\
                    task_start t' = mkIso 2024 2 29 /\
                    parseISO (task_end t') = Some newEnd /\
                    dayCountInclusive (task_start t') (task_end t') = Some n
               else t' = t)
            (tasks demo_state) (tasks state') /\
    exists task', In task' (tasks state') /\ task_id task' = "task-1"%string.
Proof.
  apply (task_move_preserves_day_count "new" demo_state "task-1" (mkIso 2024 2 29)
           demo_task (dateOfDay 19792) (dateOfDay 19797) (dateOfDay 19782));
    try reflexivity; vm_compute; discriminate.
Defined.

(** ** Resizing *)

Lemma normalizeDateRange_ordered (a b : IsoDate) (ta tb : Date) :
  parseISO a = Some ta -> parseISO b = Some tb ->
  exists s e,
    parseISO (range_start (normalizeDateRange a b)) = Some s /\
    parseISO (range_end (normalizeDateRange a b)) = Some e /\ s <= e.
Proof.
  intros Ha Hb. unfold normalizeDateRange. rewrite Ha, Hb. simpl.
  destruct (Z.leb_spec ta tb); simpl; eauto with lia.
Qed.

(** C5 as stated fails for a task of the year 0000: the clamp emits the
    end that format prints, of the year 0001, not the end of the task.
    The start edge of the task 0000-03-10..0000-03-15 dragged to
    0000-03-20 emits [0001-03-15, 0001-03-15]; and the end edge of a task
    that starts on the leap day 0000-02-29, dragged before the start,
    emits the string 0001-02-29, which names no date, so that the range
    then applied has no order. *)
Lemma resize_year_zero_counterexample :
  parseISO (task_end year0_march_task) = Some (dateOfDay (-719454)) /\
  parseISO (mkIso 0 3 20) = Some (dateOfDay (-719449)) /\
  handleResizeMove year0_march_task (Some left) true (Some (mkIso 0 3 20))
    = Ok (Some (mkResize "task-0" (mkIso 1 3 15) (mkIso 1 3 15))) /\
  mkIso 1 3 15 <> task_end year0_march_task /\
  handleResizeMove (mkTask "task-0" "Leap day" ToDo (mkIso 0 2 29) (mkIso 0 3 1))
      (Some right) true (Some (mkIso 0 2 28))
    = Ok (Some (mkResize "task-0" (mkIso 1 2 29) (mkIso 1 2 29))) /\
  parseISO (mkIso 1 2 29) = None /\
  js_le (parseISO (range_start (normalizeDateRange (mkIso 1 2 29) (mkIso 1 2 29))))
        (parseISO (range_end (normalizeDateRange (mkIso 1 2 29) (mkIso 1 2 29))))
    = false.
Proof.
  vm_compute. repeat split; discriminate.
Qed.

(** C5, amended: for a task whose start and end are civil dates of the
    year 0001 or later, a resize of the start edge to a date after the end
    of the task emits the one-day range [end, end], a resize of the end
    edge to a date before the start emits [start, start], and whatever the
    edge and the target date, TASK_RESIZE then gives to the tasks with the
    id of the task the emitted range in normal order, whose start is not
    after its end, and leaves the other tasks alone. *)
Theorem resize_clamps_to_one_day (task : Task) (target : IsoDate) (ts te tt : Date) :
  parseISO (task_start task) = Some ts ->
  parseISO (task_end task) = Some te ->
  parseISO target = Some tt ->
  1 <= iso_year (task_start task) ->
  1 <= iso_year (task_end task) ->
  (te < tt ->
   handleResizeMove task (Some left) true (Some target) =
     Ok (Some (mkResize (task_id task) (task_end task) (task_end task))) /\
   dayCountInclusive (task_end task) (task_end task) = Some 1) /\
  (tt < ts ->
   handleResizeMove task (Some right) true (Some target) =
     Ok (Some (mkResize (task_id task) (task_start task) (task_start task))) /\
   dayCountInclusive (task_start task) (task_start task) = Some 1) /\
  (forall side newId state, exists call state',
      handleResizeMove task (Some side) true (Some target) = Ok (Some call) /\
      resize_taskId call = task_id task /\
      appReducer newId state
        (TASK_RESIZE (resize_taskId call) (resize_newStart call) (resize_newEnd call))
        = Ok state' /\
      Forall2 (fun t t' =>
                 if String.eqb (task_id t) (task_id task)
                 then task_id t' = task_id t /\
                      mkRange (task_start t') (task_end t')
                        = normalizeDateRange (resize_newStart call) (resize_newEnd call) /\
                      exists s e, parseISO (task_start t') = Some s /\
                                  parseISO (task_end t') = Some e /\ s <= e
                 else t' = t)
              (tasks state) (tasks state')).
Proof.
  intros Hs He Ht Ys Ye.
  pose proof (format_parseISO _ _ Hs Ys) as Fs.
  pose proof (format_parseISO _ _ He Ye) as Fe.
  assert (Hone : forall x tx, parseISO x = Some tx -> dayCountInclusive x x = Some 1).
  { intros x tx Hx. unfold dayCountInclusive. rewrite Hx. simpl.
    unfold differenceInDays. now rewrite Z.sub_diag. }
  assert (Hl : handleResizeMove task (Some left) true (Some target) =
               if te <? tt
               then Ok (Some (mkResize (task_id task) (task_end task) (task_end task)))
               else Ok (Some (mkResize (task_id task) target (task_end task)))).
  { unfold handleResizeMove. cbn -[parseISO format]. rewrite He, Ht.
    cbn -[format]. rewrite Fe. now destruct (te <? tt). }
  assert (Hr : handleResizeMove task (Some right) true (Some target) =
               if tt <? ts
               then Ok (Some (mkResize (task_id task) (task_start task) (task_start task)))
               else Ok (Some (mkResize (task_id task) (task_start task) target))).
  { unfold handleResizeMove. cbn -[parseISO format]. rewrite Hs, Ht.
    cbn -[format]. rewrite Fs. now destruct (tt <? ts). }
  split; [|split].
  - intros Hlt. split; [|eauto].
    rewrite Hl. destruct (Z.ltb_spec te tt); [reflexivity|lia].
  - intros Hlt. split; [|eauto].
    rewrite Hr. destruct (Z.ltb_spec tt ts); [reflexivity|lia].
  - intros side newId state.
    assert (Hcall : exists call a b ta tb,
               handleResizeMove task (Some side) true (Some target) = Ok (Some call) /\
               call = mkResize (task_id task) a b /\
               parseISO a = Some ta /\ parseISO b = Some tb).
    { destruct side.
      - rewrite Hl. destruct (te <? tt); eauto 10.
      - rewrite Hr. destruct (tt <? ts); eauto 10. }
    destruct Hcall as (call & a & b & ta & tb & Hc & -> & Ha & Hb).
    eexists. eexists. split; [exact Hc|]. split; [reflexivity|].
    split; [reflexivity|]. cbn [resize_taskId resize_newStart resize_newEnd set_tasks tasks].
    induction (tasks state) as [|t l IH]; cbn [List.map];
      [constructor|constructor; [|exact IH]].
    destruct (String.eqb (task_id t) (task_id task)); [|reflexivity].
    cbn [set_range task_id task_start task_end].
    split; [reflexivity|]. split; [now destruct (normalizeDateRange a b)|].
    eapply normalizeDateRange_ordered; eassumption.
Qed.

Lemma resize_clamps_to_one_day_witness :
  handleResizeMove demo_task (Some left) true (Some (mkIso 2024 3 20)) =
    Ok (Some (mkResize "task-1" (mkIso 2024 3 15) (mkIso 2024 3 15))) /\
  dayCountInclusive (mkIso 2024 3 15) (mkIso 2024 3 15) = Some 1.
Proof.
  destruct (resize_clamps_to_one_day demo_task (mkIso 2024 3 20)
              (dateOfDay 19792) (dateOfDay 19797) (dateOfDay 19802)
              eq_refl eq_refl eq_refl) as (H & _ & _).
  - vm_compute. discriminate.
  - vm_compute. discriminate.
  - apply H. reflexivity.
Defined.

(** ** normalizeDateRange *)

Lemma iso_ltb_spec (a b : IsoDate) :
  iso_ltb a b = true <->
  civil_lt (iso_year a, iso_month a, iso_day a) (iso_year b, iso_month b, iso_day b).
Proof.
  unfold iso_ltb, civil_lt.
  rewrite !orb_true_iff, !andb_true_iff, !orb_true_iff, !andb_true_iff.
  rewrite !Z.ltb_lt, !Z.eqb_eq. tauto.
Qed.

(** The dates of two ISO strings compare like the strings. *)
Lemma parseISO_lt (a b : IsoDate) (ta tb : Date) :
  parseISO a = Some ta -> parseISO b = Some tb ->
  (ta < tb <-> iso_ltb a b = true).
Proof.
  intros Ha Hb.
  assert (Hmono : forall x y tx ty, parseISO x = Some tx -> parseISO y = Some ty ->
                    tx < ty -> iso_ltb x y = true).
  { intros x y tx ty Hx Hy Hlt. apply iso_ltb_spec.
    rewrite <- (parseISO_civil _ _ Hx), <- (parseISO_civil _ _ Hy).
    apply civil_from_days_mono.
    rewrite (parseISO_midnight _ _ Hx), (parseISO_midnight _ _ Hy) in Hlt.
    apply dateOfDay_lt. exact Hlt. }
  split; [now apply Hmono|].
  intros Hab. destruct (Z_lt_le_dec ta tb) as [Hlt|Hge]; [exact Hlt|exfalso].
  destruct (Z.eq_dec ta tb) as [->|Hne].
  - rewrite (parseISO_inj _ _ _ Ha Hb) in Hab.
    apply iso_ltb_spec in Hab. unfold civil_lt in Hab. lia.
  - assert (Hba : iso_ltb b a = true) by (apply (Hmono b a tb ta); trivial; lia).
    apply iso_ltb_spec in Hab, Hba. unfold civil_lt in Hab, Hba. lia.
Qed.

(** On civil dates normalizeDateRange puts the earlier string first. *)
Lemma normalizeDateRange_iso_min_max (a b : IsoDate) (ta tb : Date) :
  parseISO a = Some ta -> parseISO b = Some tb ->
  normalizeDateRange a b = mkRange (iso_min a b) (iso_max a b).
Proof.
  intros Ha Hb. unfold normalizeDateRange, iso_min, iso_max. rewrite Ha, Hb. simpl.
  destruct (iso_ltb b a) eqn:E.
  - apply (parseISO_lt _ _ _ _ Hb Ha) in E. destruct (Z.leb_spec ta tb); [lia|reflexivity].
  - destruct (Z.leb_spec ta tb) as [_|Hgt]; [reflexivity|].
    apply (parseISO_lt _ _ _ _ Hb Ha) in Hgt. congruence.
Qed.

(** C8: normalizeDateRange always returns one of the two orders of its
    arguments; on civil dates it does not depend on the order of the
    arguments, returns {start: min(a,b), end: max(a,b)} and its start is
    not after its end. *)
Theorem normalizeDateRange_min_max (a b : IsoDate) :
  (normalizeDateRange a b = mkRange a b \/ normalizeDateRange a b = mkRange b a) /\
  forall ta tb, parseISO a = Some ta -> parseISO b = Some tb ->
    normalizeDateRange a b = normalizeDateRange b a /\
    normalizeDateRange a b = mkRange (iso_min a b) (iso_max a b) /\
    js_le (parseISO (range_start (normalizeDateRange a b)))
          (parseISO (range_end (normalizeDateRange a b))) = true.
Proof.
  split.
  - unfold normalizeDateRange. destruct (js_le _ _); [now left|now right].
  - intros ta tb Ha Hb.
    pose proof (normalizeDateRange_iso_min_max a b ta tb Ha Hb) as Hab.
    assert (Hba : normalizeDateRange b a = mkRange (iso_min a b) (iso_max a b)).
    { unfold normalizeDateRange, iso_min, iso_max. rewrite Ha, Hb. simpl.
      destruct (iso_ltb b a) eqn:E.
      - apply (parseISO_lt _ _ _ _ Hb Ha) in E. destruct (Z.leb_spec tb ta); [reflexivity|lia].
      - destruct (Z.leb_spec tb ta) as [Hle|_]; [|reflexivity].
        destruct (Z.eq_dec ta tb) as [->|Hne].
        + now rewrite (parseISO_inj _ _ _ Ha Hb).
        + assert (Hgt : tb < ta) by lia. apply (parseISO_lt _ _ _ _ Hb Ha) in Hgt. congruence. }
    split; [congruence|]. split; [exact Hab|].
    destruct (normalizeDateRange_ordered a b ta tb Ha Hb) as (s & e & Hs & He & Hle).
    rewrite Hs, He. simpl. lia.
Qed.

Lemma normalizeDateRange_min_max_witness :
  normalizeDateRange (mkIso 2024 3 12) (mkIso 2024 3 8)
    = normalizeDateRange (mkIso 2024 3 8) (mkIso 2024 3 12) /\
  normalizeDateRange (mkIso 2024 3 12) (mkIso 2024 3 8)
    = mkRange (iso_min (mkIso 2024 3 12) (mkIso 2024 3 8))
              (iso_max (mkIso 2024 3 12) (mkIso 2024 3 8)) /\
  js_le (parseISO (range_start (normalizeDateRange (mkIso 2024 3 12) (mkIso 2024 3 8))))
        (parseISO (range_end (normalizeDateRange (mkIso 2024 3 12) (mkIso 2024 3 8))))
    = true.
Proof.
  exact (proj2 (normalizeDateRange_min_max (mkIso 2024 3 12) (mkIso 2024 3 8))
           _ _ eq_refl eq_refl).
Defined.

(** ** The month grid *)

Lemma days_from_shift (first : Date) (n s m : nat) :
  List.map (fun k => plusDays first (Z.of_nat k)) (seq (s + n) m)
  = List.map (fun k => plusDays (plusDays first (Z.of_nat n)) (Z.of_nat k)) (seq s m).
Proof.
  revert s. induction m as [|m IH]; intros s; [reflexivity|].
  cbn [seq List.map]. f_equal; [unfold plusDays; lia|apply (IH (S s))].
Qed.

Lemma days_from_app (first : Date) (n m : nat) :
  days_from first (n + m) =
  days_from first n ++ days_from (plusDays first (Z.of_nat n)) m.
Proof.
  unfold days_from. rewrite seq_app, map_app. f_equal.
  apply days_from_shift.
Qed.

Lemma days_from_lookup (first : Date) (n i : nat) (d : Date) :
  days_from first n !! i = Some d <-> (i < n)%nat /\ d = plusDays first (Z.of_nat i).
Proof.
  unfold days_from. rewrite list_lookup_fmap.
  destruct (seq 0 n !! i) as [k|] eqn:E; simpl.
  - apply lookup_seq in E as [-> Hi]. simpl. split.
    + intros [= <-]. split; [lia|reflexivity].
    + intros [_ ->]. reflexivity.
  - split; [discriminate|].
    intros [Hi _]. exfalso.
    assert (Hs : seq 0 n !! i = Some (0 + i)%nat) by (apply lookup_seq; lia).
    congruence.
Qed.

Lemma length_days_from (first : Date) (n : nat) : length (days_from first n) = n.
Proof. unfold days_from. now rewrite length_map, length_seq. Qed.

Lemma In_days_from (first d : Date) (n : nat) :
  In d (days_from first n) <-> exists i, (i < n)%nat /\ d = plusDays first (Z.of_nat i).
Proof.
  rewrite <- list_elem_of_In, list_elem_of_lookup. split.
  - intros [i Hi]. apply days_from_lookup in Hi. eauto.
  - intros (i & Hi & ->). exists i. now apply days_from_lookup.
Qed.

Lemma grid_callback_mid (now : Date) (ms me : option Date) (weeks : list WeekRow)
    (cur : list CalendarDay) (d : Date) (index : nat) :
  (Z.of_nat index + 1) mod 7 <> 0 ->
  grid_callback now ms me (weeks, cur) d index
  = Ok (weeks, cur ++ [calendar_day now ms me d]).
Proof.
  intros H. unfold grid_callback.
  destruct (Z.eqb_spec ((Z.of_nat index + 1) mod 7) 0); [contradiction|reflexivity].
Qed.

Lemma grid_callback_full (now : Date) (ms me : option Date) (weeks : list WeekRow)
    (cur : list CalendarDay) (d : Date) (index : nat) (d0 d6 : CalendarDay) :
  (Z.of_nat index + 1) mod 7 = 0 ->
  (cur ++ [calendar_day now ms me d]) !! 0%nat = Some d0 ->
  (cur ++ [calendar_day now ms me d]) !! 6%nat = Some d6 ->
  grid_callback now ms me (weeks, cur) d index
  = Ok (weeks ++ [mkWeek (cur ++ [calendar_day now ms me d]) (date d0) (date d6)], []).
Proof.
  intros H H0 H6. unfold grid_callback.
  destruct (Z.eqb_spec ((Z.of_nat index + 1) mod 7) 0); [|contradiction].
  fold (calendar_day now ms me d). unfold date_at. rewrite H0, H6. reflexivity.
Qed.

(** Seven days from the start of a week make one more row. *)
Lemma grid_week_step (now : Date) (ms me : option Date) (first : Date)
    (rest : list Date) (index : nat) (weeks : list WeekRow) :
  Z.of_nat index mod 7 = 0 ->
  forEach_index (grid_callback now ms me) (days_from first 7 ++ rest) index (weeks, [])
  = forEach_index (grid_callback now ms me) rest (index + 7)
      (weeks ++ [week_of now ms me first], []).
Proof.
  intros Hk. unfold week_of, days_from.
  cbn [seq List.map app forEach_index].
  do 6 (rewrite grid_callback_mid by (Z.div_mod_to_equations; lia);
        cbn [mbind Result_bind app]).
  erewrite grid_callback_full;
    [|Z.div_mod_to_equations; lia|reflexivity|reflexivity].
  cbn [mbind Result_bind app date calendar_day].
  rewrite plusDays_0.
  replace (S (S (S (S (S (S (S index))))))) with (index + 7)%nat by lia.
  reflexivity.
Qed.

Lemma grid_weeks (now : Date) (ms me : option Date) (w : nat) (first : Date)
    (index : nat) (weeks : list WeekRow) :
  Z.of_nat index mod 7 = 0 ->
  forEach_index (grid_callback now ms me) (days_from first (7 * w)) index (weeks, [])
  = Ok (weeks ++ List.map (fun j => week_of now ms me (plusDays first (7 * Z.of_nat j)))
                    (seq 0 w), []).
Proof.
  revert first index weeks. induction w as [|w IH]; intros first index weeks Hk.
  - simpl. now rewrite app_nil_r.
  - replace (7 * S w)%nat with (7 + 7 * w)%nat by lia.
    rewrite days_from_app, grid_week_step by assumption.
    rewrite IH by (rewrite Nat2Z.inj_add; Z.div_mod_to_equations; lia).
    rewrite <- app_assoc. do 2 f_equal.
    cbn [seq List.map app]. rewrite Z.mul_0_r, plusDays_0. do 2 f_equal.
    rewrite <- seq_shift, List.map_map. apply map_ext. intros j.
    rewrite plusDays_plusDays. do 2 f_equal. lia.
Qed.

(** The cells of the rows, in order, are the cells of consecutive days. *)
Lemma grid_cells (now : Date) (ms me : option Date) (first : Date) (w : nat) :
  cells (List.map (fun j => week_of now ms me (plusDays first (7 * Z.of_nat j)))
           (seq 0 w))
  = List.map (calendar_day now ms me) (days_from first (7 * w)).
Proof.
  unfold cells. revert first. induction w as [|w IH]; intros first; [reflexivity|].
  replace (7 * S w)%nat with (7 + 7 * w)%nat by lia.
  rewrite days_from_app, map_app. cbn [seq List.map concat].
  rewrite Z.mul_0_r, plusDays_0. cbn [week_of days]. f_equal.
  rewrite <- IH, <- seq_shift, !List.map_map. f_equal.
  apply map_ext. intros j. rewrite plusDays_plusDays. do 3 f_equal. lia.
Qed.

(** *** The month of a date *)

Lemma month_facts (t : Date) :
  exists y m d,
    civil_from_days (dayOf t) = (y, m, d) /\
    month_first_day t = days_from_civil y m 1 /\
    month_last_day t = days_from_civil y m (days_in_month y m) /\
    month_length t = days_in_month y m /\
    1 <= m <= 12 /\ 1 <= d <= days_in_month y m /\
    days_from_civil y m d = dayOf t.
Proof.
  unfold month_first_day, month_last_day, month_length.
  pose proof (civil_from_days_valid (dayOf t)) as H.
  destruct (civil_from_days (dayOf t)) as [[y m] d].
  exists y, m, d. tauto.
Qed.

Lemma startOfMonth_eq (t : Date) :
  startOfMonth t
  = d ← time_clip (dateOfDay (month_first_day t) + t mod MS_PER_DAY);
    Some (startOfDay d).
Proof.
  unfold startOfMonth, month_first_day.
  now destruct (civil_from_days (dayOf t)) as [[y m] d].
Qed.

Lemma endOfMonth_eq (t : Date) :
  endOfMonth t
  = d ← time_clip (dateOfDay (month_last_day t) + t mod MS_PER_DAY); endOfDay d.
Proof.
  unfold endOfMonth, month_last_day.
  now destruct (civil_from_days (dayOf t)) as [[y m] d].
Qed.

(** The Sunday on or before the day [f] and the Saturday on or after the
    day [l], for the first and last day of a month of [n] days. *)
Lemma week_span (f l n : Z) :
  l = f + n - 1 -> 28 <= n <= 31 ->
  let gf := f - (f + 4) mod 7 in
  let gl := l + 6 - (l + 4) mod 7 in
  gl - gf + 1 = 7 * ((gl - gf + 1) / 7) /\
  4 <= (gl - gf + 1) / 7 <= 6 /\
  gf <= f <= gf + 6 /\ l <= gl <= l + 6 /\
  (gf + 4) mod 7 = 0 /\ (gl + 4) mod 7 = 6.
Proof. intros -> Hn. cbv zeta. Z.div_mod_to_equations. lia. Qed.

Lemma grid_first_day_eq (month : Date) :
  grid_first_day month = month_first_day month - (month_first_day month + 4) mod 7.
Proof. reflexivity. Qed.

Lemma grid_last_day_eq (month : Date) :
  grid_last_day month = month_last_day month + 6 - (month_last_day month + 4) mod 7.
Proof. reflexivity. Qed.

Lemma grid_rows_eq (month : Date) :
  grid_rows month = Z.to_nat ((grid_last_day month - grid_first_day month + 1) / 7).
Proof. reflexivity. Qed.

Opaque month_first_day month_last_day month_length
       grid_first_day grid_last_day grid_rows.

Lemma month_length_bounds (t : Date) : 28 <= month_length t <= 31.
Proof.
  destruct (month_facts t) as (y & m & d & _ & _ & _ & -> & _).
  apply days_in_month_pos.
Qed.

Lemma month_last_first (t : Date) :
  month_last_day t = month_first_day t + month_length t - 1.
Proof.
  destruct (month_facts t) as (y & m & d & _ & -> & -> & -> & _).
  rewrite <- Z.add_sub_assoc, <- days_from_civil_day. f_equal. lia.
Qed.

Lemma month_first_le_last (t : Date) : month_first_day t <= month_last_day t.
Proof.
  pose proof (month_last_first t). pose proof (month_length_bounds t). lia.
Qed.

(** The month of [t] contains the day of [t]. *)
Lemma month_contains (t : Date) :
  month_first_day t <= dayOf t <= month_last_day t.
Proof.
  pose proof (month_last_first t) as Hl.
  destruct (month_facts t) as (y & m & d & _ & Hf & _ & Hn & Hm & Hd & Hz).
  rewrite Hl, Hn, Hf.
  assert (E : days_from_civil y m d = days_from_civil y m 1 + (d - 1)).
  { rewrite <- days_from_civil_day. f_equal. lia. }
  lia.
Qed.

(** The days of the month of [t] are the days 1, 2, ... of that month. *)
Lemma civil_month_day (t : Date) (k : Z) :
  0 <= k < month_length t ->
  civil_from_days (month_first_day t + k)
  = (fst (fst (civil_from_days (dayOf t))), snd (fst (civil_from_days (dayOf t))),
     1 + k).
Proof.
  destruct (month_facts t) as (y & m & d & -> & -> & _ & -> & Hm & _).
  intros Hk. cbn [fst snd].
  rewrite <- days_from_civil_day. apply days_from_civil_inv; lia.
Qed.

(** The weeks of the month: whole weeks, 4 to 6 of them, from a Sunday
    to a Saturday, the first with the first day of the month and the last
    with its last day. *)
Lemma grid_facts (month : Date) :
  grid_last_day month - grid_first_day month + 1 = 7 * Z.of_nat (grid_rows month) /\
  (4 <= grid_rows month <= 6)%nat /\
  grid_first_day month <= month_first_day month <= grid_first_day month + 6 /\
  month_last_day month <= grid_last_day month <= month_last_day month + 6 /\
  (grid_first_day month + 4) mod 7 = 0 /\ (grid_last_day month + 4) mod 7 = 6.
Proof.
  pose proof (week_span _ _ _ (month_last_first month) (month_length_bounds month)) as H.
  cbv zeta in H. rewrite <- grid_first_day_eq, <- grid_last_day_eq in H.
  rewrite grid_rows_eq. lia.
Qed.

(** *** Dates within the range of time values *)

Lemma day_time_in_range (n r : Z) :
  0 <= r < MS_PER_DAY ->
  (- MAX_TIME <= dateOfDay n + r <= MAX_TIME <->
   -100000000 <= n /\ (n < 100000000 \/ (n = 100000000 /\ r = 0))).
Proof. unfold dateOfDay, MAX_TIME, MS_PER_DAY. lia. Qed.

Lemma end_of_day_in_range (n : Z) :
  - MAX_TIME <= dateOfDay n + (MS_PER_DAY - 1) <= MAX_TIME <->
  -100000000 <= n < 100000000.
Proof. unfold dateOfDay, MAX_TIME, MS_PER_DAY. lia. Qed.

Lemma startOfMonth_inv (t ms : Date) :
  startOfMonth t = Some ms ->
  ms = dateOfDay (month_first_day t) /\ -100000000 <= month_first_day t.
Proof.
  rewrite startOfMonth_eq.
  destruct (time_clip _) as [d|] eqn:E; [|discriminate].
  cbn [mbind option_bind]. intros [= <-].
  apply time_clip_Some in E as [-> Hr].
  pose proof (time_of_day_bounds t) as Hb.
  unfold startOfDay. rewrite dayOf_within by assumption. split; [reflexivity|].
  apply day_time_in_range in Hr; [lia|assumption].
Qed.

Lemma startOfMonth_in_range (t : Date) :
  -100000000 <= month_first_day t < 100000000 ->
  startOfMonth t = Some (dateOfDay (month_first_day t)).
Proof.
  intros H. rewrite startOfMonth_eq.
  pose proof (time_of_day_bounds t) as Hb.
  rewrite time_clip_in_range by (apply day_time_in_range; [assumption|lia]).
  cbn [mbind option_bind]. unfold startOfDay. now rewrite dayOf_within.
Qed.

Lemma endOfDay_within (n r : Z) :
  0 <= r < MS_PER_DAY ->
  endOfDay (dateOfDay n + r) = time_clip (dateOfDay n + (MS_PER_DAY - 1)).
Proof. intros H. unfold endOfDay. now rewrite dayOf_within. Qed.

Lemma endOfMonth_inv (t me : Date) :
  endOfMonth t = Some me ->
  me = dateOfDay (month_last_day t) + (MS_PER_DAY - 1) /\ month_last_day t < 100000000.
Proof.
  rewrite endOfMonth_eq.
  destruct (time_clip _) as [d|] eqn:E; [|discriminate].
  cbn [mbind option_bind]. apply time_clip_Some in E as [-> _].
  rewrite endOfDay_within by apply time_of_day_bounds.
  intros H. apply time_clip_Some in H as [-> Hr]. split; [reflexivity|].
  apply end_of_day_in_range in Hr. lia.
Qed.

Lemma endOfMonth_in_range (t : Date) :
  -100000000 <= month_last_day t < 100000000 ->
  endOfMonth t = Some (dateOfDay (month_last_day t) + (MS_PER_DAY - 1)).
Proof.
  intros H. rewrite endOfMonth_eq.
  pose proof (time_of_day_bounds t) as Hb.
  rewrite time_clip_in_range by (apply day_time_in_range; [assumption|lia]).
  cbn [mbind option_bind]. rewrite endOfDay_within by assumption.
  apply time_clip_in_range, end_of_day_in_range. lia.
Qed.

(** The week of a midnight starts on the Sunday on or before it ... *)
Lemma startOfWeek_midnight (n : Z) :
  startOfWeek (dateOfDay n) WEEK_START_DAY
  = time_clip (dateOfDay (n - (n + 4) mod 7)).
Proof.
  unfold startOfWeek, WEEK_START_DAY, getDay, addDays.
  rewrite dayOf_dateOfDay, plusDays_dateOfDay.
  pose proof (Z.mod_pos_bound (n + 4) 7 ltac:(lia)) as Hb.
  destruct (Z.ltb_spec ((n + 4) mod 7) 0); [lia|].
  replace (n + - (0 + (n + 4) mod 7 - 0)) with (n - (n + 4) mod 7) by lia.
  destruct (time_clip _) as [d|] eqn:E; [|reflexivity].
  apply time_clip_Some in E as [-> _]. cbn [mbind option_bind].
  now rewrite startOfDay_dateOfDay.
Qed.

(** ... and the week of the last moment of a day ends with the last
    moment of the Saturday on or after it. *)
Lemma endOfWeek_end_of_day (n : Z) :
  endOfWeek (dateOfDay n + (MS_PER_DAY - 1)) WEEK_START_DAY
  = time_clip (dateOfDay (n + 6 - (n + 4) mod 7) + (MS_PER_DAY - 1)).
Proof.
  assert (Hms : 0 <= MS_PER_DAY - 1 < MS_PER_DAY) by (unfold MS_PER_DAY; lia).
  unfold endOfWeek, WEEK_START_DAY, getDay, addDays.
  rewrite dayOf_within by assumption.
  pose proof (Z.mod_pos_bound (n + 4) 7 ltac:(lia)) as Hb.
  destruct (Z.ltb_spec ((n + 4) mod 7) 0); [lia|].
  replace (plusDays (dateOfDay n + (MS_PER_DAY - 1)) (0 + 6 - ((n + 4) mod 7 - 0)))
    with (dateOfDay (n + 6 - (n + 4) mod 7) + (MS_PER_DAY - 1))
    by (unfold plusDays, dateOfDay; lia).
  destruct (time_clip _) as [d|] eqn:E; [|reflexivity].
  pose proof E as E'. apply time_clip_Some in E' as [-> _]. cbn [mbind option_bind].
  rewrite endOfDay_within by assumption. exact E.
Qed.

Lemma eachDayOfInterval_days (a b : Z) :
  a <= b ->
  eachDayOfInterval (Some (dateOfDay a)) (Some (dateOfDay b + (MS_PER_DAY - 1)))
  = days_from (dateOfDay a) (Z.to_nat (b - a + 1)).
Proof.
  intros Hab. unfold eachDayOfInterval.
  assert (Hle : dateOfDay a <= dateOfDay b) by now apply dateOfDay_le.
  assert (Hms : 0 <= MS_PER_DAY - 1) by (unfold MS_PER_DAY; lia).
  destruct (Z.ltb_spec (dateOfDay b + (MS_PER_DAY - 1)) (dateOfDay a)); [lia|].
  rewrite startOfDay_dateOfDay.
  destruct (Z.leb_spec (dateOfDay a) (dateOfDay b + (MS_PER_DAY - 1))); [|lia].
  do 2 f_equal.
  replace (dateOfDay b + (MS_PER_DAY - 1) - dateOfDay a)
    with (dateOfDay (b - a) + (MS_PER_DAY - 1)) by (unfold dateOfDay; lia).
  fold (dayOf (dateOfDay (b - a) + (MS_PER_DAY - 1))).
  rewrite dayOf_within by (unfold MS_PER_DAY; lia). reflexivity.
Qed.

Lemma eachDayOfInterval_midnights (a b : Z) :
  a <= b ->
  eachDayOfInterval (Some (dateOfDay a)) (Some (dateOfDay b))
  = days_from (dateOfDay a) (Z.to_nat (b - a + 1)).
Proof.
  intros Hab. unfold eachDayOfInterval.
  assert (Hle : dateOfDay a <= dateOfDay b) by now apply dateOfDay_le.
  destruct (Z.ltb_spec (dateOfDay b) (dateOfDay a)); [lia|].
  rewrite startOfDay_dateOfDay.
  destruct (Z.leb_spec (dateOfDay a) (dateOfDay b)); [|lia].
  do 2 f_equal.
  replace (dateOfDay b - dateOfDay a) with (dateOfDay (b - a))
    by (unfold dateOfDay; lia).
  fold (dayOf (dateOfDay (b - a))). now rewrite dayOf_dateOfDay.
Qed.

(** *** The grid *)

Lemma startOfWeek_month_start (month : Date) :
  startOfWeek (dateOfDay (month_first_day month)) WEEK_START_DAY
  = time_clip (dateOfDay (grid_first_day month)).
Proof. rewrite grid_first_day_eq. apply startOfWeek_midnight. Qed.

Lemma endOfWeek_month_end (month : Date) :
  endOfWeek (dateOfDay (month_last_day month) + (MS_PER_DAY - 1)) WEEK_START_DAY
  = time_clip (dateOfDay (grid_last_day month) + (MS_PER_DAY - 1)).
Proof. rewrite grid_last_day_eq. apply endOfWeek_end_of_day. Qed.

(** A month within 37 days of neither end of the range of dates has its
    weeks in range. *)
Lemma grid_in_range_of_day (month : Date) :
  -99999964 <= dayOf month <= 99999963 -> grid_in_range month.
Proof.
  intros H. unfold grid_in_range.
  destruct (grid_facts month) as (_ & _ & H1 & H2 & _).
  pose proof (month_contains month). pose proof (month_last_first month).
  pose proof (month_length_bounds month). lia.
Qed.

(** When the weeks of the month are in range, generateMonthGrid returns
    the rows of the weeks from the Sunday on or before the first of the
    month to the Saturday on or after its last day ... *)
Lemma generateMonthGrid_full (now month : Date) :
  grid_in_range month ->
  startOfMonth month = Some (dateOfDay (month_first_day month)) /\
  endOfMonth month = Some (dateOfDay (month_last_day month) + (MS_PER_DAY - 1)) /\
  generateMonthGrid now month = Ok (full_grid now month).
Proof.
  intros [Hlo Hhi].
  destruct (grid_facts month) as (Hw & _ & H1 & H2 & _).
  pose proof (month_first_le_last month) as Hfl.
  assert (Es : startOfMonth month = Some (dateOfDay (month_first_day month)))
    by (apply startOfMonth_in_range; lia).
  assert (Ee : endOfMonth month
               = Some (dateOfDay (month_last_day month) + (MS_PER_DAY - 1)))
    by (apply endOfMonth_in_range; lia).
  split; [exact Es|]. split; [exact Ee|].
  unfold generateMonthGrid. rewrite Es, Ee. cbn [mbind option_bind].
  rewrite startOfWeek_month_start, endOfWeek_month_end.
  rewrite time_clip_in_range by (apply dateOfDay_in_range; lia).
  rewrite time_clip_in_range by (apply end_of_day_in_range; lia).
  rewrite eachDayOfInterval_days by lia.
  rewrite Hw.
  replace (Z.to_nat (7 * Z.of_nat (grid_rows month))) with (7 * grid_rows month)%nat by lia.
  rewrite grid_weeks by reflexivity.
  cbn [mbind Result_bind fst app]. unfold full_grid. f_equal.
  apply map_ext. intros j. now rewrite plusDays_dateOfDay.
Qed.

(** ... and when they are not, the interval of the grid has an Invalid
    Date at one end and the grid is empty. *)
Lemma generateMonthGrid_empty (now month : Date) :
  ~ grid_in_range month -> generateMonthGrid now month = Ok [].
Proof.
  intros Hout. unfold generateMonthGrid.
  destruct (startOfMonth month) as [ms|] eqn:Es; cbn [mbind option_bind];
    [|reflexivity].
  apply startOfMonth_inv in Es as [-> _]. rewrite startOfWeek_month_start.
  destruct (time_clip (dateOfDay (grid_first_day month))) as [cs|] eqn:Ecs;
    [|reflexivity].
  apply time_clip_Some in Ecs as [_ Hcs]. apply dateOfDay_in_range in Hcs.
  destruct (endOfMonth month) as [me|] eqn:Ee; cbn [mbind option_bind];
    [|reflexivity].
  apply endOfMonth_inv in Ee as [-> _]. rewrite endOfWeek_month_end.
  destruct (time_clip (dateOfDay (grid_last_day month) + _)) as [ce|] eqn:Ece;
    [|reflexivity].
  apply time_clip_Some in Ece as [_ Hce]. apply end_of_day_in_range in Hce.
  exfalso. apply Hout. unfold grid_in_range. lia.
Qed.

Lemma grid_in_range_dec (month : Date) : {grid_in_range month} + {~ grid_in_range month}.
Proof.
  unfold grid_in_range.
  destruct (Z_le_dec (-100000000) (grid_first_day month));
    destruct (Z_lt_dec (grid_last_day month) 100000000); (left; lia) || (right; lia).
Defined.

Lemma full_grid_cells (now month : Date) :
  cells (full_grid now month)
  = List.map (calendar_day now (Some (dateOfDay (month_first_day month)))
                (Some (dateOfDay (month_last_day month) + (MS_PER_DAY - 1))))
      (days_from (dateOfDay (grid_first_day month)) (7 * grid_rows month)).
Proof.
  rewrite <- grid_cells. unfold full_grid. f_equal.
  apply map_ext. intros j. now rewrite plusDays_dateOfDay.
Qed.

(** The flag of the cell of day [k]. *)
Lemma calendar_day_isCurrentMonth (now : Date) (f l k : Z) :
  isCurrentMonth (calendar_day now (Some (dateOfDay f))
                    (Some (dateOfDay l + (MS_PER_DAY - 1))) (dateOfDay k))
  = (f <=? k) && (k <=? l).
Proof.
  cbn [calendar_day isCurrentMonth js_le].
  apply eq_iff_eq_true. rewrite !andb_true_iff, !Z.leb_le, dateOfDay_le.
  unfold dateOfDay, MS_PER_DAY. lia.
Qed.

Lemma filter_none {A : Type} (p : A -> bool) (l : list A) :
  (forall x, In x l -> p x = false) -> List.filter p l = [].
Proof.
  induction l as [|x l IH]; intros H; [reflexivity|]. simpl.
  rewrite (H x) by now left. apply IH. intros y Hy. apply H. now right.
Qed.

Lemma filter_all {A : Type} (p : A -> bool) (l : list A) :
  (forall x, In x l -> p x = true) -> List.filter p l = l.
Proof.
  induction l as [|x l IH]; intros H; [reflexivity|]. simpl.
  rewrite (H x) by now left. f_equal. apply IH. intros y Hy. apply H. now right.
Qed.

(** The cells of the days [lo..hi] among the cells of [n] days from [a]. *)
Lemma filter_days_between (p : Date -> bool) (a lo hi : Z) (n : nat) :
  a <= lo -> lo <= hi + 1 -> hi <= a + Z.of_nat n - 1 ->
  (forall k, p (dateOfDay k) = (lo <=? k) && (k <=? hi)) ->
  List.filter p (days_from (dateOfDay a) n)
  = days_from (dateOfDay lo) (Z.to_nat (hi - lo + 1)).
Proof.
  intros Ha Hlh Hn Hp.
  replace n with (Z.to_nat (lo - a) + (Z.to_nat (hi - lo + 1)
                  + Z.to_nat (a + Z.of_nat n - 1 - hi)))%nat by lia.
  rewrite !days_from_app, !List.filter_app, !plusDays_dateOfDay.
  rewrite (filter_none p (days_from (dateOfDay a) _)).
  - rewrite filter_all.
    + rewrite filter_none; [rewrite app_nil_r; simpl; do 2 f_equal; lia|].
      intros d Hd. apply In_days_from in Hd as (i & Hi & ->).
      rewrite plusDays_dateOfDay, Hp.
      destruct (Z.leb_spec (a + Z.of_nat (Z.to_nat (lo - a))
                            + Z.of_nat (Z.to_nat (hi - lo + 1)) + Z.of_nat i) hi);
        [lia|apply andb_false_r].
    + intros d Hd. apply In_days_from in Hd as (i & Hi & ->).
      rewrite plusDays_dateOfDay, Hp, andb_true_iff, !Z.leb_le. lia.
  - intros d Hd. apply In_days_from in Hd as (i & Hi & ->).
    rewrite plusDays_dateOfDay, Hp.
    destruct (Z.leb_spec lo (a + Z.of_nat i)); [lia|reflexivity].
Qed.

Lemma filter_map_cells {A B : Type} (f : A -> B) (p : B -> bool) (l : list A) :
  List.filter p (List.map f l) = List.map f (List.filter (fun x => p (f x)) l).
Proof.
  induction l as [|x l IH]; [reflexivity|]. simpl.
  destruct (p (f x)); simpl; now rewrite IH.
Qed.

(** The month's own cells of the full grid are the cells of the days of
    the month. *)
Lemma full_grid_month_cells (now month : Date) :
  List.filter isCurrentMonth (cells (full_grid now month))
  = List.map (calendar_day now (Some (dateOfDay (month_first_day month)))
                (Some (dateOfDay (month_last_day month) + (MS_PER_DAY - 1))))
      (days_from (dateOfDay (month_first_day month))
         (Z.to_nat (month_last_day month - month_first_day month + 1))).
Proof.
  rewrite full_grid_cells, filter_map_cells.
  destruct (grid_facts month) as (Hw & _ & H1 & H2 & _).
  pose proof (month_first_le_last month) as Hfl.
  rewrite (filter_days_between _ (grid_first_day month) (month_first_day month)
             (month_last_day month)); [reflexivity|lia|lia|lia|].
  intros k. apply calendar_day_isCurrentMonth.
Qed.

(** C2: for every month, generateMonthGrid returns week rows of exactly 7
    cells each, so that the number of cells is a multiple of 7; each cell
    is the day after the cell before it, across the whole grid; and
    isCurrentMonth is true exactly for the cells whose day lies between
    the first and the last day of the month.  The grid is not empty: when
    the weeks of the month lie within the range of dates (which they do for
    every month but the first and the last that a Date can hold), it has
    4 to 6 rows and the cells with isCurrentMonth are the days of the
    month, from the first to the last, each once and in order. *)
Theorem generateMonthGrid_whole_weeks (now month : Date) :
  exists weeks,
    generateMonthGrid now month = Ok weeks /\
    (exists n, length (cells weeks) = (7 * n)%nat) /\
    Forall (fun w => length (days w) = 7%nat) weeks /\
    (forall i c1 c2,
        cells weeks !! i = Some c1 ->
        cells weeks !! S i = Some c2 ->
        addDays (date c1) 1 = Some (date c2) /\
        dayOf (date c2) = dayOf (date c1) + 1) /\
    (forall c, In c (cells weeks) ->
        (isCurrentMonth c = true <->
         month_first_day month <= dayOf (date c) <= month_last_day month)) /\
    (grid_in_range month ->
     (4 <= length weeks <= 6)%nat /\
     List.map (fun c => dayOf (date c)) (List.filter isCurrentMonth (cells weeks))
     = days_between (month_first_day month) (month_last_day month)).
Proof.
  destruct (grid_in_range_dec month) as [Hin|Hout].
  - destruct (generateMonthGrid_full now month Hin) as (_ & _ & Hg).
    destruct (grid_facts month) as (Hw & Hrows & H1 & H2 & _).
    destruct Hin as [Hlo Hhi].
    exists (full_grid now month). split; [exact Hg|].
    split; [|split; [|split; [|split]]].
    + exists (grid_rows month).
      now rewrite full_grid_cells, length_map, length_days_from.
    + apply List.Forall_forall. intros w Hin.
      apply in_map_iff in Hin as (j & <- & _).
      cbn [week_of days]. now rewrite length_map, length_days_from.
    + intros i c1 c2. rewrite full_grid_cells, !list_lookup_fmap.
      destruct (days_from _ _ !! i) as [d1|] eqn:E1; [|discriminate].
      destruct (days_from _ _ !! S i) as [d2|] eqn:E2; [|discriminate].
      intros [= <-] [= <-].
      apply days_from_lookup in E1 as [_ ->]. apply days_from_lookup in E2 as [Hi ->].
      cbn [calendar_day date]. rewrite !plusDays_dateOfDay, !dayOf_dateOfDay.
      split; [|lia]. unfold addDays. rewrite plusDays_dateOfDay.
      replace (grid_first_day month + Z.of_nat i + 1)
        with (grid_first_day month + Z.of_nat (S i)) by lia.
      apply time_clip_in_range, dateOfDay_in_range. lia.
    + intros c. rewrite full_grid_cells. intros Hc.
      apply in_map_iff in Hc as (d & <- & Hd).
      apply In_days_from in Hd as (i & _ & ->).
      rewrite plusDays_dateOfDay, calendar_day_isCurrentMonth.
      cbn [calendar_day date]. rewrite dayOf_dateOfDay, andb_true_iff, !Z.leb_le.
      reflexivity.
    + intros _. split.
      * unfold full_grid. now rewrite length_map, length_seq.
      * rewrite full_grid_month_cells, List.map_map.
        unfold days_between, days_from. rewrite List.map_map.
        apply map_ext. intros k. cbn [calendar_day date].
        now rewrite plusDays_dateOfDay, dayOf_dateOfDay.
  - exists []. split; [now apply generateMonthGrid_empty|].
    split; [now exists 0%nat|]. split; [constructor|].
    split; [intros i c1 c2 H; discriminate|].
    split; [intros c []|]. intros Hin. contradiction.
Qed.

Lemma generateMonthGrid_whole_weeks_witness :
  exists weeks,
    generateMonthGrid 0 march_2024 = Ok weeks /\
    (4 <= length weeks <= 6)%nat /\
    List.map (fun c => dayOf (date c)) (List.filter isCurrentMonth (cells weeks))
    = days_between (month_first_day march_2024) (month_last_day march_2024).
Proof.
  destruct (generateMonthGrid_whole_weeks 0 march_2024)
    as (weeks & Hg & _ & _ & _ & _ & Hin).
  exists weeks. split; [exact Hg|]. apply Hin.
  apply grid_in_range_of_day. vm_compute. split; discriminate.
Defined.

(** ** Task segments *)

Lemma week_grid_lookup (rows : list WeekRow) (first : Z) (j : nat) (row : WeekRow) :
  week_grid first rows -> rows !! j = Some row ->
  week_row_at (first + 7 * Z.of_nat j) row.
Proof.
  revert first j. induction rows as [|r rows IH]; intros first j Hg Hj; [discriminate|].
  destruct Hg as [Hr Hg]. destruct j as [|j]; simpl in Hj.
  - injection Hj as <-. now rewrite Z.mul_0_r, Z.add_0_r.
  - replace (first + 7 * Z.of_nat (S j)) with (first + 7 + 7 * Z.of_nat j) by lia.
    now apply IH.
Qed.

Lemma week_of_row_at (now : Date) (ms me : option Date) (first : Z) :
  week_row_at first (week_of now ms me (dateOfDay first)).
Proof.
  unfold week_row_at, week_of. cbn [days startDate endDate].
  rewrite List.map_map. split; [|split]; [|reflexivity|apply plusDays_dateOfDay].
  unfold days_from. rewrite List.map_map. apply map_ext. intros i.
  cbn [calendar_day date]. apply plusDays_dateOfDay.
Qed.

Lemma week_grid_weeks (now : Date) (ms me : option Date) (f : Z) (w : nat) :
  week_grid f (List.map (fun j => week_of now ms me (dateOfDay (f + 7 * Z.of_nat j)))
                 (seq 0 w)).
Proof.
  revert f. induction w as [|w IH]; intros f; [exact I|].
  cbn [seq List.map week_grid]. split.
  - rewrite Z.mul_0_r, Z.add_0_r. apply week_of_row_at.
  - rewrite <- seq_shift, List.map_map.
    erewrite map_ext; [apply (IH (f + 7))|].
    intros j. cbv beta. do 2 f_equal. lia.
Qed.

(** The grid of a month is a grid of consecutive weeks. *)
Lemma generateMonthGrid_week_grid (now month : Date) (weeks : list WeekRow) :
  generateMonthGrid now month = Ok weeks ->
  week_grid (grid_first_day month) weeks.
Proof.
  destruct (grid_in_range_dec month) as [Hin|Hout].
  - destruct (generateMonthGrid_full now month Hin) as (_ & _ & ->).
    intros [= <-]. apply week_grid_weeks.
  - rewrite (generateMonthGrid_empty now month Hout). intros [= <-]. exact I.
Qed.

Lemma findIndex_map {A B : Type} (g : A -> B) (p : B -> bool) (l : list A) :
  findIndex (fun x => p (g x)) l = findIndex p (List.map g l).
Proof.
  induction l as [|x l IH]; [reflexivity|]. simpl. now rewrite IH.
Qed.

Lemma findIndex_days (k first : Z) (off n : nat) :
  findIndex (fun d => js_eq (Some d) (Some (dateOfDay k)))
    (List.map (fun i => dateOfDay (first + Z.of_nat i)) (seq off n))
  = if (first + Z.of_nat off <=? k) && (k <? first + Z.of_nat off + Z.of_nat n)
    then k - (first + Z.of_nat off) else -1.
Proof.
  revert off. induction n as [|n IH]; intros off.
  - simpl. destruct (first + Z.of_nat off <=? k) eqn:E1; simpl; [|reflexivity].
    destruct (Z.ltb_spec k (first + Z.of_nat off + Z.of_nat 0)); [|reflexivity].
    apply Z.leb_le in E1. lia.
  - cbn [seq List.map findIndex js_eq]. rewrite IH.
    destruct (Z.eqb_spec (dateOfDay (first + Z.of_nat off)) (dateOfDay k)) as [E|N].
    + apply dateOfDay_inj in E.
      destruct (Z.leb_spec (first + Z.of_nat off) k); [|lia].
      destruct (Z.ltb_spec k (first + Z.of_nat off + Z.of_nat (S n))); simpl; lia.
    + assert (first + Z.of_nat off <> k) by congruence.
      destruct (Z.leb_spec (first + Z.of_nat (S off)) k);
        destruct (Z.ltb_spec k (first + Z.of_nat (S off) + Z.of_nat n));
        destruct (Z.leb_spec (first + Z.of_nat off) k);
        destruct (Z.ltb_spec k (first + Z.of_nat off + Z.of_nat (S n)));
        simpl; try lia;
        destruct (Z.eqb_spec (k - (first + Z.of_nat (S off))) (-1)); lia.
Qed.

Lemma findIndex_week (row : WeekRow) (first k : Z) :
  week_row_at first row -> first <= k <= first + 6 ->
  findIndex (fun day => js_eq (Some (date day)) (Some (dateOfDay k))) (days row)
  = k - first.
Proof.
  intros (Hd & _ & _) Hk.
  rewrite (findIndex_map date (fun d => js_eq (Some d) (Some (dateOfDay k)))), Hd.
  rewrite findIndex_days.
  destruct (Z.leb_spec (first + Z.of_nat 0) k); [|lia].
  destruct (Z.ltb_spec k (first + Z.of_nat 0 + Z.of_nat 7)); simpl; lia.
Qed.

Lemma segment_callback_row (task : Task) (a b first : Z) (segs : list TaskSegment)
    (row : WeekRow) :
  week_row_at first row ->
  segment_callback task (Some (dateOfDay a)) (Some (dateOfDay b)) segs row
  = Ok (segs ++ if (first + 6 <? a) || (b <? first) then []
                else [segment_for task a b first]).
Proof.
  intros Hrow. pose proof Hrow as (_ & Hs & He).
  unfold segment_callback. rewrite Hs, He, !startOfDay_dateOfDay.
  unfold isAfter, isBefore, js_lt.
  destruct (Z.ltb_spec (dateOfDay (first + 6)) (dateOfDay a)) as [H1|H1];
    [rewrite dateOfDay_lt in H1|rewrite dateOfDay_le in H1].
  { destruct (Z.ltb_spec (first + 6) a); [|lia]. simpl. now rewrite app_nil_r. }
  destruct (Z.ltb_spec (first + 6) a); [lia|].
  destruct (Z.ltb_spec (dateOfDay b) (dateOfDay first)) as [H2|H2];
    [rewrite dateOfDay_lt in H2|rewrite dateOfDay_le in H2].
  { destruct (Z.ltb_spec b first); [|lia]. simpl. now rewrite app_nil_r. }
  destruct (Z.ltb_spec b first); [lia|]. cbn [orb].
  assert (E1 : (if dateOfDay a <? dateOfDay first then Some (dateOfDay first)
                else Some (dateOfDay a)) = Some (dateOfDay (Z.max a first))).
  { destruct (Z.ltb_spec (dateOfDay a) (dateOfDay first)) as [H3|H3];
      [rewrite dateOfDay_lt in H3|rewrite dateOfDay_le in H3]; do 2 f_equal; lia. }
  assert (E2 : (if dateOfDay (first + 6) <? dateOfDay b then Some (dateOfDay (first + 6))
                else Some (dateOfDay b)) = Some (dateOfDay (Z.min b (first + 6)))).
  { destruct (Z.ltb_spec (dateOfDay (first + 6)) (dateOfDay b)) as [H3|H3];
      [rewrite dateOfDay_lt in H3|rewrite dateOfDay_le in H3]; do 2 f_equal; lia. }
  rewrite E1, E2.
  rewrite !(findIndex_week row first) by (trivial; lia).
  destruct (Z.eqb_spec (Z.max a first - first) (-1)); [lia|].
  destruct (Z.eqb_spec (Z.min b (first + 6) - first) (-1)); [lia|].
  cbn [orb format_date mbind Result_bind]. unfold segment_for.
  do 4 f_equal. lia.
Qed.

Lemma forEach_index_irrel {A St : Type} (f : St -> A -> Result St) (l : list A)
    (i j : nat) (st : St) :
  forEach_index (fun st x _ => f st x) l i st
  = forEach_index (fun st x _ => f st x) l j st.
Proof.
  revert i j st. induction l as [|x l IH]; intros i j st; [reflexivity|].
  simpl. destruct (f st x); simpl; [apply IH|reflexivity].
Qed.

Lemma forEach_cons {A St : Type} (f : St -> A -> Result St) (x : A) (l : list A)
    (st : St) :
  forEach f (x :: l) st = st' ← f st x; forEach f l st'.
Proof.
  unfold forEach. simpl. destruct (f st x); simpl; [|reflexivity].
  apply forEach_index_irrel.
Qed.

Lemma forEach_segments (task : Task) (a b : Z) (rows : list WeekRow) (first : Z)
    (segs : list TaskSegment) :
  week_grid first rows ->
  forEach (segment_callback task (Some (dateOfDay a)) (Some (dateOfDay b))) rows segs
  = Ok (segs ++ segments_of task a b first rows).
Proof.
  revert first segs. induction rows as [|row rows IH]; intros first segs Hg.
  - simpl. now rewrite app_nil_r.
  - destruct Hg as [Hr Hg]. rewrite forEach_cons.
    rewrite (segment_callback_row _ _ _ first) by assumption.
    cbn [mbind Result_bind]. rewrite (IH (first + 7)) by assumption.
    cbn [segments_of]. now rewrite app_assoc.
Qed.

(** calculateTaskSegments on a grid of weeks, for a task on civil dates. *)
Lemma calculateTaskSegments_eq (task : Task) (rows : list WeekRow) (first : Z)
    (ts te : Date) :
  week_grid first rows ->
  parseISO (task_start task) = Some ts ->
  parseISO (task_end task) = Some te ->
  calculateTaskSegments task rows
  = Ok (segments_of task (dayOf ts) (dayOf te) first rows).
Proof.
  intros Hg Hs He. unfold calculateTaskSegments. rewrite Hs, He.
  rewrite (parseISO_midnight _ _ Hs) at 1. rewrite (parseISO_midnight _ _ He) at 1.
  now rewrite (forEach_segments _ _ _ _ first).
Qed.

Lemma dateOfDay_max (a b : Z) : dateOfDay (Z.max a b) = Z.max (dateOfDay a) (dateOfDay b).
Proof.
  destruct (Z.max_spec a b) as [[H ->]|[H ->]].
  - rewrite Z.max_r; [reflexivity|]. apply dateOfDay_le. lia.
  - rewrite Z.max_l; [reflexivity|]. now apply dateOfDay_le.
Qed.

Lemma dateOfDay_min (a b : Z) : dateOfDay (Z.min a b) = Z.min (dateOfDay a) (dateOfDay b).
Proof.
  destruct (Z.min_spec a b) as [[H ->]|[H ->]].
  - rewrite Z.min_l; [reflexivity|]. apply dateOfDay_le. lia.
  - rewrite Z.min_r; [reflexivity|]. now apply dateOfDay_le.
Qed.

(** The strings of the segment of a week that the task overlaps name the
    ends of the segment, for a task of the years 0001 to 9999. *)
Lemma segment_for_parse (task : Task) (a b first : Z) :
  FIRST_DAY <= a -> a <= b -> b <= LAST_DAY -> a <= first + 6 -> first <= b ->
  parseISO (seg_startDate (segment_for task a b first))
    = Some (dateOfDay (Z.max a first)) /\
  parseISO (seg_endDate (segment_for task a b first))
    = Some (dateOfDay (Z.min b (first + 6))).
Proof.
  intros Ha Hab Hb H1 H2. unfold segment_for. cbn [seg_startDate seg_endDate].
  rewrite !parseISO_format_day by lia. split; reflexivity.
Qed.

Lemma segment_for_dates (task : Task) (a b first : Z) :
  FIRST_DAY <= a -> a <= b -> b <= LAST_DAY -> a <= first + 6 -> first <= b ->
  segment_dates (segment_for task a b first)
  = days_from (dateOfDay (Z.max a first))
      (Z.to_nat (Z.min b (first + 6) - Z.max a first + 1)).
Proof.
  intros Ha Hab Hb H1 H2. unfold segment_dates.
  destruct (segment_for_parse task a b first Ha Hab Hb H1 H2) as [-> ->].
  apply eachDayOfInterval_midnights. lia.
Qed.

(** The segments of a task cover, week after week, the days of the task
    that the grid shows. *)
Lemma segments_of_dates (task : Task) (a b : Z) (rows : list WeekRow) (first : Z) :
  FIRST_DAY <= a -> a <= b -> b <= LAST_DAY ->
  concat (List.map segment_dates (segments_of task a b first rows))
  = days_from (dateOfDay (Z.max a first))
      (Z.to_nat (Z.min b (first + 7 * Z.of_nat (length rows) - 1) - Z.max a first + 1)).
Proof.
  intros Ha Hab Hb. revert first. induction rows as [|row rows IH]; intros first.
  - simpl. replace (Z.to_nat _) with 0%nat by lia. reflexivity.
  - cbn [segments_of length]. rewrite map_app, concat_app, IH.
    destruct (Z.ltb_spec (first + 6) a) as [H1|H1]; cbn [orb].
    { cbn [List.map concat app]. do 2 f_equal; lia. }
    destruct (Z.ltb_spec b first) as [H2|H2].
    { cbn [List.map concat app].
      replace (Z.to_nat _) with 0%nat by lia.
      replace (Z.to_nat _) with 0%nat by lia. reflexivity. }
    cbn [List.map concat]. rewrite app_nil_r, segment_for_dates by lia.
    destruct (Z_le_gt_dec b (first + 6)) as [H3|H3].
    + replace (Z.to_nat (Z.min b (first + 7 + _ - 1) - _ + 1)) with 0%nat by lia.
      cbn [days_from seq List.map]. rewrite app_nil_r. do 2 f_equal. lia.
    + replace (Z.max a (first + 7)) with (first + 7) by lia.
      replace (dateOfDay (first + 7))
        with (plusDays (dateOfDay (Z.max a first))
                (Z.of_nat (Z.to_nat (Z.min b (first + 6) - Z.max a first + 1))))
        by (rewrite plusDays_dateOfDay; f_equal; lia).
      rewrite <- days_from_app. f_equal. lia.
Qed.

Lemma segments_of_touched (task : Task) (a b : Z) (rows : list WeekRow) (first : Z) :
  FIRST_DAY <= a -> a <= b -> b <= LAST_DAY ->
  week_grid first rows ->
  Forall2 (fun seg row =>
             seg_task seg = task /\
             parseISO (seg_startDate seg) = Some (Z.max (dateOfDay a) (startDate row)) /\
             parseISO (seg_endDate seg) = Some (Z.min (dateOfDay b) (endDate row)))
    (segments_of task a b first rows)
    (List.filter (task_overlaps_week (dateOfDay a) (dateOfDay b)) rows).
Proof.
  intros Ha Hab Hb.
  revert first. induction rows as [|row rows IH]; intros first Hg; [constructor|].
  destruct Hg as [Hr Hg]. pose proof Hr as (_ & Hs & He).
  cbn [segments_of List.filter]. unfold task_overlaps_week at 1. rewrite Hs, He.
  destruct (Z.ltb_spec (first + 6) a) as [H1|H1]; cbn [orb].
  { destruct (Z.leb_spec (dateOfDay a) (dateOfDay (first + 6))) as [H|H];
      [rewrite dateOfDay_le in H; lia|]. cbn [andb app]. now apply IH. }
  destruct (Z.leb_spec (dateOfDay a) (dateOfDay (first + 6))) as [H|H];
    [|rewrite dateOfDay_lt in H; lia].
  destruct (Z.ltb_spec b first) as [H2|H2].
  { destruct (Z.leb_spec (dateOfDay first) (dateOfDay b)) as [H'|H'];
      [rewrite dateOfDay_le in H'; lia|]. cbn [andb app]. now apply IH. }
  destruct (Z.leb_spec (dateOfDay first) (dateOfDay b)) as [H'|H'];
    [|rewrite dateOfDay_lt in H'; lia].
  cbn [andb app]. constructor; [|now apply IH].
  destruct (segment_for_parse task a b first Ha Hab Hb H1 H2) as [-> ->].
  rewrite Hs, He, dateOfDay_max, dateOfDay_min. split; [reflexivity|]. tauto.
Qed.

(** C1 as stated fails for a task of the year 0000: the segments carry
    the strings that format prints, of the year 0001, so they name the
    days one year after the days of the task.  On the grid of March 0000,
    the first of the three segments of the task 0000-03-05..0000-03-20
    starts at 0001-03-05, not at max(task.start, week.start), which is
    0000-03-05, and the days of the segments are not the days of the
    task. *)
Lemma segments_year_zero_counterexample :
  week_grid (-719471) year0_grid /\
  parseISO (task_start year0_long_task) = Some (dateOfDay (-719464)) /\
  parseISO (task_end year0_long_task) = Some (dateOfDay (-719449)) /\
  dateOfDay (-719471) <= dateOfDay (-719464) /\
  dateOfDay (-719464) <= dateOfDay (-719449) /\
  dateOfDay (-719449)
    <= dateOfDay (-719471 + 7 * Z.of_nat (length year0_grid) - 1) /\
  calculateTaskSegments year0_long_task year0_grid
    = Ok [mkSegment year0_long_task (mkIso 1 3 5) (mkIso 1 3 11) 0 7 0;
          mkSegment year0_long_task (mkIso 1 3 12) (mkIso 1 3 18) 0 7 0;
          mkSegment year0_long_task (mkIso 1 3 19) (mkIso 1 3 20) 0 2 0] /\
  List.map startDate
    (List.filter (task_overlaps_week (dateOfDay (-719464)) (dateOfDay (-719449)))
       year0_grid)
    = [dateOfDay (-719464); dateOfDay (-719457); dateOfDay (-719450)] /\
  Z.max (dateOfDay (-719464)) (dateOfDay (-719464)) = dateOfDay (-719464) /\
  parseISO (mkIso 1 3 5) = Some (dateOfDay (-719099)) /\
  dateOfDay (-719099) <> dateOfDay (-719464) /\
  segment_dates (mkSegment year0_long_task (mkIso 1 3 5) (mkIso 1 3 11) 0 7 0)
    = days_from (dateOfDay (-719099)) 7 /\
  eachDayOfInterval (Some (dateOfDay (-719464))) (Some (dateOfDay (-719449)))
    = days_from (dateOfDay (-719464)) 16.
Proof.
  vm_compute. repeat split; discriminate.
Qed.

(** C1, amended: for a task on civil dates of the year 0001 or later, with
    start <= end, that lies within the grid, calculateTaskSegments returns
    one segment for each week that the task overlaps, in the order of the
    weeks; each segment runs from max(task.start, week.start) to
    min(task.end, week.end); and the days of the segments, one after the
    other, are the days of the task, each once. *)
Theorem segments_partition_task (task : Task) (rows : list WeekRow) (first : Z)
    (ts te : Date) :
  week_grid first rows ->
  parseISO (task_start task) = Some ts ->
  parseISO (task_end task) = Some te ->
  1 <= iso_year (task_start task) ->
  ts <= te ->
  dateOfDay first <= ts ->
  te <= dateOfDay (first + 7 * Z.of_nat (length rows) - 1) ->
  exists segs,
    calculateTaskSegments task rows = Ok segs /\
    length segs = length (List.filter (task_overlaps_week ts te) rows) /\
    Forall2 (fun seg row =>
               seg_task seg = task /\
               parseISO (seg_startDate seg) = Some (Z.max ts (startDate row)) /\
               parseISO (seg_endDate seg) = Some (Z.min te (endDate row)))
      segs (List.filter (task_overlaps_week ts te) rows) /\
    concat (List.map segment_dates segs) = eachDayOfInterval (Some ts) (Some te).
Proof.
  intros Hg Hs He Hy Hle Hlo Hhi.
  destruct (parseISO_day_bounds _ _ Hs) as [_ Bs]. specialize (Bs Hy).
  destruct (parseISO_day_bounds _ _ He) as [[_ Be] _].
  exists (segments_of task (dayOf ts) (dayOf te) first rows).
  split; [now apply calculateTaskSegments_eq|].
  pose proof (segments_of_touched task (dayOf ts) (dayOf te) rows first Bs
                (dayOf_le_mono _ _ Hle) Be Hg) as HF.
  rewrite <- (parseISO_midnight _ _ Hs), <- (parseISO_midnight _ _ He) in HF.
  split; [exact (Forall2_length _ _ _ HF)|]. split; [exact HF|].
  rewrite (parseISO_midnight _ _ Hs) in Hle, Hlo |- * at 2.
  rewrite (parseISO_midnight _ _ He) in Hle, Hhi |- * at 2.
  rewrite dateOfDay_le in Hle, Hlo, Hhi.
  rewrite segments_of_dates, eachDayOfInterval_midnights by assumption.
  do 2 f_equal; lia.
Qed.

Lemma march_grid_weeks : week_grid 19778 march_grid.
Proof. vm_compute. repeat split. Qed.

Lemma segments_partition_task_witness :
  exists segs,
    calculateTaskSegments march_task march_grid = Ok segs /\
    length segs = length (List.filter (task_overlaps_week (dateOfDay 19787) (dateOfDay 19802))
                            march_grid) /\
    Forall2 (fun seg row =>
               seg_task seg = march_task /\
               parseISO (seg_startDate seg) = Some (Z.max (dateOfDay 19787) (startDate row)) /\
               parseISO (seg_endDate seg) = Some (Z.min (dateOfDay 19802) (endDate row)))
      segs (List.filter (task_overlaps_week (dateOfDay 19787) (dateOfDay 19802)) march_grid) /\
    concat (List.map segment_dates segs)
      = eachDayOfInterval (Some (dateOfDay 19787)) (Some (dateOfDay 19802)).
Proof.
  apply (segments_partition_task march_task march_grid 19778).
  - exact march_grid_weeks.
  - vm_compute. reflexivity.
  - vm_compute. reflexivity.
  - vm_compute. discriminate.
  - vm_compute. discriminate.
  - vm_compute. discriminate.
  - vm_compute. discriminate.
Defined.

Lemma segments_of_none_before (task : Task) (a b : Z) (rows : list WeekRow) (first : Z) :
  b < first -> segments_of task a b first rows = [].
Proof.
  revert first. induction rows as [|row rows IH]; intros first H; [reflexivity|].
  cbn [segments_of]. rewrite IH by lia.
  destruct (Z.ltb_spec b first); [|lia]. now rewrite orb_true_r.
Qed.




(** ** The row stacker *)

Lemma columns_intersect_overlap (s t : TaskSegment) :
  columns_intersect s t -> segmentsOverlap s t = true.
Proof.
  intros (c & Hs & Ht). unfold segmentsOverlap.
  destruct (Z.ltb_spec (startColumn s + widthInColumns s - 1) (startColumn t)); [lia|].
  destruct (Z.ltb_spec (startColumn t + widthInColumns t - 1) (startColumn s)); [lia|].
  reflexivity.
Qed.

Lemma segmentsOverlap_sym (s t : TaskSegment) :
  segmentsOverlap s t = segmentsOverlap t s.
Proof. unfold segmentsOverlap. now rewrite orb_comm. Qed.

Lemma segmentsOverlap_columns (s s' t t' : TaskSegment) :
  same_columns s s' -> same_columns t t' ->
  segmentsOverlap s' t' = segmentsOverlap s t.
Proof. intros [H1 H2] [H3 H4]. unfold segmentsOverlap. now rewrite H1, H2, H3, H4. Qed.

Lemma sort_insert_In {A : Type} (cmp : A -> A -> Z) (x y : A) (l : list A) :
  In y (sort_insert cmp x l) <-> y = x \/ In y l.
Proof.
  induction l as [|z l IH]; simpl; [intuition congruence|].
  destruct (cmp x z <=? 0); simpl; [intuition congruence|].
  rewrite IH. intuition congruence.
Qed.

Lemma sort_by_In {A : Type} (cmp : A -> A -> Z) (y : A) (l : list A) :
  In y (sort_by cmp l) <-> In y l.
Proof.
  unfold sort_by. induction l as [|x l IH]; simpl; [tauto|].
  rewrite sort_insert_In, IH. intuition congruence.
Qed.

Lemma find_row_spec (store : Store) (s : Addr) (scan : list (list Addr)) (i : nat) :
  (i <= find_row store s scan i <= i + length scan)%nat /\
  forall row, scan !! (find_row store s scan i - i)%nat = Some row ->
    forall x, In x row -> segmentsOverlap (store !!! s) (store !!! x) = false.
Proof.
  revert i. induction scan as [|row scan IH]; intros i; simpl.
  - split; [lia|]. intros row H. discriminate.
  - destruct (existsb _ row) eqn:E; simpl.
    + destruct (IH (S i)) as [Hr Hrow]. split; [lia|].
      intros row' H.
      replace (find_row store s scan (S i) - i)%nat
        with (S (find_row store s scan (S i) - S i)) in H by lia.
      simpl in H. now apply Hrow.
    + split; [lia|]. rewrite Nat.sub_diag. simpl. intros row' [= <-] x Hx.
      destruct (segmentsOverlap (store !!! s) (store !!! x)) eqn:Eo; [|reflexivity].
      assert (existsb (fun existing => segmentsOverlap (store !!! s) (store !!! existing))
                row = true) by (apply existsb_exists; eauto).
      congruence.
Qed.

Lemma rows_after_at (rows : list (list Addr)) (r : nat) (s : Addr) :
  (r <= length rows)%nat ->
  exists row, rows_after rows r s !! r = Some (row ++ [s]) /\
    (rows !! r = Some row \/ (r = length rows /\ row = [])).
Proof.
  intros Hr. unfold rows_after. rewrite list_lookup_alter_eq.
  destruct (decide (length rows ≤ r)%nat) as [Hge|Hlt].
  - assert (r = length rows) as -> by lia.
    exists []. rewrite lookup_app_r, Nat.sub_diag by lia. simpl. tauto.
  - destruct (rows !! r) as [row|] eqn:E.
    + exists row. simpl. tauto.
    + apply lookup_ge_None in E. lia.
Qed.

Lemma rows_after_other (rows : list (list Addr)) (r q : nat) (s : Addr) :
  (r <= length rows)%nat -> q <> r -> rows_after rows r s !! q = rows !! q.
Proof.
  intros Hr Hq. unfold rows_after. rewrite list_lookup_alter_ne by congruence.
  destruct (decide (length rows ≤ r)%nat) as [Hge|Hlt]; [|reflexivity].
  assert (r = length rows) as -> by lia.
  destruct (Nat.lt_ge_cases q (length rows)) as [H|H].
  - now rewrite lookup_app_l.
  - rewrite (lookup_ge_None_2 rows q) by lia.
    apply lookup_ge_None_2. rewrite length_app. simpl. lia.
Qed.

Lemma rows_inv_init (store0 : Store) : rows_inv store0 (store0, []) [].
Proof.
  constructor; simpl.
  - reflexivity.
  - intros x. split; reflexivity.
  - intros r row x y H. discriminate.
  - intros x [].
Qed.

Lemma place_segment_inv (store0 : Store) (st : Store * list (list Addr))
    (placed : list Addr) (s : Addr) :
  rows_inv store0 st placed ->
  rows_inv store0 (place_segment st s) (s :: placed).
Proof.
  destruct st as [store rows]. intros [Hlen Hcol Hrows Hpl]. simpl in *.
  unfold place_segment.
  destruct (find_row_spec store s rows 0) as [Hr Hfree].
  set (r := find_row store s rows 0) in *.
  fold (rows_after rows r s).
  rewrite Nat.sub_0_r in Hfree. simpl in Hr.
  destruct (rows_after_at rows r s ltac:(lia)) as (rowr & Hat & Hold).
  constructor; simpl.
  - now rewrite length_alter.
  - intros x. destruct (Hcol x) as [H1 H2].
    rewrite list_lookup_total_alter. destruct (decide _) as [[<- _]|_].
    + split; simpl; assumption.
    + split; assumption.
  - intros q row x y Hq Hx Hy Hxy.
    destruct (Nat.eq_dec q r) as [->|Hne].
    + rewrite Hat in Hq. injection Hq as <-.
      assert (Hnew : forall z, In z rowr -> z <> s ->
                segmentsOverlap (store0 !!! s) (store0 !!! z) = false).
      { intros z Hz _. destruct Hold as [Hold|[_ ->]]; [|destruct Hz].
        rewrite <- (segmentsOverlap_columns _ _ _ _ (Hcol s) (Hcol z)).
        now apply (Hfree rowr Hold). }
      apply in_app_iff in Hx, Hy. simpl in Hx, Hy.
      destruct Hx as [Hx|[<-|[]]], Hy as [Hy|[<-|[]]].
      * destruct Hold as [Hold|[_ ->]]; [|destruct Hx].
        now apply (Hrows r rowr).
      * rewrite segmentsOverlap_sym. now apply Hnew.
      * now apply Hnew.
      * congruence.
    + rewrite rows_after_other in Hq by (trivial; lia).
      now apply (Hrows q row).
  - intros x Hx Hv. destruct (Nat.eq_dec x s) as [->|Hne].
    + exists r, (rowr ++ [s]).
      rewrite list_lookup_total_alter_eq by lia. simpl.
      split; [reflexivity|]. split; [exact Hat|].
      apply in_app_iff. right. now left.
    + destruct Hx as [Hx|Hx]; [congruence|].
      destruct (Hpl x Hx Hv) as (q & row & Hri & Hq & Hin).
      rewrite list_lookup_total_alter_ne by congruence.
      destruct (Nat.eq_dec q r) as [->|Hqr].
      * exists r, (rowr ++ [s]). split; [exact Hri|]. split; [exact Hat|].
        destruct Hold as [Hold|[Hrl _]].
        -- rewrite Hold in Hq. injection Hq as <-. apply in_app_iff. now left.
        -- apply lookup_lt_Some in Hq. lia.
      * exists q, row. split; [exact Hri|]. split; [|exact Hin].
        now rewrite rows_after_other by (trivial; lia).
Qed.

Lemma fold_place_inv (store0 : Store) (l : list Addr)
    (st : Store * list (list Addr)) (placed : list Addr) :
  rows_inv store0 st placed ->
  rows_inv store0 (fold_left place_segment l st) (rev l ++ placed).
Proof.
  revert st placed. induction l as [|s l IH]; intros st placed H; [exact H|].
  simpl. rewrite <- app_assoc. simpl. apply IH. now apply place_segment_inv.
Qed.

(** Two distinct placed segments that the overlap test of the code
    reports as overlapping get different rows. *)
Lemma calculateRowIndices_separates (store : Store) (segments : list Addr)
    (a b : Addr) (sa sb : TaskSegment) :
  In a segments -> In b segments -> a <> b ->
  calculateRowIndices store segments !! a = Some sa ->
  calculateRowIndices store segments !! b = Some sb ->
  segmentsOverlap sa sb = true ->
  rowIndex sa <> rowIndex sb.
Proof.
  intros Ha Hb Hab Hsa Hsb Hov Heq. unfold calculateRowIndices in *.
  set (cmp := fun x y : Addr => startColumn (store !!! x) - startColumn (store !!! y)) in *.
  pose proof (fold_place_inv store (sort_by cmp segments) (store, []) []
                (rows_inv_init store)) as [Hlen Hcol Hrows Hpl].
  destruct (fold_left place_segment (sort_by cmp segments) (store, []))
    as [store' rows']. simpl in *.
  pose proof (lookup_lt_Some _ _ _ Hsa) as Hla.
  pose proof (lookup_lt_Some _ _ _ Hsb) as Hlb.
  apply list_lookup_total_correct in Hsa, Hsb. subst sa sb.
  assert (Hin : forall x, In x segments -> In x (rev (sort_by cmp segments) ++ [])).
  { intros x Hx. rewrite app_nil_r, <- in_rev. now apply sort_by_In. }
  destruct (Hpl a (Hin a Ha) ltac:(lia)) as (ra & rowa & Hra & Hqa & Hina).
  destruct (Hpl b (Hin b Hb) ltac:(lia)) as (rb & rowb & Hrb & Hqb & Hinb).
  assert (ra = rb) by lia. subst rb.
  rewrite Hqa in Hqb. injection Hqb as <-.
  rewrite (segmentsOverlap_columns _ _ _ _ (Hcol a) (Hcol b)) in Hov.
  rewrite (Hrows ra rowa a b Hqa Hina Hinb Hab) in Hov. discriminate.
Qed.

(** C3: after calculateRowIndices, no two segments of the array whose
    column intervals intersect have the same rowIndex. *)
Theorem stacked_rows_do_not_collide (store : Store) (segments : list Addr)
    (a b : Addr) (sa sb : TaskSegment) :
  In a segments -> In b segments -> a <> b ->
  calculateRowIndices store segments !! a = Some sa ->
  calculateRowIndices store segments !! b = Some sb ->
  columns_intersect sa sb ->
  rowIndex sa <> rowIndex sb.
Proof.
  intros Ha Hb Hab Hsa Hsb Hc.
  apply (calculateRowIndices_separates store segments a b sa sb); trivial.
  now apply columns_intersect_overlap.
Qed.

Lemma stacked_rows_do_not_collide_witness :
  rowIndex (set_rowIndex 0 segment_A) <> rowIndex (set_rowIndex 1 segment_B).
Proof.
  apply (stacked_rows_do_not_collide [segment_A; segment_B] [0%nat; 1%nat]
           0%nat 1%nat).
  - now left.
  - right. now left.
  - discriminate.
  - reflexivity.
  - reflexivity.
  - exists 2. vm_compute. repeat split; discriminate.
Defined.

(** * Further properties of the code *)

(** ** lib/dates.ts *)

(** dateRangesOverlap does not depend on the order of its arguments; it is
    false as soon as one of the four dates is invalid; and on civil ranges
    with start <= end it holds exactly when the two ranges share a
    moment. *)
Theorem dateRangesOverlap_shared_day (r1 r2 : DateRange) :
  dateRangesOverlap r1 r2 = dateRangesOverlap r2 r1 /\
  ((parseISO (range_start r1) = None \/ parseISO (range_end r1) = None \/
    parseISO (range_start r2) = None \/ parseISO (range_end r2) = None) ->
   dateRangesOverlap r1 r2 = false) /\
  (forall s1 e1 s2 e2,
      parseISO (range_start r1) = Some s1 -> parseISO (range_end r1) = Some e1 ->
      parseISO (range_start r2) = Some s2 -> parseISO (range_end r2) = Some e2 ->
      s1 <= e1 -> s2 <= e2 ->
      (dateRangesOverlap r1 r2 = true <->
       exists t, s1 <= t <= e1 /\ s2 <= t <= e2)).
Proof.
  unfold dateRangesOverlap. split; [apply andb_comm|]. split.
  - intros [H|[H|[H|H]]]; rewrite H; simpl;
      repeat match goal with |- context [parseISO ?x] => destruct (parseISO x) end;
      simpl; rewrite ?andb_false_r; reflexivity.
  - intros s1 e1 s2 e2 H1 H2 H3 H4 Hle1 Hle2. rewrite H1, H2, H3, H4. simpl.
    rewrite andb_true_iff, !Z.leb_le. split.
    + intros [Ha Hb]. exists (Z.max s1 s2). lia.
    + intros (t & Ht1 & Ht2). lia.
Qed.

Lemma dateRangesOverlap_shared_day_witness :
  dateRangesOverlap (mkRange (mkIso 2024 3 5) (mkIso 2024 3 10))
                    (mkRange (mkIso 2024 3 10) (mkIso 2024 3 12)) = true.
Proof.
  apply (proj2 (proj2 (dateRangesOverlap_shared_day
                         (mkRange (mkIso 2024 3 5) (mkIso 2024 3 10))
                         (mkRange (mkIso 2024 3 10) (mkIso 2024 3 12))))
           (dateOfDay 19787) (dateOfDay 19792) (dateOfDay 19792) (dateOfDay 19794)).
  - vm_compute. reflexivity.
  - vm_compute. reflexivity.
  - vm_compute. reflexivity.
  - vm_compute. reflexivity.
  - vm_compute. discriminate.
  - vm_compute. discriminate.
  - exists (dateOfDay 19792). vm_compute. repeat split; discriminate.
Defined.



(** For a day [today] of the years 0001 to 9999 whose day 7 * weeks days
    later is of those years too, getTimeRangeFilter(today, weeks) is the
    range from the day of [today] to that later day: it spans
    7 * weeks + 1 days, both ends included.  At the end of the range of
    dates, where the later day is no Date, the function throws. *)
Theorem getTimeRangeFilter_span (today : Date) (weeks : Z) :
  (0 <= weeks -> FIRST_DAY <= dayOf today -> dayOf today + 7 * weeks <= LAST_DAY ->
   exists r,
     getTimeRangeFilter today weeks = Ok r /\
     parseISO (range_start r) = Some (startOfDay today) /\
     parseISO (range_end r) = Some (plusDays (startOfDay today) (7 * weeks)) /\
     dayCountInclusive (range_start r) (range_end r) = Some (7 * weeks + 1)) /\
  (MAX_TIME < plusDays today (weeks * 7) ->
   getTimeRangeFilter today weeks = Throw RangeError).
Proof.
  split.
  - intros Hw Hlo Hhi. unfold getTimeRangeFilter, addDays.
    pose proof (date_split today) as Hsplit.
    pose proof (time_of_day_bounds today) as Hb.
    assert (Hp : plusDays today (weeks * 7)
                 = dateOfDay (dayOf today + 7 * weeks) + today mod MS_PER_DAY)
      by (unfold plusDays; rewrite Hsplit at 1; unfold dateOfDay; lia).
    rewrite time_clip_in_range
      by (rewrite Hp; apply day_time_in_range; [assumption|];
          unfold FIRST_DAY, LAST_DAY in *; lia).
    cbn [format_date mbind Result_bind]. eexists. split; [reflexivity|].
    cbn [range_start range_end].
    assert (P1 : parseISO (format today) = Some (startOfDay today))
      by (apply parseISO_format; lia).
    assert (P2 : parseISO (format (plusDays today (weeks * 7)))
                 = Some (plusDays (startOfDay today) (7 * weeks))).
    { rewrite parseISO_format by (rewrite dayOf_plusDays; lia).
      unfold startOfDay. rewrite dayOf_plusDays, plusDays_dateOfDay.
      do 2 f_equal. lia. }
    split; [exact P1|]. split; [exact P2|].
    rewrite (dayCountInclusive_parsed _ _ _ _ P1 P2).
    unfold startOfDay. rewrite plusDays_dateOfDay, !dayOf_dateOfDay. f_equal. lia.
  - intros Hhi. unfold getTimeRangeFilter, addDays.
    assert (E : time_clip (plusDays today (weeks * 7)) = None)
      by (apply time_clip_None; now right).
    rewrite E. reflexivity.
Qed.

Lemma getTimeRangeFilter_span_witness :
  exists r,
    getTimeRangeFilter (dateOfDay 19797 + 3600000) 2 = Ok r /\
    parseISO (range_start r) = Some (startOfDay (dateOfDay 19797 + 3600000)) /\
    parseISO (range_end r)
      = Some (plusDays (startOfDay (dateOfDay 19797 + 3600000)) (7 * 2)) /\
    dayCountInclusive (range_start r) (range_end r) = Some (7 * 2 + 1).
Proof.
  apply (proj1 (getTimeRangeFilter_span (dateOfDay 19797 + 3600000) 2));
    vm_compute; discriminate.
Defined.

(** ** The month grid, continued *)

(** When the weeks of the month are in range, the first row of the grid
    contains the first day of the month and its last row the last day, so
    that no row lies wholly outside the month; and these two days are the
    days of startOfMonth and endOfMonth. *)
Theorem generateMonthGrid_covers_month (now month : Date) :
  grid_in_range month ->
  exists weeks first_row last_row ms me,
    generateMonthGrid now month = Ok weeks /\
    head weeks = Some first_row /\ last weeks = Some last_row /\
    startOfMonth month = Some ms /\ endOfMonth month = Some me /\
    dayOf ms = month_first_day month /\ dayOf me = month_last_day month /\
    startDate first_row <= ms /\ dayOf ms <= dayOf (endDate first_row) /\
    startDate last_row <= me /\ dayOf me <= dayOf (endDate last_row).
Proof.
  intros Hin. destruct (generateMonthGrid_full now month Hin) as (Es & Ee & Hg).
  destruct (grid_facts month) as (Hw & Hrows & H1 & H2 & _).
  set (mk := fun j => week_of now (Some (dateOfDay (month_first_day month)))
                        (Some (dateOfDay (month_last_day month) + (MS_PER_DAY - 1)))
                        (dateOfDay (grid_first_day month + 7 * Z.of_nat j))).
  exists (full_grid now month), (mk 0%nat), (mk (grid_rows month - 1)%nat),
    (dateOfDay (month_first_day month)),
    (dateOfDay (month_last_day month) + (MS_PER_DAY - 1)).
  assert (Hms : 0 <= MS_PER_DAY - 1 < MS_PER_DAY) by (unfold MS_PER_DAY; lia).
  split; [exact Hg|]. unfold full_grid. fold mk.
  split; [destruct (grid_rows month); [lia|reflexivity]|].
  split.
  { rewrite last_lookup, length_map, length_seq, list_lookup_fmap.
    replace (Init.Nat.pred (grid_rows month)) with (grid_rows month - 1)%nat by lia.
    rewrite lookup_seq_lt by lia. reflexivity. }
  split; [exact Es|]. split; [exact Ee|].
  rewrite dayOf_dateOfDay, dayOf_within by assumption.
  split; [reflexivity|]. split; [reflexivity|].
  unfold mk, week_of. cbn [startDate endDate].
  rewrite !plusDays_dateOfDay, !dayOf_dateOfDay, dateOfDay_le.
  assert (Hlast : dateOfDay (grid_first_day month + 7 * Z.of_nat (grid_rows month - 1))
                  <= dateOfDay (month_last_day month)) by (apply dateOfDay_le; lia).
  lia.
Qed.

Lemma generateMonthGrid_covers_month_witness :
  exists weeks first_row last_row ms me,
    generateMonthGrid 0 march_2024 = Ok weeks /\
    head weeks = Some first_row /\ last weeks = Some last_row /\
    startOfMonth march_2024 = Some ms /\ endOfMonth march_2024 = Some me /\
    dayOf ms = month_first_day march_2024 /\ dayOf me = month_last_day march_2024 /\
    startDate first_row <= ms /\ dayOf ms <= dayOf (endDate first_row) /\
    startDate last_row <= me /\ dayOf me <= dayOf (endDate last_row).
Proof.
  apply (generateMonthGrid_covers_month 0 march_2024).
  apply grid_in_range_of_day. vm_compute. split; discriminate.
Defined.

(** Every row of the grid starts on a Sunday and ends on the Saturday six
    days later, and startDate and endDate are the dates of its first and
    last cell. *)
Theorem generateMonthGrid_sunday_to_saturday (now month : Date) :
  exists weeks,
    generateMonthGrid now month = Ok weeks /\
    Forall (fun w =>
              getDay (startDate w) = WEEK_START_DAY /\ getDay (endDate w) = 6 /\
              addDays (startDate w) 6 = Some (endDate w) /\
              date <$> (days w !! 0%nat) = Some (startDate w) /\
              date <$> (days w !! 6%nat) = Some (endDate w))
           weeks.
Proof.
  destruct (grid_in_range_dec month) as [Hin|Hout].
  - destruct (generateMonthGrid_full now month Hin) as (_ & _ & Hg).
    destruct (grid_facts month) as (Hw & Hrows & H1 & H2 & Hsun & _).
    destruct Hin as [Hlo Hhi].
    eexists. split; [exact Hg|].
    apply List.Forall_forall. intros w Hin. apply in_map_iff in Hin as (j & <- & Hj).
    apply in_seq in Hj.
    unfold week_of. cbn [startDate endDate days].
    unfold getDay, WEEK_START_DAY, addDays.
    rewrite !plusDays_dateOfDay, !dayOf_dateOfDay.
    split; [Z.div_mod_to_equations; lia|]. split; [Z.div_mod_to_equations; lia|].
    split; [apply time_clip_in_range, dateOfDay_in_range; lia|].
    unfold days_from. cbn [seq List.map lookup list_lookup fmap option_fmap option_map
                             calendar_day date].
    now rewrite plusDays_0, plusDays_dateOfDay.
  - exists []. split; [now apply generateMonthGrid_empty|constructor].
Qed.

(** The date of the month's day [1 + k]. *)
Lemma format_month_day (t : Date) (k : Z) :
  0 <= k < month_length t ->
  format (dateOfDay (month_first_day t + k))
  = mkIso (era_year (fst (fst (civil_from_days (dayOf t)))))
          (snd (fst (civil_from_days (dayOf t)))) (1 + k) /\
  getDate (dateOfDay (month_first_day t + k)) = 1 + k.
Proof.
  intros Hk. unfold format, getDate.
  rewrite dayOf_dateOfDay, (civil_month_day t k Hk). split; reflexivity.
Qed.

(** When the weeks of the month are in range, the cells with
    isCurrentMonth carry, in order and each once, the day numbers 1, 2,
    ... up to the length of the month, and the ISO dates of these days in
    the month and the year of [month], the year printed as format does. *)
Theorem generateMonthGrid_month_days (now month : Date) :
  grid_in_range month ->
  exists weeks,
    generateMonthGrid now month = Ok weeks /\
    let own := List.filter isCurrentMonth (cells weeks) in
    let y := iso_year (format month) in
    let m := iso_month (format month) in
    List.map isoDate own
      = List.map (fun k => mkIso y m (1 + Z.of_nat k))
                 (seq 0 (Z.to_nat (month_length month))) /\
    List.map dayNumber own
      = List.map (fun k => 1 + Z.of_nat k) (seq 0 (Z.to_nat (month_length month))).
Proof.
  intros Hin. destruct (generateMonthGrid_full now month Hin) as (_ & _ & Hg).
  exists (full_grid now month). split; [exact Hg|]. cbv zeta.
  rewrite full_grid_month_cells.
  pose proof (month_last_first month) as Hlf.
  pose proof (month_length_bounds month) as Hn.
  replace (month_last_day month - month_first_day month + 1)
    with (month_length month) by lia.
  assert (Hy : (iso_year (format month), iso_month (format month))
               = (era_year (fst (fst (civil_from_days (dayOf month)))),
                  snd (fst (civil_from_days (dayOf month)))))
    by (unfold format; now destruct (civil_from_days (dayOf month)) as [[y m] d]).
  apply pair_equal_spec in Hy as [-> ->].
  unfold days_from. rewrite !List.map_map.
  split; apply map_ext_in; intros k Hk; apply in_seq in Hk;
    cbn [calendar_day isoDate dayNumber]; rewrite plusDays_dateOfDay;
    apply format_month_day; lia.
Qed.

Lemma generateMonthGrid_month_days_witness :
  exists weeks,
    generateMonthGrid 0 march_2024 = Ok weeks /\
    let own := List.filter isCurrentMonth (cells weeks) in
    let y := iso_year (format march_2024) in
    let m := iso_month (format march_2024) in
    List.map isoDate own
      = List.map (fun k => mkIso y m (1 + Z.of_nat k))
                 (seq 0 (Z.to_nat (month_length march_2024))) /\
    List.map dayNumber own
      = List.map (fun k => 1 + Z.of_nat k) (seq 0 (Z.to_nat (month_length march_2024))).
Proof.
  apply (generateMonthGrid_month_days 0 march_2024).
  apply grid_in_range_of_day. vm_compute. split; discriminate.
Defined.

(** When the days of the grid are days of the years 0001 to 9999, the
    ISO date of each cell parses back to the date of the cell, and no two
    cells of the grid have the same ISO date. *)
Theorem generateMonthGrid_iso_dates (now month : Date) :
  FIRST_DAY <= grid_first_day month -> grid_last_day month <= LAST_DAY ->
  exists weeks,
    generateMonthGrid now month = Ok weeks /\
    weeks <> [] /\
    Forall (fun c => parseISO (isoDate c) = Some (date c)) (cells weeks) /\
    List.NoDup (List.map isoDate (cells weeks)).
Proof.
  intros Hlo Hhi.
  assert (Hin : grid_in_range month)
    by (unfold grid_in_range, FIRST_DAY, LAST_DAY in *; lia).
  destruct (generateMonthGrid_full now month Hin) as (_ & _ & Hg).
  destruct (grid_facts month) as (Hw & Hrows & _).
  exists (full_grid now month). split; [exact Hg|]. split.
  { unfold full_grid. destruct (grid_rows month); [lia|discriminate]. }
  rewrite full_grid_cells.
  assert (Hp : forall i, (i < 7 * grid_rows month)%nat ->
             parseISO (format (dateOfDay (grid_first_day month + Z.of_nat i)))
             = Some (dateOfDay (grid_first_day month + Z.of_nat i)))
    by (intros i Hi; apply parseISO_format_day; lia).
  split.
  - apply List.Forall_forall. intros c Hc.
    apply in_map_iff in Hc as (d & <- & Hd).
    apply In_days_from in Hd as (i & Hi & ->).
    cbn [calendar_day isoDate date]. rewrite plusDays_dateOfDay. now apply Hp.
  - rewrite List.map_map. cbn [calendar_day isoDate].
    apply NoDup_ListNoDup, (NoDup_fmap_2_strong format).
    + intros d1 d2 Hd1 Hd2 E.
      apply list_elem_of_In, In_days_from in Hd1 as (i & Hi & ->).
      apply list_elem_of_In, In_days_from in Hd2 as (j & Hj & ->).
      rewrite !plusDays_dateOfDay in *.
      assert (P : parseISO (format (dateOfDay (grid_first_day month + Z.of_nat i)))
                  = parseISO (format (dateOfDay (grid_first_day month + Z.of_nat j))))
        by now rewrite E.
      rewrite !Hp in P by assumption. congruence.
    + unfold days_from. apply (NoDup_fmap_2_strong _); [|apply NoDup_seq].
      intros i j _ _ E. unfold plusDays in E. pose proof MS_PER_DAY_pos. nia.
Qed.

Lemma generateMonthGrid_iso_dates_witness :
  exists weeks,
    generateMonthGrid 0 march_2024 = Ok weeks /\
    weeks <> [] /\
    Forall (fun c => parseISO (isoDate c) = Some (date c)) (cells weeks) /\
    List.NoDup (List.map isoDate (cells weeks)).
Proof.
  apply (generateMonthGrid_iso_dates 0 march_2024); vm_compute; discriminate.
Defined.

(** ** Task segments, continued *)

Lemma findIndex_never {A : Type} (p : A -> bool) (l : list A) :
  (forall x, p x = false) -> findIndex p l = -1.
Proof.
  intros H. induction l as [|x l IH]; [reflexivity|].
  simpl. now rewrite H, IH.
Qed.

Lemma segment_callback_ok (task : Task) (taskStart taskEnd : option Date)
    (segs : list TaskSegment) (row : WeekRow) :
  exists new,
    segment_callback task taskStart taskEnd segs row = Ok (segs ++ new) /\
    Forall (fun s => seg_task s = task /\ rowIndex s = 0) new /\
    ((taskStart = None \/ taskEnd = None) -> new = []).
Proof.
  unfold segment_callback.
  destruct (isAfter taskStart _ || isBefore taskEnd _).
  { exists []. rewrite app_nil_r. auto. }
  set (segStart := if isBefore taskStart _ then _ else taskStart).
  set (segEnd := if isAfter taskEnd _ then _ else taskEnd).
  destruct segStart as [s|] eqn:Es.
  2:{ rewrite findIndex_never by reflexivity. simpl.
      exists []. rewrite app_nil_r. auto. }
  destruct segEnd as [e|] eqn:Ee.
  2:{ rewrite (findIndex_never (fun day => js_eq (Some (date day)) None))
        by reflexivity.
      rewrite orb_true_r. exists []. rewrite app_nil_r. auto. }
  destruct (_ || _).
  { exists []. rewrite app_nil_r. auto. }
  cbn [format_date mbind Result_bind]. eexists. split; [reflexivity|].
  split; [repeat constructor|].
  intros [->| ->]; subst segStart segEnd; simpl in *.
  - discriminate.
  - destruct taskStart; simpl in *; discriminate.
Qed.

Lemma forEach_segments_ok (task : Task) (taskStart taskEnd : option Date)
    (rows : list WeekRow) (segs : list TaskSegment) :
  exists new,
    forEach (segment_callback task taskStart taskEnd) rows segs = Ok (segs ++ new) /\
    Forall (fun s => seg_task s = task /\ rowIndex s = 0) new /\
    ((taskStart = None \/ taskEnd = None) -> new = []).
Proof.
  revert segs. induction rows as [|row rows IH]; intros segs.
  - exists []. rewrite app_nil_r. split; [reflexivity|]. auto.
  - rewrite forEach_cons.
    destruct (segment_callback_ok task taskStart taskEnd segs row)
      as (n1 & -> & F1 & E1).
    cbn [mbind Result_bind].
    destruct (IH (segs ++ n1)) as (n2 & -> & F2 & E2).
    exists (n1 ++ n2). rewrite app_assoc. split; [reflexivity|].
    split; [now apply Forall_app|].
    intros H. now rewrite (E1 H), (E2 H).
Qed.

(** calculateTaskSegments never throws, whatever the task and the rows;
    every segment it returns belongs to the task and has rowIndex 0; and a
    task with an invalid start or end date gets no segment at all. *)
Theorem calculateTaskSegments_never_throws (task : Task) (rows : list WeekRow) :
  exists segs,
    calculateTaskSegments task rows = Ok segs /\
    Forall (fun s => seg_task s = task /\ rowIndex s = 0) segs /\
    ((parseISO (task_start task) = None \/ parseISO (task_end task) = None) ->
     segs = []).
Proof.
  unfold calculateTaskSegments.
  destruct (forEach_segments_ok task (parseISO (task_start task))
              (parseISO (task_end task)) rows []) as (new & H & F & E).
  exists new. auto.
Qed.

Lemma segments_of_none_after (task : Task) (a b : Z) (rows : list WeekRow) (first : Z) :
  first + 7 * Z.of_nat (length rows) - 1 < a -> segments_of task a b first rows = [].
Proof.
  revert first. induction rows as [|row rows IH]; intros first H; [reflexivity|].
  cbn [segments_of length] in *. rewrite IH by lia.
  destruct (Z.ltb_spec (first + 6) a); [reflexivity|lia].
Qed.

(** A task that ends before the first day of the grid, or starts after
    its last day, gets no segment. *)
Theorem task_outside_grid_no_segment (task : Task) (rows : list WeekRow) (first : Z)
    (ts te : Date) :
  week_grid first rows ->
  parseISO (task_start task) = Some ts ->
  parseISO (task_end task) = Some te ->
  te < dateOfDay first \/ dateOfDay (first + 7 * Z.of_nat (length rows) - 1) < ts ->
  calculateTaskSegments task rows = Ok [].
Proof.
  intros Hg Hs He Hout.
  rewrite (calculateTaskSegments_eq _ _ first ts te) by assumption. f_equal.
  rewrite (parseISO_midnight _ _ Hs), (parseISO_midnight _ _ He) in Hout.
  rewrite !dateOfDay_lt in Hout. destruct Hout as [H|H].
  - now apply segments_of_none_before.
  - now apply segments_of_none_after.
Qed.

Lemma task_outside_grid_no_segment_witness :
  calculateTaskSegments april_task march_grid = Ok [].
Proof.
  apply (task_outside_grid_no_segment april_task march_grid 19778 (dateOfDay 19821)
           (dateOfDay 19822) march_grid_weeks).
  - vm_compute. reflexivity.
  - vm_compute. reflexivity.
  - right. vm_compute. reflexivity.
Defined.

Lemma segments_of_bounds (task : Task) (a b : Z) (rows : list WeekRow) (first : Z) :
  a <= b ->
  Forall (fun s =>
            0 <= startColumn s <= 6 /\ 1 <= widthInColumns s <= 7 /\
            startColumn s + widthInColumns s <= 7)
         (segments_of task a b first rows).
Proof.
  intros Hab. revert first. induction rows as [|row rows IH]; intros first;
    [constructor|].
  cbn [segments_of]. apply Forall_app. split; [|apply IH].
  destruct (Z.ltb_spec (first + 6) a); [constructor|].
  destruct (Z.ltb_spec b first); [constructor|].
  cbn [orb]. constructor; [|constructor].
  unfold segment_for. cbn [startColumn widthInColumns]. lia.
Qed.

(** On a grid of weeks, every segment of a task on civil dates with
    start <= end starts in a column 0..6, is 1..7 columns wide and ends
    within its row. *)
Theorem segment_columns_within_week (task : Task) (rows : list WeekRow) (first : Z)
    (ts te : Date) :
  week_grid first rows ->
  parseISO (task_start task) = Some ts ->
  parseISO (task_end task) = Some te ->
  ts <= te ->
  exists segs,
    calculateTaskSegments task rows = Ok segs /\
    Forall (fun s =>
              0 <= startColumn s <= 6 /\ 1 <= widthInColumns s <= 7 /\
              startColumn s + widthInColumns s <= 7)
           segs.
Proof.
  intros Hg Hs He Hle. eexists. split; [now apply (calculateTaskSegments_eq _ _ first ts te)|].
  apply segments_of_bounds. now apply dayOf_le_mono.
Qed.

Lemma segment_columns_within_week_witness :
  exists segs,
    calculateTaskSegments march_task march_grid = Ok segs /\
    Forall (fun s =>
              0 <= startColumn s <= 6 /\ 1 <= widthInColumns s <= 7 /\
              startColumn s + widthInColumns s <= 7)
           segs.
Proof.
  apply (segment_columns_within_week march_task march_grid 19778
           (dateOfDay 19787) (dateOfDay 19802) march_grid_weeks).
  - vm_compute. reflexivity.
  - vm_compute. reflexivity.
  - vm_compute. discriminate.
Defined.




(** ** The row stacker, continued *)

(** For segments at least one column wide, segmentsOverlap is exactly the
    intersection of the column intervals. *)
Theorem segmentsOverlap_exact (s t : TaskSegment) :
  1 <= widthInColumns s -> 1 <= widthInColumns t ->
  (segmentsOverlap s t = true <-> columns_intersect s t).
Proof.
  intros Hs Ht. split; [|apply columns_intersect_overlap].
  unfold segmentsOverlap, columns_intersect. intros H.
  apply negb_true_iff, orb_false_iff in H as [H1 H2].
  apply Z.ltb_ge in H1, H2.
  exists (Z.max (startColumn s) (startColumn t)). lia.
Qed.

Lemma segmentsOverlap_exact_witness :
  segmentsOverlap segment_A segment_B = true <-> columns_intersect segment_A segment_B.
Proof.
  apply (segmentsOverlap_exact segment_A segment_B); vm_compute; discriminate.
Defined.

Lemma set_rowIndex_same (s : TaskSegment) : set_rowIndex (rowIndex s) s = s.
Proof. now destruct s. Qed.

Lemma set_rowIndex_twice (r r' : Z) (s : TaskSegment) :
  set_rowIndex r (set_rowIndex r' s) = set_rowIndex r s.
Proof. reflexivity. Qed.

Lemma place_segment_store (st : list TaskSegment * list (list nat)) (s : nat) :
  exists r, fst (place_segment st s) = alter (set_rowIndex r) s (fst st).
Proof. destruct st as [store rows]. unfold place_segment. simpl. eauto. Qed.

Lemma fold_place_frame (l : list nat) (st : list TaskSegment * list (list nat)) :
  length (fst (fold_left place_segment l st)) = length (fst st) /\
  forall x s, fst st !! x = Some s ->
    exists r, fst (fold_left place_segment l st) !! x = Some (set_rowIndex r s) /\
              (~ In x l -> r = rowIndex s).
Proof.
  revert st. induction l as [|a l IH]; intros st.
  - simpl. split; [reflexivity|]. intros x s H. exists (rowIndex s).
    now rewrite set_rowIndex_same.
  - cbn [fold_left]. destruct (IH (place_segment st a)) as [Hlen Hst].
    destruct (place_segment_store st a) as [r Hr].
    split; [now rewrite Hlen, Hr, length_alter|].
    intros x s Hx. rewrite Hr in Hst.
    destruct (Nat.eq_dec a x) as [->|Hne].
    + destruct (Hst x (set_rowIndex r s)) as (r' & H1 & H2).
      { now rewrite list_lookup_alter_eq, Hx. }
      exists r'. split; [exact H1|]. intros Hn. exfalso. apply Hn. now left.
    + destruct (Hst x s) as (r' & H1 & H2).
      { now rewrite list_lookup_alter_ne. }
      exists r'. split; [exact H1|]. intros Hn. apply H2. intros Hin. apply Hn. now right.
Qed.

(** calculateRowIndices changes nothing but rowIndex: the store keeps its
    length, every segment keeps its task, dates and columns, and a segment
    that is not in the array is left as it was. *)
Theorem calculateRowIndices_frame (store : list TaskSegment) (segments : list nat) :
  length (calculateRowIndices store segments) = length store /\
  forall x s, store !! x = Some s ->
    exists r, calculateRowIndices store segments !! x = Some (set_rowIndex r s) /\
              (~ In x segments -> calculateRowIndices store segments !! x = Some s).
Proof.
  unfold calculateRowIndices.
  set (cmp := fun a b : nat => startColumn (store !!! a) - startColumn (store !!! b)).
  destruct (fold_place_frame (sort_by cmp segments) (store, [])) as [Hlen H].
  split; [exact Hlen|]. intros x s Hx.
  destruct (H x s Hx) as (r & H1 & H2). exists r. split; [exact H1|].
  intros Hn. rewrite H1, H2; [now rewrite set_rowIndex_same|].
  now rewrite sort_by_In.
Qed.

Lemma calculateRowIndices_frame_witness :
  exists r, calculateRowIndices [segment_A; segment_B] [1%nat] !! 0%nat
            = Some (set_rowIndex r segment_A) /\
            (~ In 0%nat [1%nat] ->
             calculateRowIndices [segment_A; segment_B] [1%nat] !! 0%nat
             = Some segment_A).
Proof.
  exact (proj2 (calculateRowIndices_frame [segment_A; segment_B] [1%nat])
           0%nat segment_A eq_refl).
Defined.

Lemma find_row_blocked (store : list TaskSegment) (s : nat)
    (scan : list (list nat)) (i q : nat) :
  (i <= q < find_row store s scan i)%nat ->
  exists row y, scan !! (q - i)%nat = Some row /\ In y row /\
                segmentsOverlap (store !!! s) (store !!! y) = true.
Proof.
  revert i. induction scan as [|row scan IH]; intros i Hq; simpl in Hq; [lia|].
  destruct (existsb _ row) eqn:E; simpl in Hq; [|lia].
  destruct (Nat.eq_dec q i) as [->|Hne].
  - rewrite Nat.sub_diag. apply existsb_exists in E as (y & Hy & Ho).
    exists row, y. auto.
  - destruct (IH (S i) ltac:(lia)) as (row' & y & Hl & Hy & Ho).
    exists row', y. split; [|auto].
    replace (q - i)%nat with (S (q - S i)) by lia. exact Hl.
Qed.

Lemma rows_fit_init (store0 : list TaskSegment) : rows_fit store0 [] [].
Proof. constructor; intros; discriminate. Qed.

Lemma rows_after_grows (rows : list (list nat)) (r q : nat) (s : nat)
    (row : list nat) (x : nat) :
  (r <= length rows)%nat -> rows !! q = Some row -> In x row ->
  exists row', rows_after rows r s !! q = Some row' /\ In x row'.
Proof.
  intros Hr Hq Hx. destruct (Nat.eq_dec q r) as [->|Hne].
  - destruct (rows_after_at rows r s Hr) as (rowr & Hat & [Hold|[Hl _]]).
    + rewrite Hold in Hq. injection Hq as <-.
      exists (rowr ++ [s]). split; [exact Hat|]. apply in_app_iff. now left.
    + apply lookup_lt_Some in Hq. lia.
  - exists row. now rewrite rows_after_other.
Qed.

Lemma rows_after_inv (rows : list (list nat)) (r q : nat) (s : nat)
    (row' : list nat) (x : nat) :
  (r <= length rows)%nat -> rows_after rows r s !! q = Some row' -> In x row' ->
  (x = s /\ q = r) \/ exists row, rows !! q = Some row /\ In x row.
Proof.
  intros Hr Hq Hx. destruct (Nat.eq_dec q r) as [->|Hne].
  - destruct (rows_after_at rows r s Hr) as (rowr & Hat & Hold).
    rewrite Hat in Hq. injection Hq as <-.
    apply in_app_iff in Hx as [Hx|[<-|[]]]; [|now left].
    destruct Hold as [Hold|[_ ->]]; [|destruct Hx]. right. eauto.
  - rewrite rows_after_other in Hq by assumption. right. eauto.
Qed.

Lemma place_segment_fit (store0 : list TaskSegment)
    (st : list TaskSegment * list (list nat)) (placed : list nat) (s : nat) :
  rows_inv store0 st placed -> rows_fit store0 (snd st) placed -> ~ In s placed ->
  rows_fit store0 (snd (place_segment st s)) (s :: placed).
Proof.
  destruct st as [store rows]. intros [_ Hcol _ _] [Hpl Hone Hbl] Hfresh.
  simpl in *. unfold place_segment.
  destruct (find_row_spec store s rows 0) as [Hr _].
  pose proof (find_row_blocked store s rows 0) as Hblock.
  set (r := find_row store s rows 0) in *.
  fold (rows_after rows r s). cbn [snd]. simpl in Hr.
  assert (Hrl : (r <= length rows)%nat) by lia.
  constructor.
  - intros q row x Hq Hx.
    destruct (rows_after_inv _ _ _ _ _ _ Hrl Hq Hx) as [[-> _]|(row0 & H0 & Hx0)];
      [now left|right; eauto].
  - intros q1 q2 row1 row2 x H1 Hx1 H2 Hx2.
    destruct (rows_after_inv _ _ _ _ _ _ Hrl H1 Hx1) as [[-> ->]|(ra & Ha & Hxa)];
      destruct (rows_after_inv _ _ _ _ _ _ Hrl H2 Hx2) as [[E ->]|(rb & Hb & Hxb)];
      trivial.
    + exfalso. apply Hfresh. eauto.
    + subst x. exfalso. apply Hfresh. eauto.
    + eauto.
  - intros r' row x q Hq Hx Hlt.
    destruct (rows_after_inv _ _ _ _ _ _ Hrl Hq Hx) as [[-> ->]|(row0 & H0 & Hx0)].
    + destruct (Hblock q ltac:(lia)) as (rowq & y & Hl & Hy & Ho).
      rewrite Nat.sub_0_r in Hl.
      destruct (rows_after_grows rows r q s rowq y Hrl Hl Hy) as (row' & H' & Hy').
      exists row', y. split; [exact H'|]. split; [exact Hy'|].
      now rewrite <- (segmentsOverlap_columns _ _ _ _ (Hcol s) (Hcol y)).
    + destruct (Hbl r' row0 x q H0 Hx0 Hlt) as (rowq & y & Hl & Hy & Ho).
      destruct (rows_after_grows rows r q s rowq y Hrl Hl Hy) as (row' & H' & Hy').
      exists row', y. auto.
Qed.

Lemma fold_place_fit (store0 : list TaskSegment) (l : list nat)
    (st : list TaskSegment * list (list nat)) (placed : list nat) :
  rows_inv store0 st placed -> rows_fit store0 (snd st) placed ->
  List.NoDup (rev placed ++ l) ->
  rows_fit store0 (snd (fold_left place_segment l st)) (rev l ++ placed).
Proof.
  revert st placed. induction l as [|s l IH]; intros st placed Hi Hf Hnd; [exact Hf|].
  simpl. rewrite <- app_assoc. simpl. apply IH.
  - now apply place_segment_inv.
  - apply place_segment_fit; trivial.
    apply NoDup_remove_2 in Hnd. intros Hin. apply Hnd.
    apply in_app_iff. left. now apply in_rev in Hin.
  - simpl. now rewrite <- app_assoc.
Qed.

Lemma sort_insert_NoDup {A : Type} (cmp : A -> A -> Z) (x : A) (l : list A) :
  ~ In x l -> List.NoDup l -> List.NoDup (sort_insert cmp x l).
Proof.
  induction l as [|y l IH]; intros Hx Hl; simpl.
  - constructor; [intros []|constructor].
  - destruct (cmp x y <=? 0); [now constructor|].
    inversion Hl as [|? ? Hy Hl']; subst. constructor.
    + rewrite sort_insert_In. intros [->|H]; [apply Hx; now left|contradiction].
    + apply IH; [|exact Hl']. intros H. apply Hx. now right.
Qed.

Lemma sort_by_NoDup {A : Type} (cmp : A -> A -> Z) (l : list A) :
  List.NoDup l -> List.NoDup (sort_by cmp l).
Proof.
  unfold sort_by. induction 1 as [|x l Hx Hl IH]; simpl; [constructor|].
  apply sort_insert_NoDup; [|exact IH]. fold (sort_by cmp l). now rewrite sort_by_In.
Qed.

(** First fit: when the array holds each segment once, a segment gets row
    r only if, for every row above, another segment of the array that the
    overlap test reports as overlapping it is in that row.  In particular
    a segment that overlaps no other one gets row 0. *)
Theorem calculateRowIndices_first_fit (store : list TaskSegment)
    (segments : list nat) (a : nat) :
  List.NoDup segments ->
  Forall (fun x => (x < length store)%nat) segments ->
  In a segments ->
  exists r,
    rowIndex (calculateRowIndices store segments !!! a) = Z.of_nat r /\
    (forall q, (q < r)%nat ->
       exists b, In b segments /\ b <> a /\
                 rowIndex (calculateRowIndices store segments !!! b) = Z.of_nat q /\
                 segmentsOverlap (store !!! a) (store !!! b) = true) /\
    ((forall b, In b segments -> b <> a ->
        segmentsOverlap (store !!! a) (store !!! b) = false) -> r = 0%nat).
Proof.
  intros Hnd Hvalid Ha. unfold calculateRowIndices.
  set (cmp := fun x y : nat => startColumn (store !!! x) - startColumn (store !!! y)).
  pose proof (fold_place_inv store (sort_by cmp segments) (store, []) []
                (rows_inv_init store)) as Hinv.
  pose proof (fold_place_fit store (sort_by cmp segments) (store, []) []
                (rows_inv_init store) (rows_fit_init store)
                (sort_by_NoDup cmp segments Hnd)) as [Hpl Hone Hbl].
  destruct Hinv as [Hlen Hcol Hrows Hplaced].
  destruct (fold_left place_segment (sort_by cmp segments) (store, []))
    as [store' rows']. simpl in *.
  assert (Hin : forall x, In x segments <-> In x (rev (sort_by cmp segments) ++ [])).
  { intros x. now rewrite app_nil_r, <- in_rev, sort_by_In. }
  assert (Hv : forall x, In x segments -> (x < length store)%nat).
  { intros x Hx. rewrite List.Forall_forall in Hvalid. now apply Hvalid. }
  destruct (Hplaced a (proj1 (Hin a) Ha) (Hv a Ha)) as (r & row & Hr & Hq & Hina).
  exists r. split; [exact Hr|].
  assert (Hblockers : forall q, (q < r)%nat ->
            exists b, In b segments /\ b <> a /\
                      rowIndex (store' !!! b) = Z.of_nat q /\
                      segmentsOverlap (store !!! a) (store !!! b) = true).
  { intros q Hlt.
    destruct (Hbl r row a q Hq Hina Hlt) as (rowq & y & Hyq & Hy & Ho).
    pose proof (Hpl q rowq y Hyq Hy) as Hyp. apply Hin in Hyp.
    exists y. split; [exact Hyp|].
    destruct (Hplaced y (proj1 (Hin y) Hyp) (Hv y Hyp)) as (ry & rowy & Hry & Hqy & Hiny).
    assert (ry = q) by (eapply Hone; eauto). subst ry.
    split; [|split; [exact Hry|exact Ho]].
    intros ->. assert (q = r) by (eapply Hone; eauto). lia. }
  split; [exact Hblockers|].
  intros Hfree. destruct r as [|r]; [reflexivity|exfalso].
  destruct (Hblockers 0%nat ltac:(lia)) as (b & Hb & Hne & _ & Ho).
  rewrite (Hfree b Hb Hne) in Ho. discriminate.
Qed.

Lemma calculateRowIndices_first_fit_witness :
  exists r,
    rowIndex (calculateRowIndices [segment_A; segment_B] [0%nat; 1%nat] !!! 1%nat)
      = Z.of_nat r /\
    (forall q, (q < r)%nat ->
       exists b, In b [0%nat; 1%nat] /\ b <> 1%nat /\
                 rowIndex (calculateRowIndices [segment_A; segment_B] [0%nat; 1%nat] !!! b)
                   = Z.of_nat q /\
                 segmentsOverlap ([segment_A; segment_B] !!! 1%nat)
                                 ([segment_A; segment_B] !!! b) = true) /\
    ((forall b, In b [0%nat; 1%nat] -> b <> 1%nat ->
        segmentsOverlap ([segment_A; segment_B] !!! 1%nat)
                        ([segment_A; segment_B] !!! b) = false) -> r = 0%nat).
Proof.
  apply (calculateRowIndices_first_fit [segment_A; segment_B] [0%nat; 1%nat] 1%nat).
  - repeat constructor; simpl; intuition discriminate.
  - repeat constructor.
  - right. now left.
Defined.

(** ** calculateAllTaskSegments *)

Lemma forEach_all_segments (rows : list WeekRow) (tasks : list Task)
    (acc : list TaskSegment) :
  exists per_task,
    Forall2 (fun t l => calculateTaskSegments t rows = Ok l) tasks per_task /\
    forEach (fun allSegments task =>
               segments ← calculateTaskSegments task rows;
               Ok (allSegments ++ segments)) tasks acc
    = Ok (acc ++ concat per_task).
Proof.
  revert acc. induction tasks as [|t tasks IH]; intros acc.
  - exists []. split; [constructor|]. simpl. now rewrite app_nil_r.
  - destruct (forEach_segments_ok t (parseISO (task_start t)) (parseISO (task_end t))
                rows []) as (l & Hl & _ & _).
    simpl in Hl. fold (calculateTaskSegments t rows) in Hl.
    destruct (IH (acc ++ l)) as (ls & HF & Hls).
    exists (l :: ls). split; [now constructor|].
    rewrite forEach_cons, Hl. cbn [mbind Result_bind].
    rewrite Hls. cbn [concat]. now rewrite app_assoc.
Qed.

(** calculateAllTaskSegments never throws and returns the segments of the
    tasks in the order of the tasks: the concatenation of what
    calculateTaskSegments returns for each task. *)
Theorem calculateAllTaskSegments_concat (tasks : list Task) (rows : list WeekRow) :
  exists per_task,
    Forall2 (fun t l => calculateTaskSegments t rows = Ok l) tasks per_task /\
    calculateAllTaskSegments tasks rows = Ok (concat per_task).
Proof.
  destruct (forEach_all_segments rows tasks []) as (ls & HF & H).
  exists ls. split; [exact HF|exact H].
Qed.

(** ** groupSegmentsByWeek *)

Lemma same_but_rows_refl (store : list TaskSegment) : same_but_rows store store.
Proof.
  split; [reflexivity|]. intros x s H. exists (rowIndex s).
  now rewrite set_rowIndex_same.
Qed.

Lemma same_but_rows_trans (s1 s2 s3 : list TaskSegment) :
  same_but_rows s1 s2 -> same_but_rows s2 s3 -> same_but_rows s1 s3.
Proof.
  intros [L1 H1] [L2 H2]. split; [congruence|].
  intros x s Hx. destruct (H1 x s Hx) as [r Hr].
  destruct (H2 x _ Hr) as [r' Hr']. exists r'. exact Hr'.
Qed.

Lemma same_but_rows_total (store store' : list TaskSegment) (x : nat) :
  same_but_rows store store' ->
  exists r, store' !!! x = set_rowIndex r (store !!! x).
Proof.
  intros [L H]. destruct (store !! x) as [s|] eqn:E.
  - destruct (H x s E) as [r Hr]. exists r.
    now rewrite (list_lookup_total_correct _ _ _ Hr), (list_lookup_total_correct _ _ _ E).
  - exists 0. rewrite !list_lookup_total_alt, E.
    assert (E' : store' !! x = None).
    { apply lookup_ge_None. apply lookup_ge_None in E. lia. }
    rewrite E'. reflexivity.
Qed.

Lemma starts_in_week_same (store store' : list TaskSegment) (row : WeekRow) (x : nat) :
  same_but_rows store store' ->
  starts_in_week store' row x = starts_in_week store row x.
Proof.
  intros H. unfold starts_in_week.
  destruct (same_but_rows_total store store' x H) as [r ->]. reflexivity.
Qed.

Lemma calculateRowIndices_same_but_rows (store : list TaskSegment) (l : list nat) :
  same_but_rows store (calculateRowIndices store l) /\
  forall x, ~ In x l -> calculateRowIndices store l !! x = store !! x.
Proof.
  unfold calculateRowIndices.
  set (cmp := fun a b : nat => startColumn (store !!! a) - startColumn (store !!! b)).
  destruct (fold_place_frame (sort_by cmp l) (store, [])) as [Hlen H].
  simpl in *. split; [split; [exact Hlen|]|].
  - intros x s Hx. destruct (H x s Hx) as (r & Hr & _). eauto.
  - intros x Hn. destruct (store !! x) as [s|] eqn:E.
    + destruct (H x s E) as (r & Hr & Hs). rewrite Hr, Hs.
      * now rewrite set_rowIndex_same.
      * now rewrite sort_by_In.
    + apply lookup_ge_None. apply lookup_ge_None in E. lia.
Qed.

Lemma group_callback_eq (segments : list nat) (store : list TaskSegment)
    (g : gmap nat (list nat)) (row : WeekRow) (i : nat) :
  group_callback segments (store, g) row i
  = match List.filter (starts_in_week store row) segments with
    | [] => (store, g)
    | l => (calculateRowIndices store l, <[i := l]> g)
    end.
Proof.
  unfold group_callback. fold (starts_in_week store row).
  change (fun segment : nat => _) with (starts_in_week store row).
  now destruct (List.filter (starts_in_week store row) segments).
Qed.

Lemma group_callback_spec (segments : list nat) (store : list TaskSegment)
    (g : gmap nat (list nat)) (row : WeekRow) (i : nat) :
  g !! i = None ->
  same_but_rows store (fst (group_callback segments (store, g) row i)) /\
  (forall x, ~ In x (List.filter (starts_in_week store row) segments) ->
             fst (group_callback segments (store, g) row i) !! x = store !! x) /\
  (forall j, snd (group_callback segments (store, g) row i) !! j
             = if decide (i = j)
               then group_entry (List.filter (starts_in_week store row) segments)
               else g !! j) /\
  fst (group_callback segments (store, g) row i)
  = calculateRowIndices store (List.filter (starts_in_week store row) segments).
Proof.
  intros Hi. rewrite group_callback_eq.
  destruct (List.filter (starts_in_week store row) segments) as [|a l] eqn:El.
  - simpl. split; [apply same_but_rows_refl|]. split; [reflexivity|].
    split; [|reflexivity].
    intros j. destruct (decide (i = j)) as [<-|_]; [exact Hi|reflexivity].
  - cbn [fst snd].
    destruct (calculateRowIndices_same_but_rows store (a :: l)) as [Hs Hf].
    split; [exact Hs|]. split; [exact Hf|]. split; [|reflexivity].
    intros j. rewrite lookup_insert. destruct (decide (i = j)); reflexivity.
Qed.

Lemma group_fold (segments : list nat) (rows : list WeekRow) (i : nat)
    (store : list TaskSegment) (g : gmap nat (list nat)) :
  (forall j, (i <= j)%nat -> g !! j = None) ->
  same_but_rows store (fst (forEach_pure (group_callback segments) rows i (store, g))) /\
  (forall x,
      (forall row, In row rows ->
                   ~ In x (List.filter (starts_in_week store row) segments)) ->
      fst (forEach_pure (group_callback segments) rows i (store, g)) !! x = store !! x) /\
  (forall j,
      snd (forEach_pure (group_callback segments) rows i (store, g)) !! j
      = if (i <=? j)%nat
        then row ← rows !! (j - i)%nat;
             group_entry (List.filter (starts_in_week store row) segments)
        else g !! j).
Proof.
  revert i store g. induction rows as [|row rows IH]; intros i store g Hg.
  - simpl. split; [apply same_but_rows_refl|]. split; [reflexivity|].
    intros j. destruct (Nat.leb_spec i j); [now apply Hg|reflexivity].
  - cbn [forEach_pure].
    destruct (group_callback_spec segments store g row i (Hg i (Nat.le_refl i)))
      as (Hs1 & Hf1 & Hg1 & _).
    destruct (group_callback segments (store, g) row i) as [store1 g1].
    cbn [fst snd] in *.
    assert (Hg1' : forall j, (S i <= j)%nat -> g1 !! j = None).
    { intros j Hj. rewrite Hg1. destruct (decide (i = j)); [lia|]. apply Hg. lia. }
    destruct (IH (S i) store1 g1 Hg1') as (Hs2 & Hf2 & Hg2).
    assert (Hfilter : forall r, List.filter (starts_in_week store1 r) segments
                                = List.filter (starts_in_week store r) segments).
    { intros r. apply filter_ext. intros x. now apply starts_in_week_same. }
    split; [eapply same_but_rows_trans; eassumption|]. split.
    + intros x Hx. rewrite Hf2.
      * apply Hf1. apply Hx. now left.
      * intros r Hr. rewrite Hfilter. apply Hx. now right.
    + intros j. rewrite Hg2, Hg1.
      destruct (Nat.leb_spec (S i) j) as [H|H].
      * destruct (Nat.leb_spec i j); [|lia].
        replace (j - i)%nat with (S (j - S i)) by lia. cbn [lookup list_lookup].
        destruct (rows !! (j - S i)%nat) as [r|]; [|reflexivity].
        simpl. now rewrite Hfilter.
      * destruct (decide (i = j)) as [<-|Hne].
        -- rewrite Nat.leb_refl, Nat.sub_diag. reflexivity.
        -- destruct (Nat.leb_spec i j); [lia|reflexivity].
Qed.

(** groupSegmentsByWeek changes nothing but rowIndex in the store, and its
    Map has, for each week index whose row has segments starting in that
    week, exactly those segments in the order of the array; a week without
    such a segment, and an index that is not a week, has no entry. *)
Theorem groupSegmentsByWeek_groups (store : list TaskSegment) (segments : list nat)
    (weekRows : list WeekRow) :
  same_but_rows store (fst (groupSegmentsByWeek store segments weekRows)) /\
  forall j,
    snd (groupSegmentsByWeek store segments weekRows) !! j
    = row ← weekRows !! j;
      group_entry (List.filter (starts_in_week store row) segments).
Proof.
  unfold groupSegmentsByWeek.
  destruct (group_fold segments weekRows 0 store ∅) as (Hs & _ & Hg).
  { intros j _. apply lookup_empty. }
  split; [exact Hs|]. intros j. rewrite Hg. simpl. now rewrite Nat.sub_0_r.
Qed.

Lemma starts_in_week_at (store : list TaskSegment) (row : WeekRow) (first : Z)
    (a : nat) :
  week_row_at first row ->
  (starts_in_week store row a = true <->
   exists t, parseISO (seg_startDate (store !!! a)) = Some t /\
             first <= dayOf t <= first + 6).
Proof.
  intros (_ & Hs & He). unfold starts_in_week.
  rewrite Hs, He, !startOfDay_dateOfDay.
  destruct (parseISO (seg_startDate (store !!! a))) as [t|] eqn:E; simpl.
  - rewrite (parseISO_midnight _ _ E) at 1 2.
    rewrite andb_true_iff, !Z.leb_le, !dateOfDay_le. split.
    + intros H. exists t. auto.
    + intros (t' & [= <-] & H). exact H.
  - split; [discriminate|]. intros (t & H & _). discriminate.
Qed.

Lemma week_grid_disjoint (store : list TaskSegment) (rows : list WeekRow) (first : Z)
    (j1 j2 : nat) (r1 r2 : WeekRow) (a : nat) :
  week_grid first rows ->
  rows !! j1 = Some r1 -> rows !! j2 = Some r2 ->
  starts_in_week store r1 a = true -> starts_in_week store r2 a = true ->
  j1 = j2.
Proof.
  intros Hg H1 H2 S1 S2.
  apply (starts_in_week_at _ _ _ _ (week_grid_lookup _ _ _ _ Hg H1)) in S1
    as (t1 & P1 & B1).
  apply (starts_in_week_at _ _ _ _ (week_grid_lookup _ _ _ _ Hg H2)) in S2
    as (t2 & P2 & B2).
  rewrite P1 in P2. injection P2 as <-. lia.
Qed.

Lemma group_fold_separates (segments : list nat) (rows : list WeekRow) (i : nat)
    (store : list TaskSegment) (g : gmap nat (list nat)) :
  (forall j, (i <= j)%nat -> g !! j = None) ->
  (forall j1 j2 r1 r2 a,
      rows !! j1 = Some r1 -> rows !! j2 = Some r2 ->
      starts_in_week store r1 a = true -> starts_in_week store r2 a = true ->
      j1 = j2) ->
  forall j row a b sa sb,
    rows !! j = Some row ->
    In a (List.filter (starts_in_week store row) segments) ->
    In b (List.filter (starts_in_week store row) segments) ->
    a <> b ->
    fst (forEach_pure (group_callback segments) rows i (store, g)) !! a = Some sa ->
    fst (forEach_pure (group_callback segments) rows i (store, g)) !! b = Some sb ->
    segmentsOverlap sa sb = true ->
    rowIndex sa <> rowIndex sb.
Proof.
  revert i store g. induction rows as [|row0 rows IH]; intros i store g Hg Hdis;
    intros j row a b sa sb Hj Ha Hb Hab Hsa Hsb Ho; [discriminate|].
  cbn [forEach_pure] in Hsa, Hsb.
  destruct (group_callback_spec segments store g row0 i (Hg i (Nat.le_refl i)))
    as (Hs1 & Hf1 & Hg1 & Hc1).
  destruct (group_callback segments (store, g) row0 i) as [store1 g1].
  cbn [fst snd] in *.
  assert (Hg1' : forall j, (S i <= j)%nat -> g1 !! j = None).
  { intros k Hk. rewrite Hg1. destruct (decide (i = k)); [lia|]. apply Hg. lia. }
  assert (Hsiw : forall r x, starts_in_week store1 r x = starts_in_week store r x).
  { intros r x. now apply starts_in_week_same. }
  assert (Hfilter : forall r, List.filter (starts_in_week store1 r) segments
                              = List.filter (starts_in_week store r) segments).
  { intros r. apply filter_ext. intros x. apply Hsiw. }
  destruct j as [|j]; simpl in Hj.
  - injection Hj as <-.
    destruct (group_fold segments rows (S i) store1 g1 Hg1') as (_ & Hf2 & _).
    assert (Hlater : forall x, In x (List.filter (starts_in_week store row0) segments) ->
              forall r, In r rows ->
                ~ In x (List.filter (starts_in_week store1 r) segments)).
    { intros x Hx r Hr Hin. rewrite Hfilter in Hin.
      apply filter_In in Hx as [_ Hx]. apply filter_In in Hin as [_ Hin].
      apply list_elem_of_In, list_elem_of_lookup in Hr as [k Hk].
      assert (E : 0%nat = S k) by (eapply (Hdis 0%nat (S k)); eauto).
      discriminate. }
    rewrite (Hf2 a (Hlater a Ha)) in Hsa. rewrite (Hf2 b (Hlater b Hb)) in Hsb.
    rewrite Hc1 in Hsa, Hsb.
    apply (calculateRowIndices_separates store
             (List.filter (starts_in_week store row0) segments) a b sa sb);
      assumption.
  - apply (IH (S i) store1 g1 Hg1') with (j := j) (row := row) (a := a) (b := b);
      trivial; try (now rewrite Hfilter).
    intros j1 j2 r1 r2 x H1 H2 S1 S2. rewrite Hsiw in S1, S2.
    assert (E : S j1 = S j2) by (eapply (Hdis (S j1) (S j2)); eauto). lia.
Qed.

Lemma group_entry_Some (l l' : list nat) : group_entry l = Some l' -> l' = l.
Proof. destruct l; [discriminate|]. now intros [= <-]. Qed.

(** On a grid of weeks, after groupSegmentsByWeek no two segments of one
    group whose column intervals intersect have the same rowIndex: the
    stacking of a week is not disturbed by the stacking of the later
    weeks. *)
Theorem groupSegmentsByWeek_no_collision (store : list TaskSegment)
    (segments : list nat) (weekRows : list WeekRow) (first : Z)
    (j : nat) (l : list nat) (a b : nat) (sa sb : TaskSegment) :
  week_grid first weekRows ->
  snd (groupSegmentsByWeek store segments weekRows) !! j = Some l ->
  In a l -> In b l -> a <> b ->
  fst (groupSegmentsByWeek store segments weekRows) !! a = Some sa ->
  fst (groupSegmentsByWeek store segments weekRows) !! b = Some sb ->
  columns_intersect sa sb ->
  rowIndex sa <> rowIndex sb.
Proof.
  intros Hgrid Hj Ha Hb Hab Hsa Hsb Hc.
  assert (Hfresh : forall k, (0 <= k)%nat -> (∅ : gmap nat (list nat)) !! k = None)
    by (intros; apply lookup_empty).
  destruct (group_fold segments weekRows 0 store ∅ Hfresh) as (_ & _ & Hg).
  unfold groupSegmentsByWeek in *. rewrite Hg in Hj. simpl in Hj.
  rewrite Nat.sub_0_r in Hj.
  destruct (weekRows !! j) as [row|] eqn:Er; [|discriminate]. simpl in Hj.
  apply group_entry_Some in Hj. subst l.
  apply (group_fold_separates segments weekRows 0 store ∅ Hfresh
           (fun j1 j2 r1 r2 x => week_grid_disjoint store weekRows first j1 j2 r1 r2 x Hgrid)
           j row a b sa sb); trivial.
  now apply columns_intersect_overlap.
Qed.

Lemma groupSegmentsByWeek_no_collision_witness :
  rowIndex (set_rowIndex 0 segment_A) <> rowIndex (set_rowIndex 1 segment_B).
Proof.
  apply (groupSegmentsByWeek_no_collision [segment_A; segment_B] [0%nat; 1%nat]
           march_grid 19778 2 [0%nat; 1%nat] 0%nat 1%nat).
  - exact march_grid_weeks.
  - vm_compute. reflexivity.
  - now left.
  - right. now left.
  - discriminate.
  - vm_compute. reflexivity.
  - vm_compute. reflexivity.
  - exists 2. vm_compute. repeat split; discriminate.
Defined.

(** ** App.tsx: from a selection to a task *)

(** A selection drag over civil dates that ends, followed by the submit
    of the modal, appends one task to the list: it has the fresh id, the
    name and category of the form, and the selected range in normal order,
    start not after end, whichever way the drag went; the modal is closed
    and the selection cleared. *)
Theorem selection_commit_creates_task (newId : string) (state : AppState)
    (anchor cursor : IsoDate) (name : string) (category : Category) (ta tc : Date) :
  selection state = mkSelection (Some anchor) (Some cursor) true ->
  parseISO anchor = Some ta -> parseISO cursor = Some tc ->
  exists opened action created task,
    appReducer newId state SELECTION_END = Ok opened /\
    handleTaskCreate opened name category = Some action /\
    appReducer newId opened action = Ok created /\
    tasks created = tasks state ++ [task] /\
    task_id task = newId /\ task_name task = name /\ task_category task = category /\
    task_start task = iso_min anchor cursor /\
    task_end task = iso_max anchor cursor /\
    js_le (parseISO (task_start task)) (parseISO (task_end task)) = true /\
    modal_open (modal created) = false /\
    isSelecting (selection created) = false.
Proof.
  intros Hsel Ha Hc.
  pose proof (normalizeDateRange_iso_min_max _ _ _ _ Ha Hc) as Hn.
  destruct (normalizeDateRange_ordered _ _ _ _ Ha Hc) as (s & e & Hs & He & Hle).
  rewrite Hn in Hs, He. cbn [range_start range_end] in Hs, He.
  eexists. eexists. eexists. eexists.
  split; [cbn [appReducer]; rewrite Hsel; reflexivity|].
  split; [unfold handleTaskCreate; cbn; reflexivity|].
  split; [reflexivity|].
  cbn -[parseISO iso_min iso_max normalizeDateRange]. rewrite Hn.
  cbn [range_start range_end].
  do 6 (split; [reflexivity|]).
  cbn [task_start task_end]. rewrite Hs, He. cbn [js_le].
  split; [apply Z.leb_le; exact Hle|split; reflexivity].
Qed.

Lemma selection_commit_creates_task_witness :
  exists opened action created task,
    appReducer "new"
      (mkState [] (mkSelection (Some (mkIso 2024 3 12)) (Some (mkIso 2024 3 8)) true)
         (mkModal false None None) (mkFilters "" [] 0) 0) SELECTION_END = Ok opened /\
    handleTaskCreate opened "Plan" ToDo = Some action /\
    appReducer "new" opened action = Ok created /\
    tasks created = [] ++ [task] /\
    task_id task = "new"%string /\ task_name task = "Plan"%string /\
    task_category task = ToDo /\
    task_start task = iso_min (mkIso 2024 3 12) (mkIso 2024 3 8) /\
    task_end task = iso_max (mkIso 2024 3 12) (mkIso 2024 3 8) /\
    js_le (parseISO (task_start task)) (parseISO (task_end task)) = true /\
    modal_open (modal created) = false /\
    isSelecting (selection created) = false.
Proof.
  apply (selection_commit_creates_task "new"
           (mkState [] (mkSelection (Some (mkIso 2024 3 12)) (Some (mkIso 2024 3 8)) true)
              (mkModal false None None) (mkFilters "" [] 0) 0)
           (mkIso 2024 3 12) (mkIso 2024 3 8) "Plan" ToDo
           (dateOfDay 19794) (dateOfDay 19790)).
  - reflexivity.
  - vm_compute. reflexivity.
  - vm_compute. reflexivity.
Defined.

(** ** components/TaskBar.tsx: dragging a bar *)

Lemma iso_eqb_eq (a b : IsoDate) : iso_eqb a b = true <-> a = b.
Proof.
  unfold iso_eqb. rewrite !andb_true_iff, !Z.eqb_eq. destruct a, b. simpl.
  split; [intros [[-> ->] ->]; reflexivity|intros [= -> -> ->]; auto].
Qed.

(** A bar dragged over its own start day emits no move.  Dragged over
    another civil date of the year 0001 or later, it emits a move to that
    date, and the TASK_MOVE that App dispatches for it returns a state
    with a task of the same id that starts at that date. *)
Theorem handleDragMove_moves_to_target (newId : string) (state : AppState)
    (task : Task) (d : IsoDate) (ts te td : Date) :
  List.find (fun t => String.eqb (task_id t) (task_id task)) (tasks state) = Some task ->
  parseISO (task_start task) = Some ts ->
  parseISO (task_end task) = Some te ->
  parseISO d = Some td ->
  1 <= iso_year d ->
  d <> task_start task ->
  handleDragMove task (Some (task_start task)) = None /\
  exists state' task',
    handleDragMove task (Some d) = Some (task_id task, d) /\
    appReducer newId state (TASK_MOVE (task_id task) d) = Ok state' /\
    In task' (tasks state') /\
    task_id task' = task_id task /\ task_start task' = d.
Proof.
  intros Hf Hs He Hd Hy Hne. split.
  - unfold handleDragMove.
    rewrite (proj2 (iso_eqb_eq _ _) eq_refl). reflexivity.
  - eexists. eexists. split.
    + unfold handleDragMove. destruct (iso_eqb d (task_start task)) eqn:E;
        [apply iso_eqb_eq in E; contradiction|reflexivity].
    + split; [eapply task_move_found; eassumption|].
      cbn [set_tasks tasks]. apply find_some in Hf as [Hin _].
      split; [apply in_map_iff; exists task; split; [reflexivity|exact Hin]|].
      unfold move_task. rewrite String.eqb_refl.
      cbn [set_range task_id task_start]. split; [reflexivity|].
      now apply format_parseISO.
Qed.

Lemma handleDragMove_moves_to_target_witness :
  handleDragMove demo_task (Some (task_start demo_task)) = None /\
  exists state' task',
    handleDragMove demo_task (Some (mkIso 2024 3 20)) = Some (task_id demo_task, mkIso 2024 3 20) /\
    appReducer "new" demo_state (TASK_MOVE (task_id demo_task) (mkIso 2024 3 20)) = Ok state' /\
    In task' (tasks state') /\
    task_id task' = task_id demo_task /\ task_start task' = mkIso 2024 3 20.
Proof.
  apply (handleDragMove_moves_to_target "new" demo_state demo_task (mkIso 2024 3 20)
           (dateOfDay 19792) (dateOfDay 19797) (dateOfDay 19802)).
  - reflexivity.
  - vm_compute. reflexivity.
  - vm_compute. reflexivity.
  - vm_compute. reflexivity.
  - vm_compute. discriminate.
  - discriminate.
Defined.

(** ** components/CalendarMonth.tsx *)



(** For a month of the years 0001 to 9999, currentMonthTasks keeps, in
    their order, the tasks on civil dates that have a day in the month:
    those that start on or before the last day of the month and end on
    or after its first day. *)
Theorem currentMonthTasks_overlap_month (month : Date) (tasks : list Task) :
  FIRST_DAY <= month_first_day month -> month_last_day month <= LAST_DAY ->
  exists kept,
    currentMonthTasks month tasks = Ok kept /\
    (exists keep, kept = List.filter keep tasks) /\
    forall task ts te,
      parseISO (task_start task) = Some ts -> parseISO (task_end task) = Some te ->
      (In task kept <->
       In task tasks /\
       dayOf ts <= month_last_day month /\ month_first_day month <= dayOf te).
Proof.
  intros Hlo Hhi. pose proof (month_first_le_last month) as Hfl.
  assert (Hms : 0 <= MS_PER_DAY - 1 < MS_PER_DAY) by (unfold MS_PER_DAY; lia).
  unfold currentMonthTasks.
  rewrite startOfMonth_in_range, endOfMonth_in_range
    by (unfold FIRST_DAY, LAST_DAY in *; lia).
  cbn [format_date mbind Result_bind].
  rewrite parseISO_format_day by lia.
  rewrite parseISO_format by (rewrite dayOf_within by assumption; lia).
  unfold startOfDay. rewrite dayOf_within by assumption.
  eexists. split; [reflexivity|]. split; [eexists; reflexivity|].
  intros task ts te Hs He. rewrite filter_In, Hs, He. cbn [js_le].
  rewrite andb_true_iff, !Z.leb_le.
  rewrite (parseISO_midnight _ _ Hs) at 1. rewrite (parseISO_midnight _ _ He) at 1.
  rewrite !dateOfDay_le. reflexivity.
Qed.

Lemma currentMonthTasks_overlap_month_witness :
  exists kept,
    currentMonthTasks march_2024 [demo_task; april_task] = Ok kept /\
    (exists keep, kept = List.filter keep [demo_task; april_task]) /\
    forall task ts te,
      parseISO (task_start task) = Some ts -> parseISO (task_end task) = Some te ->
      (In task kept <->
       In task [demo_task; april_task] /\
       dayOf ts <= month_last_day march_2024 /\ month_first_day march_2024 <= dayOf te).
Proof.
  apply (currentMonthTasks_overlap_month march_2024 [demo_task; april_task]);
    vm_compute; discriminate.
Defined.

Lemma taskStats_fold (l : list Task) (total c i t r : Z) :
  fold_left (fun stats task =>
    match task_category task with
    | Completed => mkStats (stats_total stats) (stats_completed stats + 1)
                     (stats_inProgress stats) (stats_todo stats) (stats_review stats)
    | InProgress => mkStats (stats_total stats) (stats_completed stats)
                      (stats_inProgress stats + 1) (stats_todo stats) (stats_review stats)
    | ToDo => mkStats (stats_total stats) (stats_completed stats)
                (stats_inProgress stats) (stats_todo stats + 1) (stats_review stats)
    | Review => mkStats (stats_total stats) (stats_completed stats)
                  (stats_inProgress stats) (stats_todo stats) (stats_review stats + 1)
    end) l (mkStats total c i t r)
  = mkStats total (c + count_category Completed l) (i + count_category InProgress l)
            (t + count_category ToDo l) (r + count_category Review l).
Proof.
  revert c i t r. induction l as [|x l IH]; intros c i t r.
  - unfold count_category. simpl. f_equal; lia.
  - cbn [fold_left]. unfold count_category in *. cbn [List.filter].
    destruct (task_category x); cbn [stats_total stats_completed stats_inProgress
      stats_todo stats_review length]; rewrite IH; f_equal; lia.
Qed.

Lemma count_category_total (l : list Task) :
  count_category Completed l + count_category InProgress l
  + count_category ToDo l + count_category Review l = Z.of_nat (length l).
Proof.
  unfold count_category. induction l as [|x l IH]; [reflexivity|].
  cbn [List.filter]. destruct (task_category x); cbn [length]; lia.
Qed.

(** taskStats counts the tasks of each category, and the four counters
    add up to the total. *)
Theorem taskStats_counts (l : list Task) :
  stats_total (taskStats l) = Z.of_nat (length l) /\
  stats_completed (taskStats l) = count_category Completed l /\
  stats_inProgress (taskStats l) = count_category InProgress l /\
  stats_todo (taskStats l) = count_category ToDo l /\
  stats_review (taskStats l) = count_category Review l /\
  stats_completed (taskStats l) + stats_inProgress (taskStats l)
  + stats_todo (taskStats l) + stats_review (taskStats l) = stats_total (taskStats l).
Proof.
  unfold taskStats. rewrite taskStats_fold.
  cbn [stats_total stats_completed stats_inProgress stats_todo stats_review].
  pose proof (count_category_total l). repeat split; lia.
Qed.
